(** * cryptlib bignum support routines (context/ctx_bn.c)

    A shallow embedding of the bignum value operations and of the BN_CTX
    pool allocator, with the properties of the fixed-capacity design.

    Conventions of the embedding.

    - A C [int] is a [Z].  Every [int] the functions compute with is bounded
      by an array size once the sanity checks have passed, far below
      INT_MAX, so no signed arithmetic overflows.  Integer division and
      remainder are C's (truncating): [Z.quot] and [Z.rem].
    - A [BN_ULONG] is a [Z] in the range [0, 2^BN_BITS2).
    - A pointer to a bignum of a BN_CTX is the place it points to
      ([bnref]); NULL is [None].
    - An array is a list.  An access of the [stack] or of one of the bignum
      arrays of a BN_CTX outside the array is undefined behaviour in C: the
      BN_CTX functions return [None] there.
    - The word array [d] of a bignum is as long as the C type of the bignum
      (BIGNUM, BIGNUM_EXT, BIGNUM_EXT2) declares it ([storage_ok]).  The
      functions touch words below [dmax] only, after sanityCheckBignum has
      bounded [dmax]; the theorems assume [storage_ok], under which every
      word access is in range. *)

From Stdlib Require Import ZArith Lia Bool.
From stdpp Require Import base option list.

Local Open Scope Z_scope.

(** ** Constants of the headers

    bn.h, crypt.h and context.h are not part of the sources at hand: the
    constants they define are parameters of the development. *)

Class BnConfig : Type := {
  BN_BITS2 : Z;                   (* bits in a BN_ULONG *)
  BN_NAN : Z;                     (* the not-a-number word of BN_get_word *)
  BIGNUM_ALLOC_WORDS : Z;         (* words of d[] in a BIGNUM *)
  BIGNUM_ALLOC_WORDS_EXT : Z;     (* words of d[] in a BIGNUM_EXT *)
  BIGNUM_ALLOC_WORDS_EXT2 : Z;    (* words of d[] in a BIGNUM_EXT2 *)
  BN_CTX_ARRAY_SIZE : Z;
  BN_CTX_EXTARRAY_SIZE : Z;
  BN_CTX_EXT2ARRAY_SIZE : Z;
  BN_FLG_NONE : Z;
  BN_FLG_MAX : Z;
  BN_FLG_STATIC_DATA : Z;
  BN_FLG_ALLOC_EXT : Z;
  BN_FLG_ALLOC_EXT2 : Z
}.

Definition TRUE : Z := 1.
Definition FALSE : Z := 0.

(** [flags & mask] used as a C condition. *)
Definition flag_set (flags mask : Z) : bool := negb (Z.land flags mask =? 0).

(** What the code takes for granted about the constants: array sizes are
    those the code indexes ([bnExtArray[0]], [bnExt2Array[1]], [d[0]]), a
    zeroed flags word is valid, and the allocation-class flags are distinct
    bits inside the valid range. *)
Record cfg_ok `{BnConfig} : Prop := {
  bits_pos : 0 < BN_BITS2;
  words_pos : 1 <= BIGNUM_ALLOC_WORDS;
  words_ext_pos : 1 <= BIGNUM_ALLOC_WORDS_EXT;
  words_ext2_pos : 1 <= BIGNUM_ALLOC_WORDS_EXT2;
  array_pos : 1 <= BN_CTX_ARRAY_SIZE;
  extarray_pos : 1 <= BN_CTX_EXTARRAY_SIZE;
  ext2array_pos : 2 <= BN_CTX_EXT2ARRAY_SIZE;
  flg_none : BN_FLG_NONE <= 0;
  flg_max : 0 <= BN_FLG_MAX;
  flg_static_range : BN_FLG_NONE <= BN_FLG_STATIC_DATA <= BN_FLG_MAX;
  flg_ext_range : BN_FLG_NONE <= BN_FLG_ALLOC_EXT <= BN_FLG_MAX;
  flg_ext2_range : BN_FLG_NONE <= BN_FLG_ALLOC_EXT2 <= BN_FLG_MAX;
  flg_static_bit : flag_set BN_FLG_STATIC_DATA BN_FLG_STATIC_DATA = true;
  flg_ext_bit : flag_set BN_FLG_ALLOC_EXT BN_FLG_ALLOC_EXT = true;
  flg_ext2_bit : flag_set BN_FLG_ALLOC_EXT2 BN_FLG_ALLOC_EXT2 = true;
  flg_ext_ext2 : flag_set BN_FLG_ALLOC_EXT2 BN_FLG_ALLOC_EXT = false;
  flg_static_ext : flag_set BN_FLG_STATIC_DATA BN_FLG_ALLOC_EXT = false;
  flg_static_ext2 : flag_set BN_FLG_STATIC_DATA BN_FLG_ALLOC_EXT2 = false;
  flg_ext_static : flag_set BN_FLG_ALLOC_EXT BN_FLG_STATIC_DATA = false;
  flg_ext2_static : flag_set BN_FLG_ALLOC_EXT2 BN_FLG_STATIC_DATA = false
}.
Arguments cfg_ok _ : clear implicits.

(** ** Arrays indexed by a C int *)

Definition zlookup {A} (l : list A) (i : Z) : option A :=
  if decide (0 <= i) then l !! Z.to_nat i else None.

Definition zinsert {A} (i : Z) (x : A) (l : list A) : option (list A) :=
  if decide (0 <= i < Z.of_nat (length l)) then Some (<[Z.to_nat i := x]> l)
  else None.

(** Words of a bignum: [d[i]] read and written.  Outside the array the
    read gives 0 and the write changes nothing; on a bignum whose array has
    the size of its class the embedded functions make no such access. *)
Definition rd (ws : list Z) (i : Z) : Z := default 0 (zlookup ws i).
Definition wr (ws : list Z) (i : Z) (w : Z) : list Z :=
  if decide (0 <= i) then <[Z.to_nat i := w]> ws else ws.

(** [zeroise( d, bnWordsToBytes( n ) )] and
    [memcpy( dest, src, bnWordsToBytes( n ) )] on word arrays of at least
    [n] words. *)
Definition zeroise (ws : list Z) (n : Z) : list Z :=
  replicate (Z.to_nat n) 0 ++ drop (Z.to_nat n) ws.
Definition memcpy (dest src : list Z) (n : Z) : list Z :=
  take (Z.to_nat n) src ++ drop (Z.to_nat n) dest.

(** ** The bignum

    The structure is declared in bn.h, outside the sources; its fields are
    those ctx_bn.c reads and writes, in the order of the initialiser in
    BN_value_one. *)

Record BIGNUM : Type := mkBIGNUM {
  dmax : Z;         (* words allocated *)
  top : Z;          (* words in use *)
  neg : Z;          (* sign flag, a BOOLEAN *)
  flags : Z;        (* BN_FLG_xxx *)
  d : list Z        (* the words, least significant first *)
}.

Definition with_value (bignum : BIGNUM) (top' neg' : Z) (d' : list Z) : BIGNUM :=
  {| dmax := dmax bignum; top := top'; neg := neg'; flags := flags bignum;
     d := d' |}.

Section Bignum.
Context `{cfg : BnConfig}.

(** Modelled from the spec: the macros bnWordsToBits and BN_is_zero are
    defined in bn.h, outside the sources; a bignum is zero when no word is
    in use. *)
Definition bnWordsToBits (n : Z) : Z := n * BN_BITS2.
Definition BN_is_zero (bignum : BIGNUM) : bool := top bignum =? 0.

Definition getBNMaxSize (bignum : BIGNUM) : Z :=
  if flag_set (flags bignum) BN_FLG_ALLOC_EXT then BIGNUM_ALLOC_WORDS_EXT
  else if flag_set (flags bignum) BN_FLG_ALLOC_EXT2 then BIGNUM_ALLOC_WORDS_EXT2
  else BIGNUM_ALLOC_WORDS.

Definition sanityCheckBignum (bignum : BIGNUM) : bool :=
  if (dmax bignum <? 1) || (dmax bignum >? getBNMaxSize bignum) then false
  else if (top bignum <? 0) || (top bignum >? dmax bignum) then false
  else if negb (neg bignum =? TRUE) && negb (neg bignum =? FALSE) then false
  else if (flags bignum <? BN_FLG_NONE) || (flags bignum >? BN_FLG_MAX) then false
  else true.

(** The REQUIRES_x and ENSURES_x macros are defined outside the sources.
    A failed check makes the function return at once with the failure value
    of its return type (nothing, NULL, FALSE); what the function has
    written up to that point stays written.  A debug build raises an
    assertion first; the embedding follows the release build. *)

Definition BN_clear (bignum : BIGNUM) : BIGNUM :=
  if negb (sanityCheckBignum bignum) then bignum            (* REQUIRES_V *)
  else if negb (flag_set (flags bignum) BN_FLG_STATIC_DATA) then
    with_value bignum 0 0 (zeroise (d bignum) (dmax bignum))
  else bignum.

(** [memset( bignum, 0, sizeof( BIGNUM ) )], then dmax. *)
Definition BN_init : BIGNUM :=
  {| dmax := BIGNUM_ALLOC_WORDS; top := 0; neg := 0; flags := 0;
     d := replicate (Z.to_nat BIGNUM_ALLOC_WORDS) 0 |}.

Definition BN_init_ext (isExt2Bignum : bool) : BIGNUM :=
  if isExt2Bignum then
    {| dmax := BIGNUM_ALLOC_WORDS_EXT2; top := 0; neg := 0;
       flags := BN_FLG_ALLOC_EXT2;
       d := replicate (Z.to_nat BIGNUM_ALLOC_WORDS_EXT2) 0 |}
  else
    {| dmax := BIGNUM_ALLOC_WORDS_EXT; top := 0; neg := 0;
       flags := BN_FLG_ALLOC_EXT;
       d := replicate (Z.to_nat BIGNUM_ALLOC_WORDS_EXT) 0 |}.

(** Returns the destination as written, or [None] for NULL (the
    destination is then as it was). *)
Definition BN_copy (destBignum srcBignum : BIGNUM) : option BIGNUM :=
  if negb (sanityCheckBignum destBignum) then None          (* REQUIRES_N *)
  else if negb (sanityCheckBignum srcBignum) then None      (* REQUIRES_N *)
  else if negb (dmax destBignum >=? top srcBignum) then None (* REQUIRES_N *)
  else Some (with_value destBignum (top srcBignum) (neg srcBignum)
               (memcpy (d destBignum) (d srcBignum) (top srcBignum))).

(** The two operands after the call.  [bnPtr] is followed as an option;
    the closing BN_clear( &tmp ) works on the local bignum and the final
    ENSURES_V returns from a void function: neither changes an operand. *)
Definition BN_swap (bignum1 bignum2 : BIGNUM) : BIGNUM * BIGNUM :=
  if negb (negb (flag_set (flags bignum1) BN_FLG_STATIC_DATA)) then
    (bignum1, bignum2)                                      (* REQUIRES_V *)
  else if negb (negb (flag_set (flags bignum1) BN_FLG_STATIC_DATA)) then
    (bignum1, bignum2)                                      (* REQUIRES_V *)
  else
    let tmp := BN_init in
    match BN_copy tmp bignum1 with
    | None => (bignum1, bignum2)
    | Some tmp =>
        match BN_copy bignum1 bignum2 with
        | None => (bignum1, bignum2)
        | Some bignum1' =>
            match BN_copy bignum2 tmp with
            | None => (bignum1', bignum2)
            | Some bignum2' => (bignum1', bignum2')
            end
        end
    end.

Definition BN_value_one : BIGNUM :=
  {| dmax := BIGNUM_ALLOC_WORDS; top := 1; neg := FALSE;
     flags := BN_FLG_STATIC_DATA;
     d := 1 :: replicate (Z.to_nat (BIGNUM_ALLOC_WORDS - 1)) 0 |}.

Definition BN_get_word (bignum : BIGNUM) : Z :=
  if negb (sanityCheckBignum bignum) then BN_NAN            (* REQUIRES_EXT *)
  else if top bignum >? 1 then BN_NAN
  else if top bignum <? 1 then 0
  else rd (d bignum) 0.

Definition BN_set_word (bignum : BIGNUM) (word : Z) : bool * BIGNUM :=
  if negb (sanityCheckBignum bignum) then (false, bignum)   (* REQUIRES_B *)
  else if negb (negb (flag_set (flags bignum) BN_FLG_STATIC_DATA)) then
    (false, bignum)                                         (* REQUIRES_B *)
  else
    let bignum := BN_clear bignum in
    (true, with_value bignum (if word =? 0 then 0 else 1) (neg bignum)
             (wr (d bignum) 0 word)).

(** The loop [for( index = top; index < wordIndex + 1; index++ )
    d[ index ] = 0] of BN_set_bit; [bound] is [wordIndex + 1]. *)
Fixpoint set_bit_loop (fuel : nat) (index bound : Z) (ws : list Z)
  : Z * list Z :=
  match fuel with
  | O => (index, ws)
  | S fuel =>
      if index <? bound then set_bit_loop fuel (index + 1) bound (wr ws index 0)
      else (index, ws)
  end.

Definition BN_set_bit (bignum : BIGNUM) (bitNo : Z) : bool * BIGNUM :=
  let wordIndex := Z.quot bitNo BN_BITS2 in
  let bitIndex := Z.rem bitNo BN_BITS2 in
  let iterationBound := getBNMaxSize bignum in
  if negb (sanityCheckBignum bignum) then (false, bignum)   (* REQUIRES_B *)
  else if negb (negb (flag_set (flags bignum) BN_FLG_STATIC_DATA)) then
    (false, bignum)                                         (* REQUIRES_B *)
  else if negb ((bitNo >=? 0) && (bitNo <? bnWordsToBits (dmax bignum))) then
    (false, bignum)                                         (* REQUIRES_B *)
  else
    let set_it (bignum : BIGNUM) :=
      let bignum :=
        with_value bignum (top bignum) (neg bignum)
          (wr (d bignum) wordIndex
              (Z.lor (rd (d bignum) wordIndex) (Z.shiftl 1 bitIndex))) in
      if negb (sanityCheckBignum bignum) then (false, bignum) (* ENSURES_B *)
      else (true, bignum) in
    if top bignum <? wordIndex + 1 then
      if negb (wordIndex <? dmax bignum) then (false, bignum) (* REQUIRES_B *)
      else
        let '(index, ws) :=
          set_bit_loop (Z.to_nat (wordIndex + 1 - top bignum))
            (top bignum) (wordIndex + 1) (d bignum) in
        let bignum := with_value bignum (top bignum) (neg bignum) ws in
        if negb (index <? iterationBound) then (false, bignum) (* ENSURES_B *)
        else set_it (with_value bignum (wordIndex + 1) (neg bignum) ws)
    else set_it bignum.

(** The result of BN_is_bit_set: the BOOLEAN a check or the function body
    returns.  A failed REQUIRES_B returns FALSE as an internal error, which
    the C caller cannot tell from a clear bit; the embedding keeps the two
    apart. *)
Inductive bit_result : Type :=
| Bit (b : bool)
| BitInternalError.

Definition bit_value (r : bit_result) : bool :=
  match r with Bit b => b | BitInternalError => false end.

Definition BN_is_bit_set (bignum : BIGNUM) (bitNo : Z) : bit_result :=
  let wordIndex := Z.quot bitNo BN_BITS2 in
  let bitIndex := Z.rem bitNo BN_BITS2 in
  if negb (sanityCheckBignum bignum) then BitInternalError  (* REQUIRES_B *)
  else if negb (bitNo <? bnWordsToBits (dmax bignum)) then
    BitInternalError                                        (* REQUIRES_B *)
  else if bitNo <? 0 then Bit false
  else if wordIndex >=? top bignum then Bit false
  else Bit (negb (Z.land (rd (d bignum) wordIndex) (Z.shiftl 1 bitIndex) =? 0)).

Definition BN_set_negative (bignum : BIGNUM) (value : Z) : BIGNUM :=
  if BN_is_zero bignum then bignum
  else with_value bignum (top bignum) (if value =? 0 then FALSE else TRUE)
         (d bignum).

(** The loop of BN_normalise on [(top, iterationCount)]. *)
Fixpoint normalise_loop (fuel : nat) (ws : list Z) (top iterationCount bound : Z)
  : Z * Z :=
  match fuel with
  | O => (top, iterationCount)
  | S fuel =>
      if (top >? 0) && (iterationCount <? bound) then
        if negb (rd ws (top - 1) =? 0) then (top, iterationCount)   (* break *)
        else normalise_loop fuel ws (top - 1) (iterationCount + 1) bound
      else (top, iterationCount)
  end.

Definition BN_normalise (bignum : BIGNUM) : bool * BIGNUM :=
  let iterationBound := getBNMaxSize bignum in
  if negb (sanityCheckBignum bignum) then (false, bignum)   (* REQUIRES_B *)
  else if BN_is_zero bignum then (true, bignum)
  else
    let '(top', iterationCount) :=
      normalise_loop (Z.to_nat iterationBound) (d bignum) (top bignum) 0
        iterationBound in
    let bignum := with_value bignum top' (neg bignum) (d bignum) in
    if negb (iterationCount <? iterationBound) then (false, bignum) (* ENSURES_B *)
    else if negb (sanityCheckBignum bignum) then (false, bignum)    (* ENSURES_B *)
    else (true, bignum).

End Bignum.

(** ** The BN_CTX pool

    The structure is declared in bn.h, outside the sources; its fields are
    those ctx_bn.c reads and writes. *)

Record BN_CTX : Type := mkBN_CTX {
  bnArray : list BIGNUM;        (* BIGNUM bnArray[ BN_CTX_ARRAY_SIZE ] *)
  bnExtArray : list BIGNUM;     (* BIGNUM_EXT bnExtArray[ BN_CTX_EXTARRAY_SIZE ] *)
  bnExt2Array : list BIGNUM;    (* BIGNUM_EXT2 bnExt2Array[ BN_CTX_EXT2ARRAY_SIZE ] *)
  bnArrayMax : Z;               (* last-used position in bnArray *)
  stack : list Z;               (* int stack[ BN_CTX_ARRAY_SIZE ] *)
  stackPos : Z
}.

Definition with_bnArray (bnCTX : BN_CTX) (a : list BIGNUM) : BN_CTX :=
  {| bnArray := a; bnExtArray := bnExtArray bnCTX;
     bnExt2Array := bnExt2Array bnCTX; bnArrayMax := bnArrayMax bnCTX;
     stack := stack bnCTX; stackPos := stackPos bnCTX |}.
Definition with_bnExtArray (bnCTX : BN_CTX) (a : list BIGNUM) : BN_CTX :=
  {| bnArray := bnArray bnCTX; bnExtArray := a;
     bnExt2Array := bnExt2Array bnCTX; bnArrayMax := bnArrayMax bnCTX;
     stack := stack bnCTX; stackPos := stackPos bnCTX |}.
Definition with_bnExt2Array (bnCTX : BN_CTX) (a : list BIGNUM) : BN_CTX :=
  {| bnArray := bnArray bnCTX; bnExtArray := bnExtArray bnCTX;
     bnExt2Array := a; bnArrayMax := bnArrayMax bnCTX;
     stack := stack bnCTX; stackPos := stackPos bnCTX |}.
Definition with_stack (bnCTX : BN_CTX) (s : list Z) (pos : Z) : BN_CTX :=
  {| bnArray := bnArray bnCTX; bnExtArray := bnExtArray bnCTX;
     bnExt2Array := bnExt2Array bnCTX; bnArrayMax := bnArrayMax bnCTX;
     stack := s; stackPos := pos |}.
Definition with_bnArrayMax (bnCTX : BN_CTX) (m : Z) : BN_CTX :=
  {| bnArray := bnArray bnCTX; bnExtArray := bnExtArray bnCTX;
     bnExt2Array := bnExt2Array bnCTX; bnArrayMax := m;
     stack := stack bnCTX; stackPos := stackPos bnCTX |}.

(** A [BIGNUM *] into a BN_CTX. *)
Inductive bnref : Type :=
| InArray (i : Z)         (* &bnCTX->bnArray[ i ] *)
| InExtArray (i : Z)      (* ( BIGNUM * ) &bnCTX->bnExtArray[ i ] *)
| InExt2Array (i : Z).    (* ( BIGNUM * ) &bnCTX->bnExt2Array[ i ] *)

Definition deref (bnCTX : BN_CTX) (p : bnref) : option BIGNUM :=
  match p with
  | InArray i => zlookup (bnArray bnCTX) i
  | InExtArray i => zlookup (bnExtArray bnCTX) i
  | InExt2Array i => zlookup (bnExt2Array bnCTX) i
  end.

Definition store (bnCTX : BN_CTX) (p : bnref) (b : BIGNUM) : option BN_CTX :=
  match p with
  | InArray i => with_bnArray bnCTX <$> zinsert i b (bnArray bnCTX)
  | InExtArray i => with_bnExtArray bnCTX <$> zinsert i b (bnExtArray bnCTX)
  | InExt2Array i => with_bnExt2Array bnCTX <$> zinsert i b (bnExt2Array bnCTX)
  end.

(** The enumeration is declared in bn.h, outside the sources; the code
    names these five members and compares with the first and the last. *)
Inductive BIGNUM_EXT_TYPE : Type :=
| BIGNUM_EXT_NONE
| BIGNUM_EXT_MONT
| BIGNUM_EXT_MUL1
| BIGNUM_EXT_MUL2
| BIGNUM_EXT_LAST.

Definition ext_type_value (t : BIGNUM_EXT_TYPE) : Z :=
  match t with
  | BIGNUM_EXT_NONE => 0
  | BIGNUM_EXT_MONT => 1
  | BIGNUM_EXT_MUL1 => 2
  | BIGNUM_EXT_MUL2 => 3
  | BIGNUM_EXT_LAST => 4
  end.

Definition ext_type_eqb (a b : BIGNUM_EXT_TYPE) : bool :=
  ext_type_value a =? ext_type_value b.

Section Pool.
Context `{cfg : BnConfig}.

Definition sanityCheckBNCTX (bnCTX : BN_CTX) : bool :=
  if (bnArrayMax bnCTX <? 0) || (bnArrayMax bnCTX >? BN_CTX_ARRAY_SIZE) then false
  else if (stackPos bnCTX <? 0) || (stackPos bnCTX >=? BN_CTX_ARRAY_SIZE) then false
  else true.

(** [memset( bnCTX, 0, sizeof( BN_CTX ) )], then every bignum initialised. *)
Definition BN_CTX_init : BN_CTX :=
  {| bnArray := replicate (Z.to_nat BN_CTX_ARRAY_SIZE) BN_init;
     bnExtArray := replicate (Z.to_nat BN_CTX_EXTARRAY_SIZE) (BN_init_ext false);
     bnExt2Array := replicate (Z.to_nat BN_CTX_EXT2ARRAY_SIZE) (BN_init_ext true);
     bnArrayMax := 0;
     stack := replicate (Z.to_nat BN_CTX_ARRAY_SIZE) 0;
     stackPos := 0 |}.

(** The closing ENSURES_V( sanityCheckBNCTX( bnCTX ) ) of the void functions
    returns the context as written whether it holds or not. *)
Definition BN_CTX_start (bnCTX : BN_CTX) : option BN_CTX :=
  if negb (sanityCheckBNCTX bnCTX) then Some bnCTX          (* REQUIRES_V *)
  else
    let stackPos := stackPos bnCTX + 1 in
    v ← zlookup (stack bnCTX) (stackPos - 1);
    s ← zinsert stackPos v (stack bnCTX);
    Some (with_stack bnCTX s stackPos).

(** The loop of BN_CTX_end, from [i] on; [hi] is
    [stack[ stackPos ]].  Returns the final [i] and the array. *)
Fixpoint end_loop (fuel : nat) (i hi : Z) (a : list BIGNUM)
  : option (Z * list BIGNUM) :=
  match fuel with
  | O => Some (i, a)
  | S fuel =>
      if (i <? hi) && (i <? BN_CTX_ARRAY_SIZE) then
        b ← zlookup a i;
        a ← zinsert i (BN_clear b) a;
        end_loop fuel (i + 1) hi a
      else Some (i, a)
  end.

Definition BN_CTX_end (bnCTX : BN_CTX) : option BN_CTX :=
  if negb (sanityCheckBNCTX bnCTX) then Some bnCTX          (* REQUIRES_V *)
  else
    lo ← zlookup (stack bnCTX) (stackPos bnCTX - 1);
    hi ← zlookup (stack bnCTX) (stackPos bnCTX);
    if negb (lo <=? hi) then Some bnCTX                     (* REQUIRES_V *)
    else
      '(i, a) ← end_loop (Z.to_nat (BN_CTX_ARRAY_SIZE - lo)) lo hi (bnArray bnCTX);
      let bnCTX := with_bnArray bnCTX a in
      if negb (i <? BN_CTX_ARRAY_SIZE) then Some bnCTX      (* ENSURES_V *)
      else
        s ← zinsert (stackPos bnCTX) 0 (stack bnCTX);
        Some (with_stack bnCTX s (stackPos bnCTX - 1)).

(** The pointer returned (or NULL) and the context after the call. *)
Definition BN_CTX_get (bnCTX : BN_CTX) : option (option bnref * BN_CTX) :=
  v ← zlookup (stack bnCTX) (stackPos bnCTX);
  let arrayIndex := v + 1 in
  if bnArrayMax bnCTX >=? BN_CTX_ARRAY_SIZE then Some (None, bnCTX)
  else if negb (sanityCheckBNCTX bnCTX) then Some (None, bnCTX) (* REQUIRES_N *)
  else
    let bignum := InArray (arrayIndex - 1) in
    s ← zinsert (stackPos bnCTX) arrayIndex (stack bnCTX);
    let bnCTX := with_stack bnCTX s (stackPos bnCTX) in
    let bnCTX :=
      if arrayIndex >? bnArrayMax bnCTX then with_bnArrayMax bnCTX arrayIndex
      else bnCTX in
    if negb (sanityCheckBNCTX bnCTX) then Some (None, bnCTX) (* ENSURES_N *)
    else Some (Some bignum, bnCTX).

(** The function writes nothing to the context; it returns the pointer or
    NULL. *)
Definition BN_CTX_get_ext (bnCTX : BN_CTX) (bnExtType : BIGNUM_EXT_TYPE)
  : option bnref :=
  if negb ((ext_type_value bnExtType >? ext_type_value BIGNUM_EXT_NONE)
           && (ext_type_value bnExtType <? ext_type_value BIGNUM_EXT_LAST))
  then None                                                 (* ENSURES_N *)
  else
    match bnExtType with
    | BIGNUM_EXT_MONT => Some (InExtArray 0)
    | BIGNUM_EXT_MUL1 => Some (InExt2Array 0)
    | BIGNUM_EXT_MUL2 => Some (InExt2Array 1)
    | _ => None                                             (* retIntError_Null *)
    end.

(** [BN_clear( p )] through a pointer; clearing through NULL or outside an
    array is undefined. *)
Definition clear_at (bnCTX : BN_CTX) (p : option bnref) : option BN_CTX :=
  p ← p;
  b ← deref bnCTX p;
  store bnCTX p (BN_clear b).

Definition BN_CTX_end_ext (bnCTX : BN_CTX) (bnExtType : BIGNUM_EXT_TYPE)
  : option BN_CTX :=
  bnCTX ← BN_CTX_end bnCTX;
  if negb (ext_type_eqb bnExtType BIGNUM_EXT_MUL1
           || ext_type_eqb bnExtType BIGNUM_EXT_MONT)
  then Some bnCTX                                           (* ENSURES_V *)
  else if ext_type_eqb bnExtType BIGNUM_EXT_MUL1 then
    bnCTX ← clear_at bnCTX (BN_CTX_get_ext bnCTX BIGNUM_EXT_MUL1);
    clear_at bnCTX (BN_CTX_get_ext bnCTX BIGNUM_EXT_MUL2)
  else
    clear_at bnCTX (BN_CTX_get_ext bnCTX BIGNUM_EXT_MONT).

End Pool.


(** ** The value of a bignum and its well-formedness *)

Section BignumValue.
Context `{cfg : BnConfig}.

(** The magnitude: the words in use, least significant first, base
    [2^BN_BITS2]. *)
Fixpoint words_value (ws : list Z) : Z :=
  match ws with
  | [] => 0
  | w :: ws => w + 2 ^ BN_BITS2 * words_value ws
  end.

Definition bn_value (bignum : BIGNUM) : Z :=
  words_value (take (Z.to_nat (top bignum)) (d bignum)).

(** The array [d] has the size the allocation class of the bignum says. *)
Definition storage_ok (bignum : BIGNUM) : Prop :=
  Z.of_nat (length (d bignum)) = getBNMaxSize bignum.

(** Every word is a BN_ULONG. *)
Definition words_ok (bignum : BIGNUM) : Prop :=
  Forall (fun w => 0 <= w < 2 ^ BN_BITS2) (d bignum).

(** Canonical zero: a bignum of value zero uses no word and is not
    negative. *)
Definition canonical_zero (bignum : BIGNUM) : Prop :=
  bn_value bignum = 0 -> top bignum = 0 /\ neg bignum = FALSE.

Definition is_static (bignum : BIGNUM) : bool :=
  flag_set (flags bignum) BN_FLG_STATIC_DATA.

End BignumValue.

(** ** Contexts in use *)

Section PoolSpec.
Context `{cfg : BnConfig}.

(** The allocation mark of the active checkpoint,
    [stack[ stackPos ]]: how many bignums of [bnArray] are handed out and
    not yet released. *)
Definition stack_top (bnCTX : BN_CTX) : option Z :=
  zlookup (stack bnCTX) (stackPos bnCTX).

(** [n] calls of BN_CTX_get in a row and the pointers they return. *)
Fixpoint get_n (n : nat) (bnCTX : BN_CTX)
  : option (list (option bnref) * BN_CTX) :=
  match n with
  | O => Some ([], bnCTX)
  | S n =>
      '(p, bnCTX) ← BN_CTX_get bnCTX;
      '(ps, bnCTX) ← get_n n bnCTX;
      Some (p :: ps, bnCTX)
  end.

(** The pointers to the [n] bignums of [bnArray] from index [t] on. *)
Fixpoint temporaries (t : Z) (n : nat) : list (option bnref) :=
  match n with
  | O => []
  | S n => Some (InArray t) :: temporaries (t + 1) n
  end.

(** The caller writes the bignums [bs] through the pointers [ps]; a write
    through NULL is undefined. *)
Fixpoint store_all (bnCTX : BN_CTX) (ps : list (option bnref))
    (bs : list BIGNUM) : option BN_CTX :=
  match ps, bs with
  | p :: ps, b :: bs =>
      p ← p;
      bnCTX ← store bnCTX p b;
      store_all bnCTX ps bs
  | _, _ => Some bnCTX
  end.

(** What a caller may leave in a temporary: a bignum that passes the
    sanity check and is not static. *)
Definition slot_ok (b : BIGNUM) : Prop :=
  sanityCheckBignum b = true /\ is_static b = false.

(** One checkpoint: start, [n] temporaries, the caller's data [bs] written
    into them, end. *)
Definition checkpoint (n : nat) (bs : list BIGNUM) (bnCTX : BN_CTX)
  : option BN_CTX :=
  bnCTX ← BN_CTX_start bnCTX;
  '(ps, bnCTX) ← get_n n bnCTX;
  bnCTX ← store_all bnCTX ps bs;
  BN_CTX_end bnCTX.

(** The checkpoint, then start and [n] temporaries again: the context
    after the release, the pointers of the second round and the context
    they point into. *)
Definition checkpoint_again (n : nat) (bs : list BIGNUM) (bnCTX : BN_CTX)
  : option (BN_CTX * list (option bnref) * BN_CTX) :=
  released ← checkpoint n bs bnCTX;
  bnCTX ← BN_CTX_start released;
  '(qs, bnCTX) ← get_n n bnCTX;
  Some (released, qs, bnCTX).

(** Start, [n] temporaries and the caller's data: one more level of
    nesting, with its pointers. *)
Definition enter (n : nat) (bs : list BIGNUM) (bnCTX : BN_CTX)
  : option (list (option bnref) * BN_CTX) :=
  bnCTX ← BN_CTX_start bnCTX;
  '(ps, bnCTX) ← get_n n bnCTX;
  bnCTX ← store_all bnCTX ps bs;
  Some (ps, bnCTX).

(** Three nested checkpoints and their releases, innermost first: the
    pointers of each level, the context with all three levels live
    ([c3]), and the contexts after the release of the third ([c2]), the
    second ([c1]) and the first level ([c0]). *)
Definition three_levels (n1 n2 n3 : nat) (bs1 bs2 bs3 : list BIGNUM)
    (bnCTX : BN_CTX)
  : option (list (option bnref) * list (option bnref) * list (option bnref)
            * BN_CTX * BN_CTX * BN_CTX * BN_CTX) :=
  '(ps1, c) ← enter n1 bs1 bnCTX;
  '(ps2, c) ← enter n2 bs2 c;
  '(ps3, c3) ← enter n3 bs3 c;
  c2 ← BN_CTX_end c3;
  c1 ← BN_CTX_end c2;
  c0 ← BN_CTX_end c1;
  Some (ps1, ps2, ps3, c3, c2, c1, c0).

(** The temporaries behind a list of pointers, their [top] and their value
    as a word. *)
Definition deref_all (bnCTX : BN_CTX) (ps : list (option bnref))
  : list (option BIGNUM) :=
  map (fun p => p ≫= deref bnCTX) ps.
Definition tops (bnCTX : BN_CTX) (ps : list (option bnref)) : list (option Z) :=
  map (fmap top) (deref_all bnCTX ps).
Definition values (bnCTX : BN_CTX) (ps : list (option bnref)) : list (option Z) :=
  map (fmap BN_get_word) (deref_all bnCTX ps).

(** The contexts a caller can get to: from BN_CTX_init by the functions of
    the pool and by writes through pointers into it. *)
Inductive reachable : BN_CTX -> Prop :=
| reachable_init : reachable BN_CTX_init
| reachable_start bnCTX bnCTX' :
    reachable bnCTX -> BN_CTX_start bnCTX = Some bnCTX' -> reachable bnCTX'
| reachable_end bnCTX bnCTX' :
    reachable bnCTX -> BN_CTX_end bnCTX = Some bnCTX' -> reachable bnCTX'
| reachable_end_ext bnCTX t bnCTX' :
    reachable bnCTX -> BN_CTX_end_ext bnCTX t = Some bnCTX' -> reachable bnCTX'
| reachable_get bnCTX p bnCTX' :
    reachable bnCTX -> BN_CTX_get bnCTX = Some (p, bnCTX') -> reachable bnCTX'
| reachable_store bnCTX p b bnCTX' :
    reachable bnCTX -> store bnCTX p b = Some bnCTX' -> reachable bnCTX'.

(** The bookkeeping of a context in use: the arrays have their sizes, the
    marks of the nested checkpoints do not decrease, the active mark is at
    most the last-used position, and the last-used position is at the
    capacity only when the active mark is. *)
Record ctx_inv (bnCTX : BN_CTX) : Prop := {
  inv_stack_len : Z.of_nat (length (stack bnCTX)) = BN_CTX_ARRAY_SIZE;
  inv_array_len : Z.of_nat (length (bnArray bnCTX)) = BN_CTX_ARRAY_SIZE;
  inv_ext_len : Z.of_nat (length (bnExtArray bnCTX)) = BN_CTX_EXTARRAY_SIZE;
  inv_ext2_len : Z.of_nat (length (bnExt2Array bnCTX)) = BN_CTX_EXT2ARRAY_SIZE;
  inv_pos : 0 <= stackPos bnCTX < BN_CTX_ARRAY_SIZE;
  inv_max : 0 <= bnArrayMax bnCTX <= BN_CTX_ARRAY_SIZE;
  inv_sorted : forall i j x y,
    0 <= i <= j -> j <= stackPos bnCTX ->
    zlookup (stack bnCTX) i = Some x -> zlookup (stack bnCTX) j = Some y ->
    0 <= x <= y;
  inv_top : forall t, stack_top bnCTX = Some t ->
    t <= bnArrayMax bnCTX /\
    (bnArrayMax bnCTX = BN_CTX_ARRAY_SIZE -> t = BN_CTX_ARRAY_SIZE)
}.

End PoolSpec.

(** ** A configuration for the examples

    A pool of eight bignums, as in the end-to-end scenario of the
    specification, 64-bit words and four words to a bignum (the
    initialiser of BN_value_one names four). *)

Definition cfg8 : BnConfig := {|
  BN_BITS2 := 64;
  BN_NAN := 2 ^ 64 - 1;
  BIGNUM_ALLOC_WORDS := 4;
  BIGNUM_ALLOC_WORDS_EXT := 8;
  BIGNUM_ALLOC_WORDS_EXT2 := 16;
  BN_CTX_ARRAY_SIZE := 8;
  BN_CTX_EXTARRAY_SIZE := 1;
  BN_CTX_EXT2ARRAY_SIZE := 2;
  BN_FLG_NONE := 0;
  BN_FLG_MAX := 31;
  BN_FLG_STATIC_DATA := 2;
  BN_FLG_ALLOC_EXT := 8;
  BN_FLG_ALLOC_EXT2 := 16
|}.

(** A bignum of the standard class holding one word. *)
Definition bn_of_word `{BnConfig} (w : Z) : BIGNUM :=
  (BN_set_word BN_init w).2.

Section PoolExamplesDefs.
#[local] Existing Instance cfg8.

(** The context after BN_CTX_start and eight BN_CTX_get on a fresh
    context, the words 1 to 8 written into the temporaries: the pool is
    exhausted. *)
Definition pool_full : BN_CTX :=
  default BN_CTX_init
    (snd <$> enter 8 (map bn_of_word [1; 2; 3; 4; 5; 6; 7; 8]) BN_CTX_init).

(** The context after BN_CTX_start on a fresh context, with the words 7, 8
    and 9 written into the extended bignums of BIGNUM_EXT_MONT,
    BIGNUM_EXT_MUL1 and BIGNUM_EXT_MUL2. *)
Definition ext_in_use : BN_CTX :=
  default BN_CTX_init
    (c ← BN_CTX_start BN_CTX_init;
     c ← store c (InExtArray 0) (BN_set_word (BN_init_ext false) 7).2;
     c ← store c (InExt2Array 0) (BN_set_word (BN_init_ext true) 8).2;
     store c (InExt2Array 1) (BN_set_word (BN_init_ext true) 9).2).

(** The pointers of the three purposes. *)
Definition ext_pointers (bnCTX : BN_CTX) : list (option bnref) :=
  [BN_CTX_get_ext bnCTX BIGNUM_EXT_MONT;
   BN_CTX_get_ext bnCTX BIGNUM_EXT_MUL1;
   BN_CTX_get_ext bnCTX BIGNUM_EXT_MUL2].

End PoolExamplesDefs.

(** ** The rest of ctx_bn.c

    More constants of the headers: the status that retIntError() returns,
    the flag of a bignum from the heap, the bytes in a BN_ULONG and the
    largest size of a public-key value in bytes. *)

Class BnConfigMore : Type := {
  CRYPT_ERROR_INTERNAL : Z;
  BN_FLG_MALLOCED : Z;
  BN_BYTES : Z;
  CRYPT_MAX_PKCSIZE : Z
}.

(** What the code takes for granted about them: the heap flag is a valid
    flag and none of the allocation-class or static bits, and the largest
    size is not negative. *)
Record cfg_more_ok `{BnConfig} `{BnConfigMore} : Prop := {
  flg_malloced_range : BN_FLG_NONE <= BN_FLG_MALLOCED <= BN_FLG_MAX;
  flg_malloced_ext : flag_set BN_FLG_MALLOCED BN_FLG_ALLOC_EXT = false;
  flg_malloced_ext2 : flag_set BN_FLG_MALLOCED BN_FLG_ALLOC_EXT2 = false;
  flg_malloced_static : flag_set BN_FLG_MALLOCED BN_FLG_STATIC_DATA = false;
  flg_malloced_bit : flag_set BN_FLG_MALLOCED BN_FLG_MALLOCED = true;
  pkcsize_pos : 0 <= CRYPT_MAX_PKCSIZE
}.
Arguments cfg_more_ok _ _ : clear implicits.

Section MoreBignum.
Context `{cfg : BnConfig} `{more : BnConfigMore}.

(** The macros cryptStatusError, bytesToBits, BN_num_bytes and BN_zero are
    defined in crypt.h and bn.h, outside the sources.  They are taken as
    cryptlib and its bignum library define them: a status below CRYPT_OK,
    which is 0, is an error; a byte has eight bits; the bytes of a bignum
    are those its bits need, [( BN_num_bits( a ) + 7 ) / 8]; and BN_zero
    is [BN_set_word( a, 0 )]. *)
Definition cryptStatusError (status : Z) : bool := status <? 0.
Definition bytesToBits (n : Z) : Z := n * 8.
Definition BN_zero (bignum : BIGNUM) : BIGNUM := (BN_set_word bignum 0).2.

(** The loop of BN_num_bits_word on [(i, value)]. *)
Fixpoint num_bits_word_loop (fuel : nat) (i value : Z) : Z * Z :=
  match fuel with
  | O => (i, value)
  | S fuel =>
      if (i <? 128) && (value >? 0) then
        num_bits_word_loop fuel (i + 1) (Z.shiftr value 1)
      else (i, value)
  end.

Definition BN_num_bits_word (word : Z) : Z :=
  let '(i, _) := num_bits_word_loop 128 0 word in
  if negb (i <? 128) then CRYPT_ERROR_INTERNAL              (* ENSURES *)
  else i.

Definition BN_num_bits (bignum : BIGNUM) : Z :=
  let lastWordIndex := top bignum - 1 in
  if negb (sanityCheckBignum bignum) then CRYPT_ERROR_INTERNAL (* REQUIRES *)
  else if top bignum <=? 0 then 0
  else
    let bits := BN_num_bits_word (rd (d bignum) lastWordIndex) in
    let status := bits in
    if cryptStatusError status then status
    else lastWordIndex * BN_BITS2 + bits.

Definition BN_num_bytes (bignum : BIGNUM) : Z :=
  Z.quot (BN_num_bits bignum + 7) 8.

(** The cast [( int )] of a BN_ULONG: the low 32 bits, as a signed
    number. *)
Definition to_int (x : Z) : Z :=
  let r := x mod 2 ^ 32 in
  if r <? 2 ^ 31 then r else r - 2 ^ 32.

Definition BN_high_bit (bignum : BIGNUM) : bool :=
  let noBytes := BN_num_bytes bignum - 1 in
  if negb (sanityCheckBignum bignum) then false             (* REQUIRES_B *)
  else if noBytes <? 0 then false
  else
    let highWord := rd (d bignum) (Z.quot noBytes BN_BYTES) in
    let highByte := to_int (Z.shiftr highWord (Z.rem noBytes BN_BYTES * 8)) in
    negb (Z.land highByte 128 =? 0).

(** Bignums from the heap.  Whether clAlloc() finds memory is an input,
    [alloc]; NULL is [None]. *)
Definition BN_new (alloc : bool) : option BIGNUM :=
  if alloc then
    Some {| dmax := dmax BN_init; top := top BN_init; neg := neg BN_init;
            flags := BN_FLG_MALLOCED; d := d BN_init |}
  else None.

(** The bignum as BN_free leaves it, and whether its memory is given
    back. *)
Definition BN_free (bignum : BIGNUM) : BIGNUM * bool :=
  let bignum := BN_clear bignum in
  (bignum, flag_set (flags bignum) BN_FLG_MALLOCED).

Definition BN_dup (alloc : bool) (bignum : BIGNUM) : option BIGNUM :=
  match BN_new alloc with
  | None => None
  | Some newBignum =>
      match BN_copy newBignum bignum with
      | None => let _ := BN_free newBignum in None
      | Some newBignum => Some newBignum
      end
  end.

(** *** BN_CTX_final *)

(** The context is zeroised and every bignum initialised again: the state
    BN_CTX_init leaves. *)
Definition BN_CTX_final (bnCTX : BN_CTX) : BN_CTX :=
  if negb (sanityCheckBNCTX bnCTX) then bnCTX               (* REQUIRES_V *)
  else BN_CTX_init.

(** *** The reduction contexts

    Both structures are declared in bn.h, outside the sources; the fields
    are those ctx_bn.c reads and writes. *)

Record BN_MONT_CTX : Type := mkBN_MONT_CTX {
  mont_RR : BIGNUM;       (* RR *)
  mont_N : BIGNUM;        (* N *)
  mont_ri : Z;            (* ri *)
  mont_flags : Z          (* flags *)
}.

Record BN_RECP_CTX : Type := mkBN_RECP_CTX {
  recp_N : BIGNUM;        (* N *)
  recp_Nr : BIGNUM;       (* Nr *)
  recp_num_bits : Z       (* num_bits *)
}.

Definition sanityCheckBNMontCTX (bnMontCTX : BN_MONT_CTX) : bool :=
  if negb (sanityCheckBignum (mont_RR bnMontCTX))
     || negb (sanityCheckBignum (mont_N bnMontCTX)) then false
  else if (mont_ri bnMontCTX <? 0)
          || (mont_ri bnMontCTX >? bytesToBits CRYPT_MAX_PKCSIZE) then false
  else if negb (mont_flags bnMontCTX =? 0)
          && negb (mont_flags bnMontCTX =? BN_FLG_MALLOCED) then false
  else true.

Definition BN_MONT_CTX_init : BN_MONT_CTX :=
  {| mont_RR := BN_init; mont_N := BN_init; mont_ri := 0; mont_flags := 0 |}.

(** The context as BN_MONT_CTX_free leaves it; with the elliptic-curve
    code compiled in, its memory is given back when it came from the
    heap. *)
Definition BN_MONT_CTX_free (bnMontCTX : BN_MONT_CTX) : BN_MONT_CTX * bool :=
  ({| mont_RR := BN_clear (mont_RR bnMontCTX);
      mont_N := BN_clear (mont_N bnMontCTX);
      mont_ri := mont_ri bnMontCTX; mont_flags := mont_flags bnMontCTX |},
   flag_set (mont_flags bnMontCTX) BN_FLG_MALLOCED).

Definition BN_RECP_CTX_init : BN_RECP_CTX :=
  {| recp_N := BN_init; recp_Nr := BN_init; recp_num_bits := 0 |}.

Definition BN_RECP_CTX_free (bnRecpCTX : BN_RECP_CTX) : BN_RECP_CTX :=
  {| recp_N := BN_clear (recp_N bnRecpCTX);
     recp_Nr := BN_clear (recp_Nr bnRecpCTX);
     recp_num_bits := recp_num_bits bnRecpCTX |}.

(** TRUE or FALSE and the context after the call; the BN_CTX argument is
    not used. *)
Definition BN_RECP_CTX_set (bnRecpCTX : BN_RECP_CTX) (d : BIGNUM)
  : bool * BN_RECP_CTX :=
  let bnRecpCTX := BN_RECP_CTX_init in
  match BN_copy (recp_N bnRecpCTX) d with
  | None => (false, bnRecpCTX)
  | Some n =>
      (true,
       {| recp_N := n; recp_Nr := BN_zero (recp_Nr bnRecpCTX);
          recp_num_bits := BN_num_bits d |})
  end.

(** *** Steps of a caller *)

(** One call of a function of the pool, or one write through a pointer
    into it. *)
Inductive pool_step : BN_CTX -> BN_CTX -> Prop :=
| step_start c c' : BN_CTX_start c = Some c' -> pool_step c c'
| step_end c c' : BN_CTX_end c = Some c' -> pool_step c c'
| step_end_ext c t c' : BN_CTX_end_ext c t = Some c' -> pool_step c c'
| step_get c p c' : BN_CTX_get c = Some (p, c') -> pool_step c c'
| step_store c p b c' : store c p b = Some c' -> pool_step c c'.

(** The contexts a caller gets to from [c] by such steps. *)
Inductive pool_later (c : BN_CTX) : BN_CTX -> Prop :=
| later_here : pool_later c c
| later_step c' c'' : pool_later c c' -> pool_step c' c'' -> pool_later c c''.

(** The entries of the stack above the active one are zero. *)
Definition stack_clean (bnCTX : BN_CTX) : Prop :=
  forall j, stackPos bnCTX < j < BN_CTX_ARRAY_SIZE ->
    zlookup (stack bnCTX) j = Some 0.

(** The number of bits of a number that is not negative. *)
Definition bit_length (x : Z) : Z := if x =? 0 then 0 else Z.log2 x + 1.

(** A bignum is normalised when it is zero or its last word in use is
    not. *)
Definition normalised (bignum : BIGNUM) : Prop :=
  top bignum = 0 \/ rd (d bignum) (top bignum - 1) <> 0.

End MoreBignum.

(** The further constants of the example configuration. *)
Definition cfg8_more : BnConfigMore := {|
  CRYPT_ERROR_INTERNAL := -16;
  BN_FLG_MALLOCED := 1;
  BN_BYTES := 8;
  CRYPT_MAX_PKCSIZE := 512
|}.

(** ** Bignums and contexts for the examples *)

Section MoreExamplesDefs.
#[local] Existing Instance cfg8.
#[local] Existing Instance cfg8_more.

(** 5 + 2^70: two words in use. *)
Definition bn_two_words : BIGNUM := (BN_set_bit (bn_of_word 5) 70).2.

(** 5 with three words in use, the last two of them zero. *)
Definition bn_padded : BIGNUM :=
  with_value (bn_of_word 5) 3 0 (d (bn_of_word 5)).

(** A plain bignum with all four words in use and all of them zero. *)
Definition bn_full_zero : BIGNUM := with_value BN_init 4 0 (d BN_init).

(** 2^300 in a bignum of bnExtArray: five words in use. *)
Definition bn_ext_five : BIGNUM := (BN_set_bit (BN_init_ext false) 300).2.

(** 7 in a bignum that declares a single word. *)
Definition bn_small : BIGNUM :=
  {| dmax := 1; top := 1; neg := 0; flags := 0; d := [7; 0; 0; 0] |}.

(** The context after seven BN_CTX_start on a fresh context. *)
Definition pool_deep : BN_CTX :=
  default BN_CTX_init
    (Nat.iter 7 (fun c => c ≫= BN_CTX_start) (Some BN_CTX_init)).

(** A reciprocal context and a Montgomery context in use. *)
Definition recp_in_use : BN_RECP_CTX :=
  {| recp_N := bn_of_word 5; recp_Nr := bn_of_word 6; recp_num_bits := 3 |}.
Definition mont_in_use : BN_MONT_CTX :=
  {| mont_RR := bn_of_word 5; mont_N := bn_two_words; mont_ri := 64;
     mont_flags := 0 |}.

End MoreExamplesDefs.

(** ** Facts about the array operations *)

Lemma zlookup_Some {A} (l : list A) i x :
  zlookup l i = Some x <-> 0 <= i /\ l !! Z.to_nat i = Some x.
Proof. unfold zlookup. case_decide; [tauto | split; [done | lia]]. Qed.

Lemma zlookup_in_range {A} (l : list A) i :
  0 <= i < Z.of_nat (length l) -> exists x, zlookup l i = Some x.
Proof.
  intros Hi. destruct (lookup_lt_is_Some_2 l (Z.to_nat i)) as [x Hx]; [lia|].
  exists x. apply zlookup_Some. split; [lia | done].
Qed.

Lemma zlookup_range {A} (l : list A) i x :
  zlookup l i = Some x -> 0 <= i < Z.of_nat (length l).
Proof.
  intros [Hi Hx]%zlookup_Some. apply lookup_lt_Some in Hx. lia.
Qed.

Lemma zinsert_Some {A} i (x : A) l l' :
  zinsert i x l = Some l' <->
  0 <= i < Z.of_nat (length l) /\ l' = <[Z.to_nat i := x]> l.
Proof.
  unfold zinsert. case_decide; split.
  - by intros [= <-].
  - by intros [_ ->].
  - done.
  - tauto.
Qed.

Lemma zinsert_in_range {A} i (x : A) l :
  0 <= i < Z.of_nat (length l) -> zinsert i x l = Some (<[Z.to_nat i := x]> l).
Proof. intros. unfold zinsert. by rewrite decide_True. Qed.

Lemma zlookup_insert_eq {A} (l : list A) i x :
  0 <= i < Z.of_nat (length l) -> zlookup (<[Z.to_nat i := x]> l) i = Some x.
Proof.
  intros Hi. apply zlookup_Some. split; [lia|].
  apply list_lookup_insert_eq. lia.
Qed.

Lemma zlookup_insert_ne {A} (l : list A) i j x :
  0 <= i -> i <> j -> zlookup (<[Z.to_nat i := x]> l) j = zlookup l j.
Proof.
  intros Hi Hne. unfold zlookup. case_decide; [|done].
  apply list_lookup_insert_ne. lia.
Qed.

Lemma length_wr ws i w : length (wr ws i w) = length ws.
Proof. unfold wr. case_decide; [apply length_insert | done]. Qed.

Lemma rd_wr_eq ws i w :
  0 <= i < Z.of_nat (length ws) -> rd (wr ws i w) i = w.
Proof.
  intros Hi. unfold rd, wr. rewrite decide_True by lia.
  by rewrite zlookup_insert_eq.
Qed.

Lemma take_wr_ge ws i w n : (n <= Z.to_nat i)%nat -> 0 <= i -> take n (wr ws i w) = take n ws.
Proof.
  intros Hn Hi. unfold wr. rewrite decide_True by done.
  by apply take_insert_ge.
Qed.

Lemma length_zeroise ws n :
  n <= Z.of_nat (length ws) -> length (zeroise ws n) = length ws.
Proof.
  intros Hn. unfold zeroise.
  rewrite length_app, length_replicate, length_drop. lia.
Qed.

Lemma length_memcpy dest src n :
  n <= Z.of_nat (length src) -> n <= Z.of_nat (length dest) ->
  length (memcpy dest src n) = length dest.
Proof.
  intros Hs Hd. unfold memcpy.
  rewrite length_app, length_take, length_drop. lia.
Qed.

Lemma take_memcpy dest src n :
  n <= Z.of_nat (length src) ->
  take (Z.to_nat n) (memcpy dest src n) = take (Z.to_nat n) src.
Proof.
  intros Hs. unfold memcpy.
  rewrite take_app_le by (rewrite length_take; lia).
  rewrite take_take. f_equal. lia.
Qed.

Lemma drop_memcpy dest src n :
  n <= Z.of_nat (length src) ->
  drop (Z.to_nat n) (memcpy dest src n) = drop (Z.to_nat n) dest.
Proof.
  intros Hs. unfold memcpy.
  rewrite drop_app_length'; [done|]. rewrite length_take. lia.
Qed.


(** ** Facts about bignums *)

Section BignumFacts.
Context `{cfg : BnConfig}.

Lemma sanityCheckBignum_spec bignum :
  sanityCheckBignum bignum = true <->
  1 <= dmax bignum <= getBNMaxSize bignum /\
  0 <= top bignum <= dmax bignum /\
  (neg bignum = TRUE \/ neg bignum = FALSE) /\
  BN_FLG_NONE <= flags bignum <= BN_FLG_MAX.
Proof.
  unfold sanityCheckBignum, TRUE, FALSE. rewrite !Z.gtb_ltb.
  destruct (Z.ltb_spec (dmax bignum) 1), (Z.ltb_spec (getBNMaxSize bignum) (dmax bignum)),
    (Z.ltb_spec (top bignum) 0), (Z.ltb_spec (dmax bignum) (top bignum)),
    (Z.eqb_spec (neg bignum) 1), (Z.eqb_spec (neg bignum) 0),
    (Z.ltb_spec (flags bignum) BN_FLG_NONE), (Z.ltb_spec BN_FLG_MAX (flags bignum));
    simpl; split; intros; try done; lia.
Qed.

Lemma words_value_replicate n : words_value (replicate n 0) = 0.
Proof. induction n as [|n IH]; simpl; [done | rewrite IH; lia]. Qed.

(** Zero words above the value do not change it. *)
Lemma words_value_app_zeros ws n :
  words_value (ws ++ replicate n 0) = words_value ws.
Proof.
  induction ws as [|w ws IH]; simpl.
  - apply words_value_replicate.
  - by rewrite IH.
Qed.

Lemma words_value_nonneg ws :
  Forall (fun w => 0 <= w) ws -> 0 <= words_value ws.
Proof.
  induction 1 as [|w ws Hw _ IH]; simpl; [lia|].
  pose proof (Z.pow_nonneg 2 BN_BITS2). nia.
Qed.

Lemma words_value_zero ws :
  0 <= BN_BITS2 -> Forall (fun w => 0 <= w) ws -> words_value ws = 0 ->
  Forall (fun w => w = 0) ws.
Proof.
  intros Hb. induction 1 as [|w ws Hw Hws IH]; simpl; intros Hv; [done|].
  pose proof (words_value_nonneg ws Hws).
  assert (0 < 2 ^ BN_BITS2) by (apply Z.pow_pos_nonneg; lia).
  constructor; [nia|]. apply IH. nia.
Qed.

Lemma sane_dmax_length bignum :
  sanityCheckBignum bignum = true -> storage_ok bignum ->
  0 <= top bignum <= dmax bignum /\
  1 <= dmax bignum <= Z.of_nat (length (d bignum)).
Proof.
  intros Hs%sanityCheckBignum_spec Hl. unfold storage_ok in Hl. lia.
Qed.

(** *** The bignums the code creates *)

Lemma BN_init_ok :
  cfg_ok cfg ->
  sanityCheckBignum BN_init = true /\ is_static BN_init = false /\
  storage_ok BN_init.
Proof.
  intros Hc. pose proof (words_pos Hc). pose proof (flg_none Hc).
  pose proof (flg_max Hc). split; [|split].
  - apply sanityCheckBignum_spec.
    unfold getBNMaxSize, flag_set, TRUE, FALSE. simpl. lia.
  - reflexivity.
  - unfold storage_ok, getBNMaxSize, flag_set. simpl.
    rewrite length_replicate. lia.
Qed.

Lemma BN_init_ext_ok (isExt2Bignum : bool) :
  cfg_ok cfg ->
  sanityCheckBignum (BN_init_ext isExt2Bignum) = true /\
  is_static (BN_init_ext isExt2Bignum) = false /\
  storage_ok (BN_init_ext isExt2Bignum).
Proof.
  intros Hc. pose proof (words_ext_pos Hc). pose proof (words_ext2_pos Hc).
  pose proof (flg_ext_range Hc). pose proof (flg_ext2_range Hc).
  unfold is_static, storage_ok.
  destruct isExt2Bignum; simpl; (split; [|split]).
  - apply sanityCheckBignum_spec. unfold getBNMaxSize, TRUE, FALSE. simpl.
    rewrite (flg_ext_ext2 Hc), (flg_ext2_bit Hc). lia.
  - apply (flg_ext2_static Hc).
  - unfold getBNMaxSize. simpl. rewrite (flg_ext_ext2 Hc), (flg_ext2_bit Hc).
    rewrite length_replicate. lia.
  - apply sanityCheckBignum_spec. unfold getBNMaxSize, TRUE, FALSE. simpl.
    rewrite (flg_ext_bit Hc). lia.
  - apply (flg_ext_static Hc).
  - unfold getBNMaxSize. simpl. rewrite (flg_ext_bit Hc).
    rewrite length_replicate. lia.
Qed.

Lemma BN_value_one_ok :
  cfg_ok cfg ->
  sanityCheckBignum BN_value_one = true /\ is_static BN_value_one = true /\
  storage_ok BN_value_one /\ bn_value BN_value_one = 1.
Proof.
  intros Hc. pose proof (words_pos Hc). pose proof (flg_static_range Hc).
  unfold is_static, storage_ok, bn_value.
  split; [|split; [|split]]; simpl.
  - apply sanityCheckBignum_spec. unfold getBNMaxSize. simpl.
    rewrite (flg_static_ext Hc), (flg_static_ext2 Hc). unfold TRUE, FALSE. lia.
  - apply (flg_static_bit Hc).
  - unfold getBNMaxSize. simpl.
    rewrite (flg_static_ext Hc), (flg_static_ext2 Hc).
    rewrite length_replicate. lia.
  - lia.
Qed.

(** *** BN_clear *)

Lemma BN_clear_cleared bignum :
  sanityCheckBignum bignum = true -> is_static bignum = false ->
  BN_clear bignum =
  with_value bignum 0 0 (zeroise (d bignum) (dmax bignum)).
Proof.
  intros Hs Hst. unfold BN_clear, is_static in *. by rewrite Hs, Hst.
Qed.

Lemma BN_clear_top bignum :
  sanityCheckBignum bignum = true -> is_static bignum = false ->
  top (BN_clear bignum) = 0 /\ neg (BN_clear bignum) = 0.
Proof. intros Hs Hst. by rewrite BN_clear_cleared. Qed.

(** *** BN_copy *)

(** C4.  BN_copy into a destination of sufficient capacity returns the
    destination with exactly the first [top src] words of the source, the
    source's [top] and sign, hence the source's value; the words above,
    [dmax] and [flags] of the destination are as they were. *)
Theorem BN_copy_fidelity (dest src : BIGNUM) :
  sanityCheckBignum dest = true -> sanityCheckBignum src = true ->
  storage_ok dest -> storage_ok src ->
  dmax dest >= top src ->
  exists dest',
    BN_copy dest src = Some dest' /\
    take (Z.to_nat (top src)) (d dest') = take (Z.to_nat (top src)) (d src) /\
    drop (Z.to_nat (top src)) (d dest') = drop (Z.to_nat (top src)) (d dest) /\
    top dest' = top src /\ neg dest' = neg src /\
    bn_value dest' = bn_value src /\
    dmax dest' = dmax dest /\ flags dest' = flags dest /\
    length (d dest') = length (d dest).
Proof.
  intros Hd Hs Hld Hls Hcap.
  destruct (sane_dmax_length _ Hd Hld) as [? ?].
  destruct (sane_dmax_length _ Hs Hls) as [? ?].
  eexists. split.
  { unfold BN_copy. rewrite Hd, Hs. simpl.
    replace (dmax dest >=? top src) with true by (symmetry; apply Z.geb_le; lia).
    simpl. reflexivity. }
  simpl. unfold bn_value. simpl.
  rewrite take_memcpy, drop_memcpy, length_memcpy by lia. done.
Qed.


(** *** BN_is_bit_set *)

Lemma bit_index_range bitNo n :
  0 < BN_BITS2 -> 0 <= bitNo < bnWordsToBits n ->
  0 <= Z.quot bitNo BN_BITS2 < n /\ 0 <= Z.rem bitNo BN_BITS2 < BN_BITS2.
Proof.
  unfold bnWordsToBits. intros Hb Hn.
  rewrite Z.quot_div_nonneg, Z.rem_mod_nonneg by lia.
  split; [|apply Z.mod_pos_bound; lia].
  split; [apply Z.div_pos; lia|].
  apply Z.div_lt_upper_bound; lia.
Qed.

Lemma BN_is_bit_set_above_top (bignum : BIGNUM) (bitNo : Z) :
  Z.quot bitNo BN_BITS2 >= top bignum ->
  bit_value (BN_is_bit_set bignum bitNo) = false.
Proof.
  intros Htop. unfold BN_is_bit_set.
  destruct (sanityCheckBignum bignum); simpl; [|done].
  destruct (bitNo <? bnWordsToBits (dmax bignum)); simpl; [|done].
  replace (Z.quot bitNo BN_BITS2 >=? top bignum) with true
    by (symmetry; apply Z.geb_le; lia).
  by destruct (bitNo <? 0).
Qed.

(** C7.  BN_is_bit_set returns FALSE for a negative bit index, and through
    the special case of the function body (not through a failed check) for
    every bignum that passes the sanity check; it returns FALSE for a bit
    whose word is at or above [top], again through the function body when
    the bit index is below the capacity. *)
Theorem BN_is_bit_set_off_range (bignum : BIGNUM) (bitNo : Z) :
  0 < BN_BITS2 ->
  (bitNo < 0 ->
     bit_value (BN_is_bit_set bignum bitNo) = false /\
     (sanityCheckBignum bignum = true ->
      BN_is_bit_set bignum bitNo = Bit false)) /\
  (Z.quot bitNo BN_BITS2 >= top bignum ->
     bit_value (BN_is_bit_set bignum bitNo) = false /\
     (sanityCheckBignum bignum = true ->
      bitNo < bnWordsToBits (dmax bignum) ->
      BN_is_bit_set bignum bitNo = Bit false)).
Proof.
  intros Hb. unfold BN_is_bit_set. split.
  - intros Hneg.
    destruct (sanityCheckBignum bignum) eqn:Hs; simpl; [|by split].
    apply sanityCheckBignum_spec in Hs.
    replace (bitNo <? bnWordsToBits (dmax bignum)) with true
      by (symmetry; apply Z.ltb_lt; unfold bnWordsToBits; nia).
    replace (bitNo <? 0) with true by (symmetry; apply Z.ltb_lt; lia).
    by split.
  - intros Htop.
    destruct (sanityCheckBignum bignum) eqn:Hs; simpl; [|by split].
    destruct (Z.ltb_spec bitNo (bnWordsToBits (dmax bignum))); simpl;
      [|split; [done | intros; lia]].
    replace (Z.quot bitNo BN_BITS2 >=? top bignum) with true
      by (symmetry; apply Z.geb_le; lia).
    by destruct (bitNo <? 0).
Qed.

(** *** BN_set_bit *)

Lemma rd_take ws n j : 0 <= j < Z.of_nat n -> rd (take n ws) j = rd ws j.
Proof.
  intros Hj. unfold rd, zlookup. case_decide; [|done].
  by rewrite lookup_take_lt by lia.
Qed.

Lemma set_bit_loop_spec fuel : forall index bound ws,
  0 <= index -> Z.of_nat fuel = bound - index ->
  exists ws',
    set_bit_loop fuel index bound ws = (bound, ws') /\
    length ws' = length ws /\
    take (Z.to_nat index) ws' = take (Z.to_nat index) ws /\
    (forall j, index <= j < bound -> j < Z.of_nat (length ws) -> rd ws' j = 0).
Proof.
  induction fuel as [|fuel IH]; intros index bound ws Hi Hf; simpl.
  - exists ws. replace index with bound by lia.
    repeat split; try done. intros; lia.
  - replace (index <? bound) with true by (symmetry; apply Z.ltb_lt; lia).
    destruct (IH (index + 1) bound (wr ws index 0)) as (ws' & Hl & Hlen & Htk & Hz);
      [lia | lia |].
    rewrite length_wr in Hlen.
    exists ws'. split; [done|]. split; [done|]. split.
    + apply (f_equal (take (Z.to_nat index))) in Htk.
      rewrite !take_take in Htk.
      replace (Z.to_nat index `min` Z.to_nat (index + 1))%nat
        with (Z.to_nat index) in Htk by lia.
      rewrite Htk. by apply take_wr_ge.
    + intros j Hj Hjl. destruct (decide (j = index)) as [->|Hne].
      * rewrite <- (rd_take ws' (Z.to_nat (index + 1))) by lia.
        rewrite Htk, rd_take by lia. by apply rd_wr_eq.
      * apply Hz; [lia|]. by rewrite length_wr.
Qed.

Lemma bit_mask_nonzero k : 0 <= k -> Z.shiftl 1 k <> 0.
Proof.
  intros Hk. rewrite Z.shiftl_1_l.
  pose proof (Z.pow_pos_nonneg 2 k). lia.
Qed.

Lemma land_lor_mask w m : m <> 0 -> Z.land (Z.lor w m) m <> 0.
Proof.
  intros Hm H. rewrite Z.land_lor_distr_l, Z.land_diag in H.
  apply Z.lor_eq_0_iff in H. tauto.
Qed.

(** BN_set_bit followed by BN_is_bit_set gives TRUE whenever the word of
    the bit is in use already, or lies below the last word of the
    allocation class. *)
Lemma BN_set_bit_is_bit_set (bignum : BIGNUM) (bitNo : Z) :
  0 < BN_BITS2 ->
  sanityCheckBignum bignum = true -> is_static bignum = false ->
  storage_ok bignum ->
  0 <= bitNo < bnWordsToBits (dmax bignum) ->
  Z.quot bitNo BN_BITS2 < top bignum \/
    Z.quot bitNo BN_BITS2 + 1 < getBNMaxSize bignum ->
  (BN_set_bit bignum bitNo).1 = true /\
  BN_is_bit_set (BN_set_bit bignum bitNo).2 bitNo = Bit true.
Proof.
  intros Hb Hs Hst Hl Hbit Hcase.
  destruct (sane_dmax_length _ Hs Hl) as [Htop Hdmax].
  destruct (bit_index_range bitNo (dmax bignum) Hb Hbit) as [Hw Hbi].
  pose proof (proj1 (sanityCheckBignum_spec _) Hs) as (Hmax & _ & Hneg & Hfl).
  unfold BN_set_bit, is_static in *.
  rewrite Hs, Hst. simpl.
  replace ((bitNo >=? 0) && (bitNo <? bnWordsToBits (dmax bignum))) with true
    by (symmetry; apply andb_true_iff; split;
        [apply Z.geb_le | apply Z.ltb_lt]; lia).
  simpl.
  set (wordIndex := Z.quot bitNo BN_BITS2) in *.
  set (bitIndex := Z.rem bitNo BN_BITS2) in *.
  assert (Hfinish : forall b : BIGNUM,
    flags b = flags bignum -> dmax b = dmax bignum ->
    (neg b = TRUE \/ neg b = FALSE) ->
    wordIndex < top b <= dmax b -> length (d b) = length (d bignum) ->
    let b' := with_value b (top b) (neg b)
                (wr (d b) wordIndex
                   (Z.lor (rd (d b) wordIndex) (Z.shiftl 1 bitIndex))) in
    sanityCheckBignum b' = true /\ BN_is_bit_set b' bitNo = Bit true).
  { intros b Hf Hd Hn Ht Hlen b'.
    assert (Hs' : sanityCheckBignum b' = true).
    { apply sanityCheckBignum_spec. unfold b', getBNMaxSize in *. simpl.
      rewrite Hf, Hd. lia. }
    split; [done|]. unfold BN_is_bit_set. rewrite Hs'. simpl.
    rewrite Hd.
    replace (bitNo <? bnWordsToBits (dmax bignum)) with true
      by (symmetry; apply Z.ltb_lt; lia).
    replace (bitNo <? 0) with false by (symmetry; apply Z.ltb_ge; lia).
    fold wordIndex bitIndex.
    replace (wordIndex >=? top b) with false
      by (rewrite Z.geb_leb; symmetry; apply Z.leb_gt; lia).
    simpl. rewrite rd_wr_eq by lia.
    f_equal. apply negb_true_iff, Z.eqb_neq, land_lor_mask, bit_mask_nonzero.
    lia. }
  destruct (Z.ltb_spec (top bignum) (wordIndex + 1)) as [Hext|Hin].
  - replace (wordIndex <? dmax bignum) with true
      by (symmetry; apply Z.ltb_lt; lia).
    simpl.
    destruct (set_bit_loop_spec (Z.to_nat (wordIndex + 1 - top bignum))
                (top bignum) (wordIndex + 1) (d bignum))
      as (ws' & -> & Hlen & _ & _); [lia | lia |].
    replace (wordIndex + 1 <? getBNMaxSize bignum) with true
      by (symmetry; apply Z.ltb_lt; lia).
    simpl.
    destruct (Hfinish (with_value (with_value bignum (top bignum) (neg bignum) ws')
                         (wordIndex + 1) (neg bignum) ws')) as [Hs' Hset];
      simpl; try done; try lia.
    simpl in Hs', Hset. by rewrite Hs'.
  - destruct (Hfinish bignum) as [Hs' Hset]; try done; try lia.
    destruct bignum. simpl in *. by rewrite Hs'.
Qed.

(** BN_set_bit refuses a bit in the last word of the allocation class
    when it has to extend [top] to reach it: the loop leaves
    [index = wordIndex + 1 = iterationBound] and the check
    [index < iterationBound] fails. *)
Lemma BN_set_bit_last_word_refused (bignum : BIGNUM) (bitNo : Z) :
  0 < BN_BITS2 ->
  sanityCheckBignum bignum = true -> is_static bignum = false ->
  0 <= bitNo < bnWordsToBits (dmax bignum) ->
  top bignum <= Z.quot bitNo BN_BITS2 ->
  Z.quot bitNo BN_BITS2 + 1 = getBNMaxSize bignum ->
  (BN_set_bit bignum bitNo).1 = false /\
  top (BN_set_bit bignum bitNo).2 = top bignum /\
  bit_value (BN_is_bit_set (BN_set_bit bignum bitNo).2 bitNo) = false.
Proof.
  intros Hb Hs Hst Hbit Hext Hlast.
  destruct (bit_index_range bitNo (dmax bignum) Hb Hbit) as [Hw Hbi].
  pose proof (proj1 (sanityCheckBignum_spec _) Hs) as (? & ? & Hneg & Hfl).
  unfold BN_set_bit, is_static in *.
  rewrite Hs, Hst. simpl.
  replace ((bitNo >=? 0) && (bitNo <? bnWordsToBits (dmax bignum))) with true
    by (symmetry; apply andb_true_iff; split;
        [apply Z.geb_le | apply Z.ltb_lt]; lia).
  simpl.
  replace (top bignum <? Z.quot bitNo BN_BITS2 + 1) with true
    by (symmetry; apply Z.ltb_lt; lia).
  replace (Z.quot bitNo BN_BITS2 <? dmax bignum) with true
    by (symmetry; apply Z.ltb_lt; lia).
  simpl.
  destruct (set_bit_loop_spec (Z.to_nat (Z.quot bitNo BN_BITS2 + 1 - top bignum))
              (top bignum) (Z.quot bitNo BN_BITS2 + 1) (d bignum))
    as (ws' & -> & Hlen & _ & _); [lia | lia |].
  replace (Z.quot bitNo BN_BITS2 + 1 <? getBNMaxSize bignum) with false
    by (symmetry; apply Z.ltb_ge; lia).
  simpl. split; [done|]. split; [done|].
  apply BN_is_bit_set_above_top. simpl. lia.
Qed.

(** *** BN_swap *)

Lemma BN_copy_Some dest src dest' :
  BN_copy dest src = Some dest' <->
  sanityCheckBignum dest = true /\ sanityCheckBignum src = true /\
  top src <= dmax dest /\
  dest' = with_value dest (top src) (neg src)
            (memcpy (d dest) (d src) (top src)).
Proof.
  unfold BN_copy. rewrite Z.geb_leb.
  destruct (sanityCheckBignum dest), (sanityCheckBignum src),
    (Z.leb_spec (top src) (dmax dest)); simpl; split;
    try (intros [= <-]); try (intros (? & ? & ? & ->)); try done; lia.
Qed.

(** A static first operand is rejected: nothing is exchanged. *)
Lemma BN_swap_static_first (bignum1 bignum2 : BIGNUM) :
  is_static bignum1 = true -> BN_swap bignum1 bignum2 = (bignum1, bignum2).
Proof. intros Hst. unfold BN_swap, is_static in *. by rewrite Hst. Qed.

Lemma BN_init_sane :
  1 <= BIGNUM_ALLOC_WORDS -> BN_FLG_NONE <= 0 <= BN_FLG_MAX ->
  sanityCheckBignum BN_init = true.
Proof.
  intros Hw Hf. apply sanityCheckBignum_spec.
  unfold getBNMaxSize, flag_set, TRUE, FALSE. simpl. lia.
Qed.

(** The second operand is never checked: when only [bignum2] is static the
    three copies run and both operands are overwritten. *)
Lemma BN_swap_static_second (bignum1 bignum2 : BIGNUM) :
  1 <= BIGNUM_ALLOC_WORDS -> BN_FLG_NONE <= 0 <= BN_FLG_MAX ->
  sanityCheckBignum bignum1 = true -> sanityCheckBignum bignum2 = true ->
  is_static bignum1 = false ->
  top bignum1 <= BIGNUM_ALLOC_WORDS ->
  top bignum2 <= dmax bignum1 -> top bignum1 <= dmax bignum2 ->
  BN_swap bignum1 bignum2 =
  (with_value bignum1 (top bignum2) (neg bignum2)
     (memcpy (d bignum1) (d bignum2) (top bignum2)),
   with_value bignum2 (top bignum1) (neg bignum1)
     (memcpy (d bignum2) (memcpy (d BN_init) (d bignum1) (top bignum1))
        (top bignum1))).
Proof.
  intros Hw Hf Hs1 Hs2 Hst Ht1 Ht2 Ht3.
  pose proof (BN_init_sane Hw Hf) as Hsi.
  pose proof (proj1 (sanityCheckBignum_spec _) Hs1) as (? & ? & ? & ?).
  unfold BN_swap, is_static in *. rewrite Hst. simpl.
  unfold BN_copy at 1. rewrite Hsi, Hs1. simpl.
  replace (BIGNUM_ALLOC_WORDS >=? top bignum1) with true
    by (symmetry; apply Z.geb_le; lia).
  simpl. unfold BN_copy at 1. rewrite Hs1, Hs2. simpl.
  replace (dmax bignum1 >=? top bignum2) with true
    by (symmetry; apply Z.geb_le; lia).
  simpl. unfold BN_copy. rewrite Hs2. simpl.
  match goal with |- context [sanityCheckBignum ?b] =>
    assert (Hst' : sanityCheckBignum b = true) end.
  { apply sanityCheckBignum_spec. unfold getBNMaxSize, flag_set. simpl. lia. }
  rewrite Hst'. simpl.
  replace (dmax bignum2 >=? top bignum1) with true
    by (symmetry; apply Z.geb_le; lia).
  done.
Qed.

(** *** Canonical zero *)

Lemma canonical_zero_same_value (a b : BIGNUM) :
  bn_value b = bn_value a -> top b = top a -> neg b = neg a ->
  canonical_zero a -> canonical_zero b.
Proof. unfold canonical_zero. intros -> -> ->. done. Qed.

Lemma canonical_zero_empty (b : BIGNUM) :
  top b = 0 -> neg b = FALSE -> canonical_zero b.
Proof. by intros ? ? _. Qed.

Lemma canonical_zero_nonzero (b : BIGNUM) :
  bn_value b <> 0 -> canonical_zero b.
Proof. by intros ? ?. Qed.

Lemma canonical_clear (a : BIGNUM) :
  canonical_zero a -> canonical_zero (BN_clear a).
Proof.
  intros Ha. unfold BN_clear.
  repeat case_match; first [done | by apply canonical_zero_empty].
Qed.

Lemma bn_value_copy dest src :
  top src <= Z.of_nat (length (d src)) ->
  bn_value (with_value dest (top src) (neg src)
              (memcpy (d dest) (d src) (top src))) = bn_value src.
Proof. intros Hl. unfold bn_value. simpl. by rewrite take_memcpy. Qed.

Lemma canonical_copy (dest src dest' : BIGNUM) :
  BN_copy dest src = Some dest' ->
  top src <= Z.of_nat (length (d src)) ->
  canonical_zero src -> canonical_zero dest'.
Proof.
  intros (_ & _ & _ & ->)%BN_copy_Some Hl.
  apply canonical_zero_same_value; [by apply bn_value_copy | done | done].
Qed.

Lemma canonical_swap (a b : BIGNUM) :
  storage_ok a -> storage_ok b -> canonical_zero a -> canonical_zero b ->
  canonical_zero (BN_swap a b).1 /\ canonical_zero (BN_swap a b).2.
Proof.
  intros Hla Hlb Ha Hb. unfold BN_swap.
  destruct (negb (negb (flag_set (flags a) BN_FLG_STATIC_DATA))); [done|].
  destruct (BN_copy BN_init a) as [tmp|] eqn:Htmp; [|done].
  destruct (BN_copy a b) as [a'|] eqn:Ha'; [|done].
  pose proof Htmp as (Hsi & Hsa & Hta & Etmp)%BN_copy_Some.
  pose proof Ha' as (_ & Hsb & _ & _)%BN_copy_Some.
  destruct (sane_dmax_length _ Hsa Hla), (sane_dmax_length _ Hsb Hlb).
  apply sanityCheckBignum_spec in Hsi. simpl in Hsi, Hta.
  assert (canonical_zero a') by (eapply canonical_copy; [done | lia | done]).
  assert (canonical_zero tmp) by (eapply canonical_copy; [done | lia | done]).
  destruct (BN_copy b tmp) as [b'|] eqn:Hb'; [|done].
  split; [done|]. eapply canonical_copy; [done | | done].
  subst tmp. simpl.
  rewrite length_memcpy; rewrite ?length_replicate; lia.
Qed.

Lemma canonical_set_word (a : BIGNUM) (word : Z) :
  storage_ok a -> canonical_zero a -> canonical_zero (BN_set_word a word).2.
Proof.
  intros Hl Ha. unfold BN_set_word.
  destruct (sanityCheckBignum a) eqn:Hs; [|done]. simpl.
  destruct (flag_set (flags a) BN_FLG_STATIC_DATA) eqn:Hst; [done|]. simpl.
  destruct (sane_dmax_length _ Hs Hl).
  rewrite BN_clear_cleared by done. simpl.
  destruct (Z.eqb_spec word 0) as [->|Hw].
  - by apply canonical_zero_empty.
  - apply canonical_zero_nonzero. unfold bn_value. simpl.
    unfold wr. simpl.
    destruct (zeroise (d a) (dmax a)) as [|w ws] eqn:Hz.
    + apply (f_equal length) in Hz. rewrite length_zeroise in Hz by lia.
      simpl in Hz. lia.
    + simpl. lia.
Qed.

(** A word in use that is not zero makes the value not zero. *)
Lemma bn_value_nonzero_word (b : BIGNUM) i :
  0 <= BN_BITS2 -> Forall (fun w => 0 <= w) (d b) ->
  0 <= i < top b -> rd (d b) i <> 0 -> bn_value b <> 0.
Proof.
  intros Hb Hw Hi Hnz Hv. apply Hnz.
  unfold rd. destruct (zlookup (d b) i) as [w|] eqn:Hl; [simpl|done].
  apply zlookup_Some in Hl as [_ Hl].
  unfold bn_value in Hv. apply words_value_zero in Hv; [|done|].
  - apply (Forall_lookup_1 _ _ (Z.to_nat i) w) in Hv; [exact Hv|].
    rewrite lookup_take_lt by lia. done.
  - by apply Forall_take.
Qed.

Lemma Forall_wr (P : Z -> Prop) ws i w :
  Forall P ws -> P w -> Forall P (wr ws i w).
Proof.
  intros Hws Hw. unfold wr. case_decide; [|done]. by apply Forall_insert.
Qed.

Lemma set_bit_loop_Forall (P : Z -> Prop) fuel : forall index bound ws,
  Forall P ws -> P 0 -> Forall P (set_bit_loop fuel index bound ws).2.
Proof.
  induction fuel as [|fuel IH]; intros index bound ws Hws H0; simpl; [done|].
  case_match; [|done]. apply IH; [|done]. by apply Forall_wr.
Qed.

Lemma canonical_set_bit (a : BIGNUM) (bitNo : Z) :
  0 < BN_BITS2 -> storage_ok a -> words_ok a -> canonical_zero a ->
  canonical_zero (BN_set_bit a bitNo).2.
Proof.
  intros Hb Hl Hw Ha. unfold BN_set_bit.
  destruct (sanityCheckBignum a) eqn:Hs; [|done]. simpl.
  destruct (flag_set (flags a) BN_FLG_STATIC_DATA); [done|]. simpl.
  destruct (Z.geb_spec bitNo 0); [|done]. simpl.
  destruct (Z.ltb_spec bitNo (bnWordsToBits (dmax a))); [|done]. simpl.
  destruct (sane_dmax_length _ Hs Hl).
  destruct (bit_index_range bitNo (dmax a) Hb) as [Hwi Hbi]; [lia|].
  set (wordIndex := Z.quot bitNo BN_BITS2) in *.
  set (bitIndex := Z.rem bitNo BN_BITS2) in *.
  assert (Hnn : Forall (fun w => 0 <= w) (d a)).
  { eapply Forall_impl; [exact Hw|]. simpl. lia. }
  assert (Hfinish : forall b : BIGNUM,
    wordIndex < top b -> length (d b) = length (d a) ->
    Forall (fun w => 0 <= w) (d b) ->
    forall b', b' = with_value b (top b) (neg b)
                (wr (d b) wordIndex
                   (Z.lor (rd (d b) wordIndex) (Z.shiftl 1 bitIndex))) ->
    canonical_zero (if negb (sanityCheckBignum b') then (false, b')
                    else (true, b')).2).
  { intros b Ht Hlen Hbn b' ->.
    match goal with |- canonical_zero (if _ then (_, ?x) else _).2 =>
      assert (Hc : canonical_zero x) end; [|by case_match].
    apply canonical_zero_nonzero.
    assert (Hm : 0 < Z.shiftl 1 bitIndex).
    { rewrite Z.shiftl_1_l. apply Z.pow_pos_nonneg; lia. }
    assert (0 <= rd (d b) wordIndex).
    { unfold rd. destruct (zlookup (d b) wordIndex) as [w|] eqn:E; [|done].
      apply zlookup_Some in E as [_ E]. simpl.
      by apply (Forall_lookup_1 _ _ _ _ Hbn E). }
    apply (bn_value_nonzero_word _ wordIndex); simpl; [lia | | lia |].
    - apply Forall_wr; [done|]. apply Z.lor_nonneg. lia.
    - rewrite rd_wr_eq by lia. intros E%Z.lor_eq_0_iff. lia. }
  destruct (Z.ltb_spec (top a) (wordIndex + 1)).
  - destruct (Z.ltb_spec wordIndex (dmax a)); [|done]. simpl.
    pose proof (set_bit_loop_Forall (fun w => 0 <= w)
                  (Z.to_nat (wordIndex + 1 - top a)) (top a) (wordIndex + 1)
                  (d a) Hnn) as Hws.
    destruct (set_bit_loop_spec (Z.to_nat (wordIndex + 1 - top a))
                (top a) (wordIndex + 1) (d a))
      as (ws' & E & Hlen & Htk & _); [lia | lia |].
    rewrite E in Hws |- *. simpl in Hws.
    destruct (Z.ltb_spec (wordIndex + 1) (getBNMaxSize a)); simpl.
    + eapply (Hfinish (with_value (with_value a (top a) (neg a) ws')
                         (wordIndex + 1) (neg a) ws'));
        [| | |reflexivity]; simpl; [lia | done | apply Hws; lia].
    + apply (canonical_zero_same_value a); try done.
      unfold bn_value. simpl. by rewrite Htk.
  - eapply (Hfinish a); [lia | done | done |]. by destruct a.
Qed.

Lemma canonical_set_negative (a : BIGNUM) (value : Z) :
  canonical_zero a -> canonical_zero (BN_set_negative a value).
Proof.
  intros Ha. unfold BN_set_negative, BN_is_zero.
  destruct (Z.eqb_spec (top a) 0); [done|].
  intros Hv. apply Ha in Hv as [? _]. done.
Qed.

Lemma words_value_take_S ws i :
  rd ws (Z.of_nat i) = 0 ->
  words_value (take (S i) ws) = words_value (take i ws).
Proof.
  intros Hz. unfold rd, zlookup in Hz. rewrite decide_True in Hz by lia.
  rewrite Nat2Z.id in Hz.
  destruct (ws !! i) as [w|] eqn:E; simpl in Hz.
  - subst w. rewrite (take_S_r _ _ _ E).
    apply (words_value_app_zeros _ 1).
  - apply lookup_ge_None in E. by rewrite !take_ge by lia.
Qed.

Lemma normalise_loop_value fuel ws : forall top iterationCount bound,
  words_value (take (Z.to_nat (normalise_loop fuel ws top iterationCount bound).1) ws)
  = words_value (take (Z.to_nat top) ws).
Proof.
  induction fuel as [|fuel IH]; intros t ic bound; simpl; [done|].
  destruct (Z.gtb_spec t 0); simpl; [|done].
  destruct (ic <? bound); simpl; [|done].
  destruct (Z.eqb_spec (rd ws (t - 1)) 0) as [Hz|]; simpl; [|done].
  rewrite IH. replace (Z.to_nat t) with (S (Z.to_nat (t - 1))) by lia.
  symmetry. apply words_value_take_S. by rewrite Z2Nat.id by lia.
Qed.

Lemma canonical_normalise (a : BIGNUM) :
  canonical_zero a -> canonical_zero (BN_normalise a).2.
Proof.
  intros Ha. unfold BN_normalise.
  destruct (sanityCheckBignum a); [|done]. simpl.
  unfold BN_is_zero. destruct (Z.eqb_spec (top a) 0) as [|Hnz]; [done|].
  pose proof (normalise_loop_value (Z.to_nat (getBNMaxSize a)) (d a) (top a) 0
                (getBNMaxSize a)) as Hv.
  destruct (normalise_loop _ _ _ _ _) as [top' ic]. simpl in Hv.
  match goal with |- canonical_zero (if _ then (_, ?x) else _).2 =>
    assert (Hc : canonical_zero x) end; [|by repeat case_match].
  intros Hv'. unfold bn_value in Hv'. simpl in Hv'. rewrite Hv in Hv'.
  apply Ha in Hv' as [? _]. done.
Qed.

(** C5.  Canonical zero (a bignum of value zero has [top = 0] and is not
    negative) holds of the initial and constant bignums and is preserved
    by every operation that writes a bignum: BN_clear, BN_copy, BN_swap,
    BN_set_word, BN_set_bit, BN_set_negative and BN_normalise.  BN_set_word
    with the word 0 succeeds on a sane bignum that is not static and
    leaves [top = 0] and a clear sign; BN_set_negative changes nothing on
    a bignum with [top = 0], so the sign of a bignum of value zero stays
    clear whatever sign is asked for. *)
Theorem canonical_zero_preserved (a b : BIGNUM) (word bitNo value : Z) :
  0 < BN_BITS2 ->
  storage_ok a -> storage_ok b -> words_ok a ->
  canonical_zero a -> canonical_zero b ->
  (canonical_zero BN_init /\ canonical_zero (BN_init_ext false) /\
   canonical_zero (BN_init_ext true) /\ canonical_zero BN_value_one) /\
  canonical_zero (BN_clear a) /\
  (forall a', BN_copy a b = Some a' -> canonical_zero a') /\
  (canonical_zero (BN_swap a b).1 /\ canonical_zero (BN_swap a b).2) /\
  canonical_zero (BN_set_word a word).2 /\
  canonical_zero (BN_set_bit a bitNo).2 /\
  canonical_zero (BN_set_negative a value) /\
  canonical_zero (BN_normalise a).2 /\
  (sanityCheckBignum a = true -> is_static a = false ->
   (BN_set_word a 0).1 = true /\
   top (BN_set_word a 0).2 = 0 /\ neg (BN_set_word a 0).2 = FALSE) /\
  (top a = 0 -> BN_set_negative a value = a) /\
  (bn_value a = 0 -> neg (BN_set_negative a value) = FALSE).
Proof.
  intros Hb Hla Hlb Hw Ha Hcb.
  split; [|split; [|split; [|split; [|split; [|split; [|split; [|split;
    [|split; [|split]]]]]]]]].
  - do 3 (split; [by apply canonical_zero_empty|]).
    apply canonical_zero_nonzero. unfold bn_value. simpl. lia.
  - by apply canonical_clear.
  - intros a' Hc. eapply canonical_copy; [done | | done].
    apply BN_copy_Some in Hc as (_ & Hsb & _ & _).
    destruct (sane_dmax_length _ Hsb Hlb). lia.
  - by apply canonical_swap.
  - by apply canonical_set_word.
  - by apply canonical_set_bit.
  - by apply canonical_set_negative.
  - by apply canonical_normalise.
  - intros Hs Hst. unfold BN_set_word, is_static in *. rewrite Hs, Hst. simpl.
    rewrite BN_clear_cleared by done. done.
  - intros Ht. unfold BN_set_negative, BN_is_zero. by rewrite Ht.
  - intros Hv. destruct (Ha Hv) as [Ht Hn].
    unfold BN_set_negative, BN_is_zero. by rewrite Ht.
Qed.

End BignumFacts.

(** ** The bignum properties at work *)

Lemma cfg8_ok : cfg_ok cfg8.
Proof. by split. Qed.

Section BignumExamples.
#[local] Existing Instance cfg8.

Lemma BN_copy_fidelity_witness :
  exists dest',
    BN_copy BN_init (bn_of_word 5) = Some dest' /\
    bn_value dest' = 5 /\ neg dest' = 0 /\ dmax dest' = 4 /\ flags dest' = 0.
Proof.
  assert (Hcap : dmax BN_init >= top (bn_of_word 5))
    by (vm_compute; discriminate).
  assert (Hsd : sanityCheckBignum BN_init = true) by reflexivity.
  assert (Hss : sanityCheckBignum (bn_of_word 5) = true) by reflexivity.
  assert (Hld : storage_ok BN_init) by reflexivity.
  assert (Hls : storage_ok (bn_of_word 5)) by reflexivity.
  destruct (BN_copy_fidelity BN_init (bn_of_word 5) Hsd Hss Hld Hls Hcap)
    as (dest' & Hc & _ & _ & _ & Hn & Hv & Hm & Hf & _).
  exists dest'. split; [exact Hc|].
  rewrite Hv, Hn, Hm, Hf. by vm_compute.
Defined.

Lemma BN_is_bit_set_off_range_witness :
  BN_is_bit_set BN_value_one (-1) = Bit false /\
  BN_is_bit_set BN_value_one 64 = Bit false.
Proof.
  assert (Hb : 0 < BN_BITS2) by reflexivity.
  destruct (BN_is_bit_set_off_range BN_value_one (-1) Hb) as [Hneg _].
  destruct (BN_is_bit_set_off_range BN_value_one 64 Hb) as [_ Htop].
  split.
  - apply Hneg; reflexivity.
  - assert (Hge : Z.quot 64 BN_BITS2 >= top BN_value_one)
      by (vm_compute; discriminate).
    apply (Htop Hge); reflexivity.
Defined.

Lemma canonical_zero_preserved_witness :
  canonical_zero (BN_set_bit (bn_of_word 5) 70).2 /\
  canonical_zero (BN_swap (bn_of_word 5) BN_init).1 /\
  top (BN_set_word (bn_of_word 5) 0).2 = 0 /\
  neg (BN_set_negative BN_init 1) = FALSE.
Proof.
  assert (Hb : 0 < BN_BITS2) by reflexivity.
  assert (Hl5 : storage_ok (bn_of_word 5)) by reflexivity.
  assert (Hl0 : storage_ok BN_init) by reflexivity.
  assert (Hc5 : canonical_zero (bn_of_word 5)).
  { intros Hv. vm_compute in Hv. discriminate Hv. }
  assert (Hc0 : canonical_zero BN_init).
  { intros _. split; reflexivity. }
  assert (Hw5 : words_ok (bn_of_word 5)).
  { repeat constructor; vm_compute; congruence. }
  assert (Hw0 : words_ok BN_init).
  { repeat constructor; vm_compute; congruence. }
  pose proof (canonical_zero_preserved (bn_of_word 5) BN_init 0 70 1
                Hb Hl5 Hl0 Hw5 Hc5 Hc0)
    as (_ & _ & _ & [Hsw _] & _ & Hbit & _ & _ & Hword & _ & _).
  pose proof (canonical_zero_preserved BN_init BN_init 0 70 1
                Hb Hl0 Hl0 Hw0 Hc0 Hc0)
    as (_ & _ & _ & _ & _ & _ & _ & _ & _ & _ & Hneg).
  split; [exact Hbit|]. split; [exact Hsw|]. split.
  - apply Hword; reflexivity.
  - apply Hneg. reflexivity.
Defined.

(** The general lemmas on their inputs. *)

Example BN_set_bit_is_bit_set_191 :
  (BN_set_bit BN_init 191).1 = true /\
  BN_is_bit_set (BN_set_bit BN_init 191).2 191 = Bit true.
Proof.
  apply BN_set_bit_is_bit_set; try reflexivity.
  - split; [by vm_compute | reflexivity].
  - right. reflexivity.
Qed.

Example BN_set_bit_last_word_refused_255 :
  (BN_set_bit BN_init 255).1 = false /\
  top (BN_set_bit BN_init 255).2 = top BN_init /\
  bit_value (BN_is_bit_set (BN_set_bit BN_init 255).2 255) = false.
Proof.
  apply BN_set_bit_last_word_refused; try reflexivity.
  - split; [by vm_compute | reflexivity].
  - by vm_compute.
Qed.

Example BN_swap_static_second_one :
  is_static BN_value_one = true /\
  bn_value (BN_swap (bn_of_word 5) BN_value_one).2 = bn_value (bn_of_word 5).
Proof.
  split; [reflexivity|].
  rewrite BN_swap_static_second; try reflexivity; by vm_compute.
Qed.

(** The two slips of the bignum operations. *)

(** C6.  A bignum fresh from BN_init is sane and not static, and bit 255 is
    inside its capacity of 4 words of 64 bits; yet BN_set_bit refuses it
    (the bit lies in the last word and [top] has to be extended), leaves
    the bignum as it was, and BN_is_bit_set then reads the bit as clear.
    Bit 191, in the word below, is set and read back. *)
Theorem BN_set_bit_last_word_not_set :
  sanityCheckBignum BN_init = true /\ is_static BN_init = false /\
  0 <= 255 < bnWordsToBits (dmax BN_init) /\
  BN_set_bit BN_init 255 = (false, BN_init) /\
  BN_is_bit_set (BN_set_bit BN_init 255).2 255 = Bit false /\
  (BN_set_bit BN_init 191).1 = true /\
  BN_is_bit_set (BN_set_bit BN_init 191).2 191 = Bit true.
Proof. vm_compute. repeat split; congruence. Qed.

(** C8.  BN_swap with the static constant of BN_value_one as second
    operand is not rejected: the constant is overwritten with the value 5
    of the first operand, which receives the value 1. *)
Theorem BN_swap_overwrites_static_operand :
  is_static BN_value_one = true /\
  BN_get_word BN_value_one = 1 /\
  BN_get_word (bn_of_word 5) = 5 /\
  is_static (BN_swap (bn_of_word 5) BN_value_one).2 = true /\
  BN_get_word (BN_swap (bn_of_word 5) BN_value_one).2 = 5 /\
  BN_get_word (BN_swap (bn_of_word 5) BN_value_one).1 = 1 /\
  (BN_swap (bn_of_word 5) BN_value_one).2 <> BN_value_one.
Proof. vm_compute. repeat split; congruence. Qed.

End BignumExamples.

(** ** Facts about the BN_CTX pool *)

Section ContextFacts.
Context `{cfg : BnConfig}.

#[local] Arguments clear_at : simpl never.
#[local] Arguments BN_CTX_get_ext : simpl never.

Lemma sanityCheckBNCTX_spec bnCTX :
  sanityCheckBNCTX bnCTX = true <->
  0 <= bnArrayMax bnCTX <= BN_CTX_ARRAY_SIZE /\
  0 <= stackPos bnCTX < BN_CTX_ARRAY_SIZE.
Proof.
  unfold sanityCheckBNCTX. rewrite Z.gtb_ltb, Z.geb_leb.
  destruct (Z.ltb_spec (bnArrayMax bnCTX) 0),
    (Z.ltb_spec BN_CTX_ARRAY_SIZE (bnArrayMax bnCTX)),
    (Z.ltb_spec (stackPos bnCTX) 0),
    (Z.leb_spec BN_CTX_ARRAY_SIZE (stackPos bnCTX));
    simpl; split; intros; try done; lia.
Qed.

Lemma ctx_inv_sane bnCTX : ctx_inv bnCTX -> sanityCheckBNCTX bnCTX = true.
Proof.
  intros Hi. apply sanityCheckBNCTX_spec.
  split; [apply Hi | apply Hi].
Qed.

Lemma ctx_inv_top bnCTX :
  ctx_inv bnCTX ->
  exists t, stack_top bnCTX = Some t /\ 0 <= t <= bnArrayMax bnCTX /\
            (bnArrayMax bnCTX = BN_CTX_ARRAY_SIZE -> t = BN_CTX_ARRAY_SIZE).
Proof.
  intros Hi. pose proof (inv_pos _ Hi). pose proof (inv_stack_len _ Hi).
  destruct (zlookup_in_range (stack bnCTX) (stackPos bnCTX)) as [t Ht]; [lia|].
  exists t. split; [done|].
  destruct (inv_top _ Hi t Ht) as [? ?].
  pose proof (inv_sorted _ Hi (stackPos bnCTX) (stackPos bnCTX) t t
                ltac:(lia) ltac:(lia) Ht Ht).
  split; [lia | done].
Qed.

(** *** BN_CTX_init *)

Lemma BN_CTX_init_inv : cfg_ok cfg -> ctx_inv BN_CTX_init.
Proof.
  intros Hc. destruct Hc.
  split; simpl; rewrite ?length_replicate; try lia.
  - intros i j x y Hij Hj [_ Hx]%zlookup_Some [_ Hy]%zlookup_Some.
    apply lookup_replicate in Hx as [-> _], Hy as [-> _]. lia.
  - unfold stack_top. simpl. intros t [_ Ht]%zlookup_Some.
    apply lookup_replicate in Ht as [-> _]. lia.
Qed.

(** *** BN_CTX_start *)

Lemma BN_CTX_start_spec bnCTX t :
  ctx_inv bnCTX -> stack_top bnCTX = Some t ->
  stackPos bnCTX + 1 < BN_CTX_ARRAY_SIZE ->
  BN_CTX_start bnCTX =
  Some (with_stack bnCTX
          (<[Z.to_nat (stackPos bnCTX + 1) := t]> (stack bnCTX))
          (stackPos bnCTX + 1)).
Proof.
  intros Hi Ht Hroom. unfold BN_CTX_start, stack_top in *.
  rewrite (ctx_inv_sane _ Hi). simpl.
  replace (stackPos bnCTX + 1 - 1) with (stackPos bnCTX) by lia.
  rewrite Ht. simpl.
  rewrite zinsert_in_range; [done|].
  pose proof (inv_pos _ Hi). pose proof (inv_stack_len _ Hi). lia.
Qed.

(** Too deep a nesting writes behind the stack array. *)
Lemma BN_CTX_start_overflow bnCTX :
  ctx_inv bnCTX -> stackPos bnCTX + 1 = BN_CTX_ARRAY_SIZE ->
  BN_CTX_start bnCTX = None.
Proof.
  intros Hi Hfull. unfold BN_CTX_start.
  rewrite (ctx_inv_sane _ Hi). simpl.
  destruct (ctx_inv_top _ Hi) as (t & Ht & _). unfold stack_top in Ht.
  replace (stackPos bnCTX + 1 - 1) with (stackPos bnCTX) by lia.
  rewrite Ht. simpl. unfold zinsert.
  pose proof (inv_stack_len _ Hi). by rewrite decide_False by lia.
Qed.

Lemma BN_CTX_start_inv bnCTX bnCTX' :
  ctx_inv bnCTX -> BN_CTX_start bnCTX = Some bnCTX' -> ctx_inv bnCTX'.
Proof.
  intros Hi Hs.
  destruct (ctx_inv_top _ Hi) as (t & Ht & Ht0 & Hfull).
  pose proof (inv_pos _ Hi) as Hp. pose proof (inv_stack_len _ Hi) as Hl.
  destruct (decide (stackPos bnCTX + 1 < BN_CTX_ARRAY_SIZE)) as [Hroom|Hroom].
  2:{ rewrite BN_CTX_start_overflow in Hs by (done || lia). done. }
  rewrite (BN_CTX_start_spec _ t) in Hs by done. injection Hs as <-.
  destruct Hi. split; simpl; rewrite ?length_insert; try done; try lia.
  - intros i j x y Hij Hj Hx Hy.
    destruct (decide (j = stackPos bnCTX + 1)) as [->|Hj'].
    + rewrite zlookup_insert_eq in Hy by lia. injection Hy as <-.
      destruct (decide (i = stackPos bnCTX + 1)) as [->|Hi'].
      * rewrite zlookup_insert_eq in Hx by lia. injection Hx as <-. lia.
      * rewrite zlookup_insert_ne in Hx by lia.
        apply (inv_sorted0 i (stackPos bnCTX) x t); [lia | lia | done | done].
    + rewrite zlookup_insert_ne in Hx, Hy by lia.
      apply (inv_sorted0 i j x y); [lia | lia | done | done].
  - unfold stack_top. simpl. intros t'.
    rewrite zlookup_insert_eq by lia. intros [= <-]. split; [lia | done].
Qed.

(** *** BN_CTX_get *)

Lemma BN_CTX_get_spec bnCTX t :
  ctx_inv bnCTX -> stack_top bnCTX = Some t ->
  BN_CTX_get bnCTX =
  Some (if bnArrayMax bnCTX >=? BN_CTX_ARRAY_SIZE then (None, bnCTX)
        else (Some (InArray t),
              with_bnArrayMax
                (with_stack bnCTX
                   (<[Z.to_nat (stackPos bnCTX) := t + 1]> (stack bnCTX))
                   (stackPos bnCTX))
                (Z.max (bnArrayMax bnCTX) (t + 1)))).
Proof.
  intros Hi Ht. unfold BN_CTX_get. unfold stack_top in Ht. rewrite Ht. simpl.
  destruct (inv_top _ Hi t Ht) as [Hle Hfull].
  pose proof (inv_pos _ Hi) as Hp. pose proof (inv_stack_len _ Hi) as Hl.
  pose proof (inv_max _ Hi) as Hm.
  rewrite Z.geb_leb.
  destruct (Z.leb_spec BN_CTX_ARRAY_SIZE (bnArrayMax bnCTX)) as [|Hroom]; [done|].
  rewrite (ctx_inv_sane _ Hi). simpl.
  rewrite zinsert_in_range by lia. simpl.
  replace (t + 1 - 1) with t by lia.
  rewrite Z.gtb_ltb.
  destruct (Z.ltb_spec (bnArrayMax bnCTX) (t + 1)) as [Hgt|Hgt].
  - rewrite Z.max_r by lia.
    match goal with |- context [sanityCheckBNCTX ?c] =>
      assert (Hs : sanityCheckBNCTX c = true) end.
    { apply sanityCheckBNCTX_spec. simpl. lia. }
    by rewrite Hs.
  - rewrite Z.max_l by lia.
    match goal with |- context [sanityCheckBNCTX ?c] =>
      assert (Hs : sanityCheckBNCTX c = true) end.
    { apply sanityCheckBNCTX_spec. simpl. lia. }
    by rewrite Hs.
Qed.

Lemma BN_CTX_get_inv bnCTX p bnCTX' :
  ctx_inv bnCTX -> BN_CTX_get bnCTX = Some (p, bnCTX') -> ctx_inv bnCTX'.
Proof.
  intros Hi Hg.
  destruct (ctx_inv_top _ Hi) as (t & Ht & Ht0 & Hfull).
  pose proof (inv_pos _ Hi) as Hp. pose proof (inv_stack_len _ Hi) as Hl.
  pose proof (inv_max _ Hi) as Hm.
  rewrite (BN_CTX_get_spec _ t) in Hg by done.
  rewrite Z.geb_leb in Hg.
  destruct (Z.leb_spec BN_CTX_ARRAY_SIZE (bnArrayMax bnCTX)) as [|Hroom];
    injection Hg as <- <-; [done|].
  destruct Hi. split; simpl; rewrite ?length_insert; try done; try lia.
  - intros i j x y Hij Hj Hx Hy.
    destruct (decide (j = stackPos bnCTX)) as [->|Hj'].
    + rewrite zlookup_insert_eq in Hy by lia. injection Hy as <-.
      destruct (decide (i = stackPos bnCTX)) as [->|Hi'].
      * rewrite zlookup_insert_eq in Hx by lia. injection Hx as <-. lia.
      * rewrite zlookup_insert_ne in Hx by lia.
        pose proof (inv_sorted0 i (stackPos bnCTX) x t
                      ltac:(lia) ltac:(lia) Hx Ht). lia.
    + rewrite zlookup_insert_ne in Hx, Hy by lia.
      apply (inv_sorted0 i j x y); [lia | lia | done | done].
  - unfold stack_top. simpl. intros t'.
    rewrite zlookup_insert_eq by lia. intros [= <-]. lia.
Qed.

(** *** BN_CTX_end *)

(** The loop clears the bignums from [i] up to [hi] and no other; it ends
    with the index at [hi]. *)
Lemma end_loop_spec fuel : forall i hi (a : list BIGNUM),
  0 <= i <= hi -> hi <= BN_CTX_ARRAY_SIZE ->
  Z.of_nat (length a) = BN_CTX_ARRAY_SIZE ->
  hi - i <= Z.of_nat fuel ->
  exists a',
    end_loop fuel i hi a = Some (hi, a') /\
    length a' = length a /\
    forall k, zlookup a' k =
              if decide (i <= k < hi) then BN_clear <$> zlookup a k
              else zlookup a k.
Proof.
  induction fuel as [|fuel IH]; intros i hi a Hi Hhi Hlen Hfuel; simpl.
  - assert (i = hi) as -> by lia. exists a. repeat split.
    intros k. by rewrite decide_False by lia.
  - destruct (Z.ltb_spec i hi) as [Hlt|Hge]; simpl.
    + replace (i <? BN_CTX_ARRAY_SIZE) with true
        by (symmetry; apply Z.ltb_lt; lia).
      destruct (zlookup_in_range a i) as [b Hb]; [lia|].
      rewrite Hb. simpl. rewrite zinsert_in_range by lia. simpl.
      destruct (IH (i + 1) hi (<[Z.to_nat i := BN_clear b]> a))
        as (a' & Hloop & Hlen' & Hk); [lia | lia | | lia |].
      { by rewrite length_insert. }
      exists a'. split; [done|]. split.
      { by rewrite Hlen', length_insert. }
      intros k. rewrite Hk.
      destruct (decide (k = i)) as [->|Hne].
      * rewrite decide_False, decide_True by lia.
        rewrite zlookup_insert_eq by lia. by rewrite Hb.
      * rewrite zlookup_insert_ne by lia.
        destruct (decide (i + 1 <= k < hi)), (decide (i <= k < hi));
          try done; lia.
    + assert (i = hi) as -> by lia. exists a. repeat split.
      intros k. by rewrite decide_False by lia.
Qed.

(** One call of BN_CTX_end inside a checkpoint.  [lo] is the mark the
    enclosing level had reached, [hi] the mark of the active level.  The
    bignums from [lo] up to [hi] are cleared; the stack is unwound only
    when [hi] is below the size of the pool. *)
Lemma BN_CTX_end_spec bnCTX lo hi :
  ctx_inv bnCTX ->
  zlookup (stack bnCTX) (stackPos bnCTX - 1) = Some lo ->
  stack_top bnCTX = Some hi ->
  exists a',
    length a' = length (bnArray bnCTX) /\
    (forall k, zlookup a' k =
               if decide (lo <= k < hi) then BN_clear <$> zlookup (bnArray bnCTX) k
               else zlookup (bnArray bnCTX) k) /\
    BN_CTX_end bnCTX =
    Some (if hi <? BN_CTX_ARRAY_SIZE then
            with_stack (with_bnArray bnCTX a')
              (<[Z.to_nat (stackPos bnCTX) := 0]> (stack bnCTX))
              (stackPos bnCTX - 1)
          else with_bnArray bnCTX a').
Proof.
  intros Hi Hlo Hhi.
  pose proof (inv_pos _ Hi) as Hp. pose proof (inv_stack_len _ Hi) as Hl.
  pose proof (inv_max _ Hi) as Hm.
  destruct (inv_top _ Hi hi Hhi) as [Hle _].
  pose proof (zlookup_range _ _ _ Hlo) as Hlo_range.
  pose proof (inv_sorted _ Hi (stackPos bnCTX - 1) (stackPos bnCTX) lo hi
                ltac:(lia) ltac:(lia) Hlo Hhi) as Hs.
  destruct (end_loop_spec (Z.to_nat (BN_CTX_ARRAY_SIZE - lo)) lo hi (bnArray bnCTX))
    as (a' & Hloop & Hlen & Hk); [lia | lia | apply Hi | lia |].
  exists a'. split; [done|]. split; [done|].
  unfold BN_CTX_end. unfold stack_top in Hhi.
  rewrite (ctx_inv_sane _ Hi), Hlo, Hhi. simpl.
  replace (lo <=? hi) with true by (symmetry; apply Z.leb_le; lia).
  simpl. rewrite Hloop. simpl.
  destruct (Z.ltb_spec hi BN_CTX_ARRAY_SIZE); simpl; [|done].
  by rewrite zinsert_in_range by lia.
Qed.

(** Without a checkpoint to end, the function reads below the stack
    array. *)
Lemma BN_CTX_end_underflow bnCTX :
  ctx_inv bnCTX -> stackPos bnCTX = 0 -> BN_CTX_end bnCTX = None.
Proof.
  intros Hi Hz. unfold BN_CTX_end. rewrite (ctx_inv_sane _ Hi), Hz. simpl.
  done.
Qed.

Lemma ctx_inv_with_bnArray bnCTX a :
  ctx_inv bnCTX -> length a = length (bnArray bnCTX) ->
  ctx_inv (with_bnArray bnCTX a).
Proof. intros [] Hlen. split; simpl; try done. by rewrite Hlen. Qed.

Lemma ctx_inv_with_bnExtArray bnCTX a :
  ctx_inv bnCTX -> length a = length (bnExtArray bnCTX) ->
  ctx_inv (with_bnExtArray bnCTX a).
Proof. intros [] Hlen. split; simpl; try done. by rewrite Hlen. Qed.

Lemma ctx_inv_with_bnExt2Array bnCTX a :
  ctx_inv bnCTX -> length a = length (bnExt2Array bnCTX) ->
  ctx_inv (with_bnExt2Array bnCTX a).
Proof. intros [] Hlen. split; simpl; try done. by rewrite Hlen. Qed.

Lemma BN_CTX_end_inv bnCTX bnCTX' :
  ctx_inv bnCTX -> BN_CTX_end bnCTX = Some bnCTX' -> ctx_inv bnCTX'.
Proof.
  intros Hi He.
  destruct (ctx_inv_top _ Hi) as (hi & Hhi & Hhi0 & Hfull).
  pose proof (inv_pos _ Hi) as Hp. pose proof (inv_stack_len _ Hi) as Hl.
  destruct (decide (stackPos bnCTX = 0)) as [Hz|Hnz].
  { by rewrite BN_CTX_end_underflow in He. }
  destruct (zlookup_in_range (stack bnCTX) (stackPos bnCTX - 1)) as [lo Hlo];
    [lia|].
  destruct (BN_CTX_end_spec _ lo hi Hi Hlo Hhi) as (a' & Hlen & _ & Heq).
  rewrite Heq in He. injection He as <-.
  pose proof (ctx_inv_with_bnArray _ a' Hi Hlen) as Hi'.
  destruct (Z.ltb_spec hi BN_CTX_ARRAY_SIZE) as [Hroom|]; [|done].
  pose proof (inv_sorted _ Hi (stackPos bnCTX - 1) (stackPos bnCTX) lo hi
                ltac:(lia) ltac:(lia) Hlo Hhi) as Hs.
  destruct Hi'. split; simpl in *; rewrite ?length_insert; try done; try lia.
  - intros i j x y Hij Hj Hx Hy.
    rewrite zlookup_insert_ne in Hx, Hy by lia.
    apply (inv_sorted0 i j x y); [lia | lia | done | done].
  - unfold stack_top. simpl. intros t'.
    rewrite zlookup_insert_ne by lia. rewrite Hlo. intros [= <-]. lia.
Qed.

(** *** Writes through pointers, BN_CTX_end_ext *)

Lemma store_inv bnCTX p b bnCTX' :
  ctx_inv bnCTX -> store bnCTX p b = Some bnCTX' -> ctx_inv bnCTX'.
Proof.
  intros Hi Hs. destruct p as [i|i|i]; simpl in Hs;
    apply fmap_Some in Hs as (a & [_ ->]%zinsert_Some & ->).
  - apply ctx_inv_with_bnArray; [done | apply length_insert].
  - apply ctx_inv_with_bnExtArray; [done | apply length_insert].
  - apply ctx_inv_with_bnExt2Array; [done | apply length_insert].
Qed.

Lemma clear_at_inv bnCTX p bnCTX' :
  ctx_inv bnCTX -> clear_at bnCTX p = Some bnCTX' -> ctx_inv bnCTX'.
Proof.
  intros Hi Hc. unfold clear_at in Hc.
  destruct p as [p|]; simpl in Hc; [|done].
  destruct (deref bnCTX p) as [b|]; simpl in Hc; [|done].
  by eapply store_inv.
Qed.

Lemma BN_CTX_end_ext_inv bnCTX t bnCTX' :
  ctx_inv bnCTX -> BN_CTX_end_ext bnCTX t = Some bnCTX' -> ctx_inv bnCTX'.
Proof.
  intros Hi He. unfold BN_CTX_end_ext in He.
  destruct (BN_CTX_end bnCTX) as [c1|] eqn:Hend; simpl in He; [|done].
  apply (BN_CTX_end_inv _ _ Hi) in Hend.
  destruct (negb _); [by injection He as <-|].
  destruct (ext_type_eqb t BIGNUM_EXT_MUL1).
  - destruct (clear_at c1 _) as [c2|] eqn:Hc; simpl in He; [|done].
    apply (clear_at_inv _ _ _ Hend) in Hc. by eapply clear_at_inv.
  - by eapply clear_at_inv.
Qed.

(** Every context a caller can get to has its bookkeeping in order. *)
Lemma reachable_inv bnCTX : cfg_ok cfg -> reachable bnCTX -> ctx_inv bnCTX.
Proof.
  intros Hc. induction 1 as
    [ | c c' _ IH Hs | c c' _ IH He | c t c' _ IH He | c p c' _ IH Hg
      | c p b c' _ IH Hs ].
  - by apply BN_CTX_init_inv.
  - by eapply BN_CTX_start_inv.
  - by eapply BN_CTX_end_inv.
  - by eapply BN_CTX_end_ext_inv.
  - by eapply BN_CTX_get_inv.
  - by eapply store_inv.
Qed.

(** *** Pool exhaustion *)

Lemma get_n_failing bnCTX n :
  BN_CTX_get bnCTX = Some (None, bnCTX) ->
  get_n n bnCTX = Some (replicate n None, bnCTX).
Proof.
  intros Hg. induction n as [|n IH]; simpl; [done|].
  rewrite Hg. simpl. rewrite IH. done.
Qed.

(** C3.  On every context a caller can get to, BN_CTX_get returns NULL
    exactly when one more bignum would go beyond BN_CTX_ARRAY_SIZE, that
    is when the allocation mark of the active checkpoint is at the size
    of the pool; otherwise it returns the bignum at the mark.  A call that
    returns NULL leaves the whole context as it was (bignums, sizes and
    bookkeeping), so any number of further calls return NULL again. *)
Theorem BN_CTX_get_exhaustion (bnCTX : BN_CTX) :
  cfg_ok cfg -> reachable bnCTX ->
  exists t p bnCTX',
    stack_top bnCTX = Some t /\
    BN_CTX_get bnCTX = Some (p, bnCTX') /\
    (p = None <-> t + 1 > BN_CTX_ARRAY_SIZE) /\
    (p <> None -> p = Some (InArray t)) /\
    (p = None ->
       bnCTX' = bnCTX /\
       forall n, get_n n bnCTX = Some (replicate n None, bnCTX)).
Proof.
  intros Hc Hr. pose proof (reachable_inv _ Hc Hr) as Hi.
  destruct (ctx_inv_top _ Hi) as (t & Ht & Ht0 & Hfull).
  pose proof (inv_max _ Hi) as Hm.
  pose proof (BN_CTX_get_spec _ t Hi Ht) as Hg.
  rewrite Z.geb_leb in Hg.
  destruct (Z.leb_spec BN_CTX_ARRAY_SIZE (bnArrayMax bnCTX)) as [Hex|Hroom].
  - exists t, None, bnCTX. repeat split; try done.
    + intros _. rewrite Hfull by lia. lia.
    + intros n. by apply get_n_failing.
  - eexists t, _, _. split; [done|]. split; [exact Hg|].
    split; [split; [done | lia]|]. split; [done | done].
Qed.

(** *** The extended bignums *)

(** C10.  BN_CTX_get_ext returns a pointer for each of the three purposes
    and never NULL: BIGNUM_EXT_MONT is the first bignum of [bnExtArray],
    BIGNUM_EXT_MUL1 the first and BIGNUM_EXT_MUL2 the second bignum of
    [bnExt2Array].  The pointer is the same whatever the context is, so
    in particular however often the function has been called and whether
    or not the bignum has been released. *)
Theorem BN_CTX_get_ext_fixed_slots (bnCTX bnCTX' : BN_CTX) :
  BN_CTX_get_ext bnCTX BIGNUM_EXT_MONT = Some (InExtArray 0) /\
  BN_CTX_get_ext bnCTX BIGNUM_EXT_MUL1 = Some (InExt2Array 0) /\
  BN_CTX_get_ext bnCTX BIGNUM_EXT_MUL2 = Some (InExt2Array 1) /\
  forall t, BN_CTX_get_ext bnCTX' t = BN_CTX_get_ext bnCTX t.
Proof. repeat split. Qed.

Lemma clear_at_ext bnCTX e :
  deref bnCTX (InExtArray 0) = Some e ->
  clear_at bnCTX (Some (InExtArray 0)) =
  Some (with_bnExtArray bnCTX (<[0%nat := BN_clear e]> (bnExtArray bnCTX))).
Proof.
  intros He. unfold clear_at. simpl in *. rewrite He. simpl.
  apply zlookup_range in He. by rewrite zinsert_in_range by lia.
Qed.

Lemma clear_at_ext2 bnCTX i e :
  deref bnCTX (InExt2Array i) = Some e ->
  clear_at bnCTX (Some (InExt2Array i)) =
  Some (with_bnExt2Array bnCTX
          (<[Z.to_nat i := BN_clear e]> (bnExt2Array bnCTX))).
Proof.
  intros He. unfold clear_at. simpl in *. rewrite He. simpl.
  apply zlookup_range in He. by rewrite zinsert_in_range by lia.
Qed.

(** C9, as the code has it.  BN_CTX_end_ext first does what BN_CTX_end
    does.  For BIGNUM_EXT_MONT it then clears the first bignum of
    [bnExtArray]; for BIGNUM_EXT_MUL1 it clears both bignums of
    [bnExt2Array], the one of BIGNUM_EXT_MUL1 and the one of
    BIGNUM_EXT_MUL2; for every other purpose, BIGNUM_EXT_MUL2 among them, it
    stops after the standard release and clears no extended bignum.
    Nothing else differs from the context BN_CTX_end leaves, and a cleared
    bignum that is sane and not static reads back with [top = 0]. *)
Theorem BN_CTX_end_ext_clears (bnCTX released : BN_CTX) :
  BN_CTX_end bnCTX = Some released ->
  (forall e, deref released (InExtArray 0) = Some e ->
     BN_CTX_end_ext bnCTX BIGNUM_EXT_MONT =
     Some (with_bnExtArray released
             (<[0%nat := BN_clear e]> (bnExtArray released)))) /\
  (forall m1 m2,
     deref released (InExt2Array 0) = Some m1 ->
     deref released (InExt2Array 1) = Some m2 ->
     BN_CTX_end_ext bnCTX BIGNUM_EXT_MUL1 =
     Some (with_bnExt2Array released
             (<[1%nat := BN_clear m2]>
                (<[0%nat := BN_clear m1]> (bnExt2Array released))))) /\
  (forall t, t <> BIGNUM_EXT_MONT -> t <> BIGNUM_EXT_MUL1 ->
     BN_CTX_end_ext bnCTX t = Some released) /\
  (forall b, sanityCheckBignum b = true -> is_static b = false ->
     top (BN_clear b) = 0 /\ neg (BN_clear b) = 0 /\
     d (BN_clear b) = zeroise (d b) (dmax b)).
Proof.
  intros Hend. unfold BN_CTX_end_ext. rewrite Hend. simpl.
  split; [|split; [|split]].
  - intros e He. unfold BN_CTX_get_ext. simpl. by apply clear_at_ext.
  - intros m1 m2 Hm1 Hm2. unfold BN_CTX_get_ext. simpl.
    rewrite (clear_at_ext2 _ 0 m1 Hm1). simpl.
    rewrite (clear_at_ext2 _ 1 m2).
    + done.
    + simpl in *. rewrite zlookup_insert_ne by lia. done.
  - intros t Hmont Hmul1. by destruct t.
  - intros b Hs Hst. by rewrite BN_clear_cleared.
Qed.

(** *** The frame of BN_CTX_end *)

(** Inside a checkpoint, one call of BN_CTX_end clears the bignums between
    the mark of the enclosing level and the mark of the active level and
    touches no other bignum of the context. *)
Lemma BN_CTX_end_frame bnCTX lo hi :
  ctx_inv bnCTX ->
  zlookup (stack bnCTX) (stackPos bnCTX - 1) = Some lo ->
  stack_top bnCTX = Some hi ->
  exists c,
    BN_CTX_end bnCTX = Some c /\
    (forall k, lo <= k < hi ->
       deref c (InArray k) = BN_clear <$> deref bnCTX (InArray k)) /\
    (forall k, ~ lo <= k < hi -> deref c (InArray k) = deref bnCTX (InArray k)) /\
    bnExtArray c = bnExtArray bnCTX /\ bnExt2Array c = bnExt2Array bnCTX /\
    bnArrayMax c = bnArrayMax bnCTX /\
    (hi < BN_CTX_ARRAY_SIZE ->
       stackPos c = stackPos bnCTX - 1 /\ stack_top c = Some lo) /\
    (hi = BN_CTX_ARRAY_SIZE ->
       stackPos c = stackPos bnCTX /\ stack c = stack bnCTX).
Proof.
  intros Hi Hlo Hhi.
  destruct (BN_CTX_end_spec _ lo hi Hi Hlo Hhi) as (a' & Hlen & Hk & Heq).
  pose proof (zlookup_range _ _ _ Hlo) as Hr.
  eexists. split; [exact Heq|].
  destruct (Z.ltb_spec hi BN_CTX_ARRAY_SIZE); simpl.
  - repeat split; try done; try lia.
    + intros k Hin. by rewrite Hk, decide_True.
    + intros k Hout. by rewrite Hk, decide_False.
    + unfold stack_top. simpl. by rewrite zlookup_insert_ne by lia.
  - repeat split; try done; try lia.
    + intros k Hin. by rewrite Hk, decide_True.
    + intros k Hout. by rewrite Hk, decide_False.
Qed.

(** *** Checkpoints *)

Lemma ctx_inv_same_books c c' :
  ctx_inv c ->
  stack c' = stack c -> stackPos c' = stackPos c ->
  bnArrayMax c' = bnArrayMax c ->
  length (bnArray c') = length (bnArray c) ->
  bnExtArray c' = bnExtArray c -> bnExt2Array c' = bnExt2Array c ->
  ctx_inv c'.
Proof.
  intros [] Hs Hp Hm Ha He He2.
  split; unfold stack_top in *; rewrite ?Hs, ?Hp, ?Hm, ?Ha, ?He, ?He2; done.
Qed.

Lemma BN_CTX_get_room bnCTX t :
  ctx_inv bnCTX -> stack_top bnCTX = Some t -> t < BN_CTX_ARRAY_SIZE ->
  BN_CTX_get bnCTX =
  Some (Some (InArray t),
        with_bnArrayMax
          (with_stack bnCTX
             (<[Z.to_nat (stackPos bnCTX) := t + 1]> (stack bnCTX))
             (stackPos bnCTX))
          (Z.max (bnArrayMax bnCTX) (t + 1))).
Proof.
  intros Hi Ht Hroom. rewrite (BN_CTX_get_spec _ t) by done.
  destruct (inv_top _ Hi t Ht) as [_ Hfull]. pose proof (inv_max _ Hi).
  rewrite Z.geb_leb.
  destruct (Z.leb_spec BN_CTX_ARRAY_SIZE (bnArrayMax bnCTX)); [lia | done].
Qed.

Lemma get_n_spec n : forall bnCTX t,
  ctx_inv bnCTX -> stack_top bnCTX = Some t ->
  t + Z.of_nat n <= BN_CTX_ARRAY_SIZE ->
  exists c,
    get_n n bnCTX = Some (temporaries t n, c) /\
    ctx_inv c /\
    stackPos c = stackPos bnCTX /\
    stack_top c = Some (t + Z.of_nat n) /\
    (forall k, k <> stackPos bnCTX ->
       zlookup (stack c) k = zlookup (stack bnCTX) k) /\
    bnArray c = bnArray bnCTX /\
    bnExtArray c = bnExtArray bnCTX /\ bnExt2Array c = bnExt2Array bnCTX.
Proof.
  induction n as [|n IH]; intros bnCTX t Hi Ht Hroom.
  - exists bnCTX. simpl. rewrite Z.add_0_r. by split_and!.
  - simpl. pose proof (BN_CTX_get_room _ t Hi Ht ltac:(lia)) as Hg.
    rewrite Hg. simpl.
    pose proof (BN_CTX_get_inv _ _ _ Hi Hg) as Hi1.
    pose proof (inv_pos _ Hi). pose proof (inv_stack_len _ Hi).
    set (c1 := with_bnArrayMax _ _) in *.
    assert (Ht1 : stack_top c1 = Some (t + 1)).
    { unfold stack_top. simpl. by rewrite zlookup_insert_eq by lia. }
    destruct (IH c1 (t + 1) Hi1 Ht1 ltac:(lia))
      as (c & -> & Hic & Hp & Htop & Hst & Ha & He & He2).
    exists c. simpl. split; [done|]. split; [done|]. split; [done|].
    split; [rewrite Htop; f_equal; lia|].
    split; [|done].
    intros k Hk. rewrite Hst by done. simpl.
    by rewrite zlookup_insert_ne by lia.
Qed.

Lemma store_all_spec n : forall bnCTX t bs,
  length bs = n -> 0 <= t ->
  t + Z.of_nat n <= Z.of_nat (length (bnArray bnCTX)) ->
  exists c,
    store_all bnCTX (temporaries t n) bs = Some c /\
    stack c = stack bnCTX /\ stackPos c = stackPos bnCTX /\
    bnArrayMax c = bnArrayMax bnCTX /\
    bnExtArray c = bnExtArray bnCTX /\ bnExt2Array c = bnExt2Array bnCTX /\
    length (bnArray c) = length (bnArray bnCTX) /\
    forall k, zlookup (bnArray c) k =
              if decide (t <= k < t + Z.of_nat n) then bs !! Z.to_nat (k - t)
              else zlookup (bnArray bnCTX) k.
Proof.
  induction n as [|n IH]; intros bnCTX t bs Hlen Ht Hroom.
  - exists bnCTX. simpl. split_and!; try done.
    intros k. by rewrite decide_False by lia.
  - destruct bs as [|b bs]; [done|]. simpl in Hlen. simpl.
    rewrite zinsert_in_range by lia. simpl.
    set (c1 := with_bnArray _ _).
    destruct (IH c1 (t + 1) bs ltac:(lia) ltac:(lia))
      as (c & -> & Hs & Hp & Hm & He & He2 & Hl & Hk).
    { simpl. rewrite length_insert. lia. }
    exists c. simpl in *. rewrite length_insert in Hl.
    split_and!; try done.
    intros k. rewrite Hk.
    destruct (decide (k = t)) as [->|Hne].
    + rewrite decide_False, decide_True by lia.
      rewrite zlookup_insert_eq by lia.
      by replace (t - t) with 0 by lia.
    + rewrite zlookup_insert_ne by lia.
      repeat case_decide; try lia; try done.
      by replace (Z.to_nat (k - t)) with (S (Z.to_nat (k - (t + 1)))) by lia.
Qed.

(** One more level of nesting. *)
Lemma enter_spec n bs bnCTX t :
  ctx_inv bnCTX -> stack_top bnCTX = Some t ->
  stackPos bnCTX + 1 < BN_CTX_ARRAY_SIZE ->
  t + Z.of_nat n <= BN_CTX_ARRAY_SIZE -> length bs = n ->
  exists c,
    enter n bs bnCTX = Some (temporaries t n, c) /\
    ctx_inv c /\
    stackPos c = stackPos bnCTX + 1 /\
    stack_top c = Some (t + Z.of_nat n) /\
    (forall k, k <= stackPos bnCTX ->
       zlookup (stack c) k = zlookup (stack bnCTX) k) /\
    (forall k, zlookup (bnArray c) k =
               if decide (t <= k < t + Z.of_nat n) then bs !! Z.to_nat (k - t)
               else zlookup (bnArray bnCTX) k) /\
    bnExtArray c = bnExtArray bnCTX /\ bnExt2Array c = bnExt2Array bnCTX.
Proof.
  intros Hi Ht Hdeep Hroom Hlen.
  pose proof (inv_pos _ Hi). pose proof (inv_stack_len _ Hi).
  destruct (ctx_inv_top _ Hi) as (t' & Ht' & Ht0 & _).
  assert (t' = t) as -> by congruence.
  unfold enter.
  pose proof (BN_CTX_start_spec _ t Hi Ht Hdeep) as Hs.
  rewrite Hs. simpl.
  pose proof (BN_CTX_start_inv _ _ Hi Hs) as Hi1.
  set (c1 := with_stack _ _ _) in *.
  assert (Ht1 : stack_top c1 = Some t).
  { unfold stack_top. simpl. by rewrite zlookup_insert_eq by lia. }
  destruct (get_n_spec n c1 t Hi1 Ht1 Hroom)
    as (c2 & -> & Hi2 & Hp2 & Ht2 & Hst2 & Ha2 & He2 & Hee2).
  simpl.
  destruct (store_all_spec n c2 t bs Hlen ltac:(lia))
    as (c3 & -> & Hs3 & Hp3 & Hm3 & He3 & Hee3 & Hl3 & Hk3).
  { rewrite Ha2. simpl. rewrite (inv_array_len _ Hi). lia. }
  simpl. exists c3. split; [done|].
  split; [by eapply (ctx_inv_same_books c2)|].
  split; [by rewrite Hp3, Hp2|].
  split; [unfold stack_top in *; by rewrite Hs3, Hp3|].
  split.
  { intros k Hk. rewrite Hs3, Hst2 by (simpl; lia). simpl.
    by rewrite zlookup_insert_ne by lia. }
  split; [|by rewrite He3, Hee3, He2, Hee2].
  intros k. rewrite Hk3, Ha2. done.
Qed.

(** A checkpoint that stays below the size of the pool: the stack is back
    where it was, the temporaries are cleared, nothing else has changed. *)
Lemma checkpoint_spec n bs bnCTX t :
  ctx_inv bnCTX -> stack_top bnCTX = Some t ->
  stackPos bnCTX + 1 < BN_CTX_ARRAY_SIZE ->
  t + Z.of_nat n < BN_CTX_ARRAY_SIZE -> length bs = n ->
  exists released,
    checkpoint n bs bnCTX = Some released /\
    ctx_inv released /\
    stackPos released = stackPos bnCTX /\
    stack_top released = Some t /\
    (forall k, zlookup (bnArray released) k =
               if decide (t <= k < t + Z.of_nat n)
               then BN_clear <$> bs !! Z.to_nat (k - t)
               else zlookup (bnArray bnCTX) k) /\
    bnExtArray released = bnExtArray bnCTX /\
    bnExt2Array released = bnExt2Array bnCTX.
Proof.
  intros Hi Ht Hdeep Hroom Hlen.
  destruct (enter_spec n bs bnCTX t Hi Ht Hdeep ltac:(lia) Hlen)
    as (c & He & Hic & Hp & Htop & Hst & Hk & Hext & Hext2).
  assert (Hc : checkpoint n bs bnCTX = BN_CTX_end c).
  { unfold checkpoint. unfold enter in He.
    destruct (BN_CTX_start bnCTX) as [c1|]; simpl in *; [|done].
    destruct (get_n n c1) as [[ps c2]|]; simpl in *; [|done].
    destruct (store_all c2 ps bs) as [c3|]; simpl in *; [|done].
    by injection He as _ ->. }
  rewrite Hc.
  assert (Hlo : zlookup (stack c) (stackPos c - 1) = Some t).
  { rewrite Hp. replace (stackPos bnCTX + 1 - 1) with (stackPos bnCTX) by lia.
    by rewrite Hst by lia. }
  destruct (BN_CTX_end_frame c t (t + Z.of_nat n) Hic Hlo Htop)
    as (r & Hend & Hin & Hout & He1 & He2 & _ & Hpop & _).
  exists r. split; [done|].
  split; [by eapply BN_CTX_end_inv|].
  destruct (Hpop Hroom) as [Hpr Htr].
  split; [lia|]. split; [done|].
  split; [|by rewrite He1, He2].
  intros k. specialize (Hin k). specialize (Hout k). simpl in Hin, Hout.
  destruct (decide (t <= k < t + Z.of_nat n)) as [Hr|Hr].
  - rewrite (Hin Hr), Hk. by rewrite decide_True.
  - rewrite (Hout Hr), Hk. by rewrite decide_False.
Qed.

(** The checkpoint of C1 when it stays below the size of the pool: the
    allocation mark after the release is the mark before the start, and
    start and [n] temporaries again return the same bignums, every one
    cleared. *)
Lemma checkpoint_again_cleared n bs bnCTX t :
  ctx_inv bnCTX -> stack_top bnCTX = Some t ->
  stackPos bnCTX + 1 < BN_CTX_ARRAY_SIZE ->
  t + Z.of_nat n < BN_CTX_ARRAY_SIZE ->
  length bs = n -> Forall slot_ok bs ->
  exists released c,
    checkpoint_again n bs bnCTX = Some (released, temporaries t n, c) /\
    stack_top released = stack_top bnCTX /\
    stackPos released = stackPos bnCTX /\
    forall k, t <= k < t + Z.of_nat n ->
      exists b, deref c (InArray k) = Some b /\ top b = 0 /\ neg b = 0.
Proof.
  intros Hi Ht Hdeep Hroom Hlen Hok.
  destruct (checkpoint_spec n bs bnCTX t Hi Ht Hdeep Hroom Hlen)
    as (r & Hc & Hir & Hpr & Htr & Hkr & _).
  unfold checkpoint_again. rewrite Hc. simpl.
  pose proof (BN_CTX_start_spec r t Hir Htr ltac:(lia)) as Hs.
  rewrite Hs. simpl.
  pose proof (BN_CTX_start_inv _ _ Hir Hs) as Hi1.
  pose proof (inv_pos _ Hir). pose proof (inv_stack_len _ Hir).
  set (c1 := with_stack _ _ _) in *.
  assert (Ht1 : stack_top c1 = Some t).
  { unfold stack_top. simpl. by rewrite zlookup_insert_eq by lia. }
  destruct (get_n_spec n c1 t Hi1 Ht1 ltac:(lia))
    as (c2 & -> & _ & _ & _ & _ & Ha2 & _).
  simpl. exists r, c2. split; [done|]. split; [congruence|]. split; [done|].
  intros k Hk. simpl. rewrite Ha2. simpl. rewrite Hkr, decide_True by done.
  destruct (lookup_lt_is_Some_2 bs (Z.to_nat (k - t))) as [b Hb]; [lia|].
  rewrite Hb. simpl. exists (BN_clear b). split; [done|].
  destruct (Forall_lookup_1 _ _ _ _ Hok Hb) as [Hsane Hst].
  by apply BN_clear_top.
Qed.

(** The checkpoint of C1 when it takes the last bignum of the pool: every
    BN_CTX_get succeeds, but BN_CTX_end does not unwind the stack (its
    loop ends with [i = BN_CTX_ARRAY_SIZE] and the check
    [i < BN_CTX_ARRAY_SIZE] fails), so the allocation mark stays at the
    size of the pool and every BN_CTX_get of the second round returns
    NULL. *)
Lemma checkpoint_again_full n bs bnCTX t :
  ctx_inv bnCTX -> stack_top bnCTX = Some t ->
  stackPos bnCTX + 2 < BN_CTX_ARRAY_SIZE ->
  t + Z.of_nat n = BN_CTX_ARRAY_SIZE -> (0 < n)%nat -> length bs = n ->
  exists c, enter n bs bnCTX = Some (temporaries t n, c) /\
  exists released c',
    checkpoint_again n bs bnCTX = Some (released, replicate n None, c') /\
    stack_top released = Some BN_CTX_ARRAY_SIZE /\
    stackPos released = stackPos bnCTX + 1.
Proof.
  intros Hi Ht Hdeep Hfull Hn Hlen.
  destruct (enter_spec n bs bnCTX t Hi Ht ltac:(lia) ltac:(lia) Hlen)
    as (c & He & Hic & Hp & Htop & Hst & Hk & Hext & Hext2).
  exists c. split; [done|].
  assert (Hc : checkpoint n bs bnCTX = BN_CTX_end c).
  { unfold checkpoint. unfold enter in He.
    destruct (BN_CTX_start bnCTX) as [c1|]; simpl in *; [|done].
    destruct (get_n n c1) as [[ps c2]|]; simpl in *; [|done].
    destruct (store_all c2 ps bs) as [c3|]; simpl in *; [|done].
    by injection He as _ ->. }
  pose proof (inv_pos _ Hi).
  assert (Hlo : zlookup (stack c) (stackPos c - 1) = Some t).
  { rewrite Hp. replace (stackPos bnCTX + 1 - 1) with (stackPos bnCTX) by lia.
    by rewrite Hst by lia. }
  destruct (BN_CTX_end_frame c t (t + Z.of_nat n) Hic Hlo Htop)
    as (r & Hend & _ & _ & _ & _ & Hmax & _ & Hstuck).
  destruct (Hstuck Hfull) as [Hpr Hsr].
  pose proof (BN_CTX_end_inv _ _ Hic Hend) as Hir.
  assert (Htr : stack_top r = Some BN_CTX_ARRAY_SIZE).
  { unfold stack_top in *. rewrite Hsr, Hpr, Htop. f_equal. lia. }
  unfold checkpoint_again. rewrite Hc, Hend. simpl.
  destruct (decide (stackPos r + 1 < BN_CTX_ARRAY_SIZE)) as [Hd|Hd].
  - pose proof (BN_CTX_start_spec r _ Hir Htr Hd) as Hs.
    rewrite Hs. simpl.
    pose proof (BN_CTX_start_inv _ _ Hir Hs) as Hi1.
    pose proof (inv_stack_len _ Hir). pose proof (inv_pos _ Hir).
    set (c1 := with_stack _ _ _) in *.
    assert (Ht1 : stack_top c1 = Some BN_CTX_ARRAY_SIZE).
    { unfold stack_top. simpl. by rewrite zlookup_insert_eq by lia. }
    assert (Hg : BN_CTX_get c1 = Some (None, c1)).
    { rewrite (BN_CTX_get_spec _ _ Hi1 Ht1).
      destruct (inv_top _ Hi1 _ Ht1) as [Hle _]. pose proof (inv_max _ Hi1).
      replace (bnArrayMax c1 >=? BN_CTX_ARRAY_SIZE) with true; [done|].
      symmetry. apply Z.geb_le. lia. }
    rewrite (get_n_failing _ n Hg). simpl.
    exists r, c1. split; [done|]. split; [done | lia].
  - lia.
Qed.

(** Three nested checkpoints that stay below the size of the pool.  With
    all three levels live every temporary holds what its level wrote.
    Each release clears the temporaries of its own level, the bignums
    between the two marks, and leaves every other bignum of the pool as it
    was: those of the enclosing levels keep their data. *)
Lemma three_levels_released n1 n2 n3 bs1 bs2 bs3 bnCTX t :
  ctx_inv bnCTX -> stack_top bnCTX = Some t ->
  stackPos bnCTX + 3 < BN_CTX_ARRAY_SIZE ->
  t + Z.of_nat n1 + Z.of_nat n2 + Z.of_nat n3 < BN_CTX_ARRAY_SIZE ->
  length bs1 = n1 -> length bs2 = n2 -> length bs3 = n3 ->
  let t2 := t + Z.of_nat n1 in
  let t3 := t2 + Z.of_nat n2 in
  let t4 := t3 + Z.of_nat n3 in
  exists c3 c2 c1 c0,
    three_levels n1 n2 n3 bs1 bs2 bs3 bnCTX =
    Some (temporaries t n1, temporaries t2 n2, temporaries t3 n3,
          c3, c2, c1, c0) /\
    (forall k, zlookup (bnArray c3) k =
       if decide (t3 <= k < t4) then bs3 !! Z.to_nat (k - t3)
       else if decide (t2 <= k < t3) then bs2 !! Z.to_nat (k - t2)
       else if decide (t <= k < t2) then bs1 !! Z.to_nat (k - t)
       else zlookup (bnArray bnCTX) k) /\
    (forall k, zlookup (bnArray c2) k =
       if decide (t3 <= k < t4) then BN_clear <$> zlookup (bnArray c3) k
       else zlookup (bnArray c3) k) /\
    (forall k, zlookup (bnArray c1) k =
       if decide (t2 <= k < t3) then BN_clear <$> zlookup (bnArray c2) k
       else zlookup (bnArray c2) k) /\
    (forall k, zlookup (bnArray c0) k =
       if decide (t <= k < t2) then BN_clear <$> zlookup (bnArray c1) k
       else zlookup (bnArray c1) k) /\
    stackPos c0 = stackPos bnCTX /\ stack_top c0 = Some t.
Proof.
  intros Hi Ht Hdeep Hroom Hl1 Hl2 Hl3 t2 t3 t4.
  pose proof (inv_pos _ Hi) as Hp.
  destruct (enter_spec n1 bs1 bnCTX t Hi Ht ltac:(lia) ltac:(lia) Hl1)
    as (e1 & He1 & Hi1 & Hp1 & Ht1 & Hs1 & Hk1 & _).
  destruct (enter_spec n2 bs2 e1 t2 Hi1 Ht1 ltac:(lia) ltac:(lia) Hl2)
    as (e2 & He2 & Hi2 & Hp2 & Ht2 & Hs2 & Hk2 & _).
  destruct (enter_spec n3 bs3 e2 t3 Hi2 Ht2 ltac:(lia) ltac:(lia) Hl3)
    as (c3 & He3 & Hi3 & Hp3 & Ht3 & Hs3 & Hk3 & _).
  fold t4 in Ht3.
  (* the marks of the three levels in the stack of [c3] *)
  assert (Hm2 : zlookup (stack c3) (stackPos c3 - 1) = Some t3).
  { rewrite Hs3 by lia. replace (stackPos c3 - 1) with (stackPos e2) by lia.
    exact Ht2. }
  assert (Hm1 : zlookup (stack c3) (stackPos c3 - 2) = Some t2).
  { rewrite Hs3, Hs2 by lia. replace (stackPos c3 - 2) with (stackPos e1) by lia.
    exact Ht1. }
  assert (Hm0 : zlookup (stack c3) (stackPos c3 - 3) = Some t).
  { rewrite Hs3, Hs2, Hs1 by lia.
    replace (stackPos c3 - 3) with (stackPos bnCTX) by lia. exact Ht. }
  pose proof (inv_stack_len _ Hi3) as Hlen3. pose proof (inv_pos _ Hi3) as Hp3'.
  (* release of the third level *)
  destruct (BN_CTX_end_spec c3 t3 t4 Hi3 Hm2 Ht3) as (a2 & _ & Ha2 & Hend3).
  replace (t4 <? BN_CTX_ARRAY_SIZE) with true in Hend3
    by (symmetry; apply Z.ltb_lt; unfold t4, t3, t2; lia).
  set (c2 := with_stack _ _ _) in Hend3.
  pose proof (BN_CTX_end_inv _ _ Hi3 Hend3) as Hic2.
  assert (Htop2 : stack_top c2 = Some t3).
  { unfold stack_top. simpl. by rewrite zlookup_insert_ne by lia. }
  assert (Hlo2 : zlookup (stack c2) (stackPos c2 - 1) = Some t2).
  { simpl. rewrite zlookup_insert_ne by lia.
    by replace (stackPos c3 - 1 - 1) with (stackPos c3 - 2) by lia. }
  (* release of the second level *)
  destruct (BN_CTX_end_spec c2 t2 t3 Hic2 Hlo2 Htop2) as (a1 & _ & Ha1 & Hend2).
  replace (t3 <? BN_CTX_ARRAY_SIZE) with true in Hend2
    by (symmetry; apply Z.ltb_lt; unfold t3, t2; lia).
  set (c1 := with_stack _ _ _) in Hend2.
  pose proof (BN_CTX_end_inv _ _ Hic2 Hend2) as Hic1.
  assert (Htop1 : stack_top c1 = Some t2).
  { unfold stack_top. simpl. rewrite !zlookup_insert_ne by lia.
    by replace (stackPos c3 - 1 - 1) with (stackPos c3 - 2) by lia. }
  assert (Hlo1 : zlookup (stack c1) (stackPos c1 - 1) = Some t).
  { simpl. rewrite !zlookup_insert_ne by lia.
    by replace (stackPos c3 - 1 - 1 - 1) with (stackPos c3 - 3) by lia. }
  (* release of the first level *)
  destruct (BN_CTX_end_spec c1 t t2 Hic1 Hlo1 Htop1) as (a0 & _ & Ha0 & Hend1).
  replace (t2 <? BN_CTX_ARRAY_SIZE) with true in Hend1
    by (symmetry; apply Z.ltb_lt; unfold t2; lia).
  set (c0 := with_stack _ _ _) in Hend1.
  exists c3, c2, c1, c0. split.
  { unfold three_levels. rewrite He1. simpl. rewrite He2. simpl.
    rewrite He3. simpl. rewrite Hend3. simpl. rewrite Hend2. simpl.
    rewrite Hend1. done. }
  split.
  { intros k. by rewrite Hk3, Hk2, Hk1. }
  split; [exact Ha2|]. split; [exact Ha1|]. split; [exact Ha0|].
  split; [simpl; lia|].
  unfold stack_top. simpl. rewrite !zlookup_insert_ne by lia.
  by replace (stackPos c3 - 1 - 1 - 1) with (stackPos c3 - 3) by lia.
Qed.

Lemma reachable_get_n n : forall c ps c',
  reachable c -> get_n n c = Some (ps, c') -> reachable c'.
Proof.
  induction n as [|n IH]; intros c ps c' Hr Hg; simpl in Hg.
  - by injection Hg as _ <-.
  - destruct (BN_CTX_get c) as [[p c1]|] eqn:Hg1; simpl in Hg; [|done].
    destruct (get_n n c1) as [[ps' c2]|] eqn:Hg2; simpl in Hg; [|done].
    injection Hg as _ <-.
    eapply IH; [|exact Hg2]. by eapply reachable_get.
Qed.

Lemma reachable_store_all ps : forall c bs c',
  reachable c -> store_all c ps bs = Some c' -> reachable c'.
Proof.
  induction ps as [|p ps IH]; intros c bs c' Hr Hs; simpl in Hs.
  - by injection Hs as <-.
  - destruct bs as [|b bs]; [by injection Hs as <-|].
    destruct p as [p|]; simpl in Hs; [|done].
    destruct (store c p b) as [c1|] eqn:Hs1; simpl in Hs; [|done].
    eapply IH; [|exact Hs]. by eapply reachable_store.
Qed.

Lemma reachable_enter n bs c ps c' :
  reachable c -> enter n bs c = Some (ps, c') -> reachable c'.
Proof.
  intros Hr He. unfold enter in He.
  destruct (BN_CTX_start c) as [c1|] eqn:Hs; simpl in He; [|done].
  destruct (get_n n c1) as [[qs c2]|] eqn:Hg; simpl in He; [|done].
  destruct (store_all c2 qs bs) as [c3|] eqn:Hst; simpl in He; [|done].
  injection He as _ <-.
  eapply reachable_store_all; [|exact Hst].
  eapply reachable_get_n; [|exact Hg].
  by eapply reachable_start.
Qed.

End ContextFacts.

(** ** The pool at work: a pool of eight bignums *)

Section PoolExamples.
#[local] Existing Instance cfg8.

Lemma pool_full_reachable : reachable pool_full.
Proof.
  eapply (reachable_enter 8 (map bn_of_word [1; 2; 3; 4; 5; 6; 7; 8])
            BN_CTX_init (temporaries 0 8)); [apply reachable_init|].
  by vm_compute.
Qed.

Lemma ext_in_use_reachable : reachable ext_in_use.
Proof.
  assert (exists c1 c2 c3,
            BN_CTX_start BN_CTX_init = Some c1 /\
            store c1 (InExtArray 0) (BN_set_word (BN_init_ext false) 7).2 = Some c2 /\
            store c2 (InExt2Array 0) (BN_set_word (BN_init_ext true) 8).2 = Some c3 /\
            store c3 (InExt2Array 1) (BN_set_word (BN_init_ext true) 9).2
            = Some ext_in_use)
    as (c1 & c2 & c3 & H1 & H2 & H3 & H4).
  { do 3 eexists. split; [reflexivity|]. split; [reflexivity|].
    split; [reflexivity|]. reflexivity. }
  eapply reachable_store; [|exact H4].
  eapply reachable_store; [|exact H3].
  eapply reachable_store; [|exact H2].
  eapply reachable_start; [apply reachable_init | exact H1].
Qed.

Lemma BN_CTX_get_exhaustion_witness :
  exists t, stack_top pool_full = Some t /\ t + 1 > BN_CTX_ARRAY_SIZE /\
  BN_CTX_get pool_full = Some (None, pool_full) /\
  get_n 3 pool_full = Some ([None; None; None], pool_full).
Proof.
  destruct (BN_CTX_get_exhaustion pool_full cfg8_ok pool_full_reachable)
    as (t & p & c & Ht & Hg & Hnull & _ & Hsame).
  assert (Ht8 : t = 8) by (vm_compute in Ht; congruence).
  assert (Hp : p = None) by (apply Hnull; subst t; reflexivity).
  destruct (Hsame Hp) as [-> Hn].
  exists t. split; [exact Ht|]. split; [subst t; reflexivity|].
  split; [by rewrite <- Hp|]. apply (Hn 3%nat).
Defined.

Lemma BN_CTX_end_ext_clears_witness :
  exists released c,
    BN_CTX_end ext_in_use = Some released /\
    BN_CTX_end_ext ext_in_use BIGNUM_EXT_MUL1 = Some c /\
    tops c (ext_pointers c) = [Some 1; Some 0; Some 0] /\
    BN_CTX_end_ext ext_in_use BIGNUM_EXT_MUL2 = Some released.
Proof.
  pose (released := default BN_CTX_init (BN_CTX_end ext_in_use)).
  pose (m1 := default BN_init (deref released (InExt2Array 0))).
  pose (m2 := default BN_init (deref released (InExt2Array 1))).
  assert (Hend : BN_CTX_end ext_in_use = Some released) by (by vm_compute).
  assert (Hm1 : deref released (InExt2Array 0) = Some m1) by (by vm_compute).
  assert (Hm2 : deref released (InExt2Array 1) = Some m2) by (by vm_compute).
  destruct (BN_CTX_end_ext_clears ext_in_use released Hend)
    as (_ & Hmul1 & Hother & _).
  exists released. eexists. split; [exact Hend|].
  split; [exact (Hmul1 m1 m2 Hm1 Hm2)|]. split.
  - by vm_compute.
  - by apply Hother.
Defined.

(** The general lemmas on a fresh pool. *)

Example checkpoint_again_cleared_seven :
  let bs := map bn_of_word [1; 2; 3; 4; 5; 6; 7] in
  exists released c,
    checkpoint_again 7 bs BN_CTX_init = Some (released, temporaries 0 7, c) /\
    stack_top released = stack_top BN_CTX_init /\
    stackPos released = stackPos BN_CTX_init /\
    forall k, 0 <= k < 0 + Z.of_nat 7 ->
      exists b, deref c (InArray k) = Some b /\ top b = 0 /\ neg b = 0.
Proof.
  apply checkpoint_again_cleared; try reflexivity.
  - apply BN_CTX_init_inv, cfg8_ok.
  - repeat constructor.
Qed.

Example checkpoint_again_full_eight :
  let bs := map bn_of_word [1; 2; 3; 4; 5; 6; 7; 8] in
  exists c, enter 8 bs BN_CTX_init = Some (temporaries 0 8, c) /\
  exists released c',
    checkpoint_again 8 bs BN_CTX_init = Some (released, replicate 8 None, c') /\
    stack_top released = Some BN_CTX_ARRAY_SIZE /\
    stackPos released = stackPos BN_CTX_init + 1.
Proof.
  apply checkpoint_again_full; try reflexivity.
  - apply BN_CTX_init_inv, cfg8_ok.
  - lia.
Qed.

Example three_levels_released_one_one_five :
  exists c3 c2 c1 c0,
    three_levels 1 1 5 [bn_of_word 11] [bn_of_word 22]
      (map bn_of_word [31; 32; 33; 34; 35]) BN_CTX_init =
    Some (temporaries 0 1, temporaries 1 1, temporaries 2 5, c3, c2, c1, c0) /\
    (forall k, 2 <= k < 7 ->
       zlookup (bnArray c2) k = BN_clear <$> zlookup (bnArray c3) k) /\
    (forall k, ~ 2 <= k < 7 -> zlookup (bnArray c2) k = zlookup (bnArray c3) k) /\
    (forall k, 1 <= k < 2 ->
       zlookup (bnArray c1) k = BN_clear <$> zlookup (bnArray c2) k) /\
    (forall k, ~ 1 <= k < 2 -> zlookup (bnArray c1) k = zlookup (bnArray c2) k) /\
    stackPos c0 = 0 /\ stack_top c0 = Some 0.
Proof.
  assert (Hdeep : stackPos BN_CTX_init + 3 < BN_CTX_ARRAY_SIZE) by reflexivity.
  assert (Hroom : 0 + Z.of_nat 1 + Z.of_nat 1 + Z.of_nat 5 < BN_CTX_ARRAY_SIZE)
    by reflexivity.
  pose proof (three_levels_released 1 1 5 [bn_of_word 11] [bn_of_word 22]
                (map bn_of_word [31; 32; 33; 34; 35]) BN_CTX_init 0
                (BN_CTX_init_inv cfg8_ok) eq_refl Hdeep Hroom
                eq_refl eq_refl eq_refl) as H.
  cbv zeta in H.
  destruct H as (c3 & c2 & c1 & c0 & H & _ & H2 & H1 & _ & Hp & Ht).
  exists c3, c2, c1, c0. split; [exact H|].
  split; [intros k Hk; rewrite H2; by rewrite decide_True by (simpl; lia)|].
  split; [intros k Hk; rewrite H2; by rewrite decide_False by (simpl; lia)|].
  split; [intros k Hk; rewrite H1; by rewrite decide_True by (simpl; lia)|].
  split; [intros k Hk; rewrite H1; by rewrite decide_False by (simpl; lia)|].
  split; [exact Hp | exact Ht].
Qed.

(** C1.  A fresh pool of eight bignums: BN_CTX_start, eight BN_CTX_get
    (every one returns a bignum), the words 1 to 8 written, BN_CTX_end.
    The allocation mark was 0 before the start and is 8 after the release,
    [stackPos] is still 1, and BN_CTX_start with eight BN_CTX_get again
    returns NULL eight times.  With seven temporaries the mark is back at 0
    and the second round returns the same seven bignums, cleared. *)
Theorem checkpoint_full_pool_not_released :
  let bs := map bn_of_word [1; 2; 3; 4; 5; 6; 7; 8] in
  fst <$> enter 8 bs BN_CTX_init = Some (temporaries 0 8) /\
  (stack_top BN_CTX_init, stackPos BN_CTX_init) = (Some 0, 0) /\
  (fun '(released, qs, c) => (stack_top released, stackPos released, qs))
    <$> checkpoint_again 8 bs BN_CTX_init
  = Some (Some 8, 1, replicate 8 None) /\
  (fun '(released, qs, c) =>
     (stack_top released, stackPos released, qs, tops c qs))
    <$> checkpoint_again 7 (take 7 bs) BN_CTX_init
  = Some (Some 0, 0, temporaries 0 7, replicate 7 (Some 0)).
Proof. by vm_compute. Qed.

(** C2.  Three nested checkpoints on a fresh pool of eight bignums, with
    one, one and six temporaries tagged 11, 22 and 31 to 36.  The release
    of the third level clears its six temporaries and leaves 11 and 22 in
    place; but the stack is not unwound, so the release of the second
    level leaves its temporary at 22 and the release of the first level
    leaves its temporary at 11.  With five temporaries at the third level
    each release clears the temporaries of its level and no other. *)
Theorem three_levels_full_pool_not_released :
  let observe '(ps1, ps2, ps3, c3, c2, c1, c0) :=
    ((ps1, ps2, ps3),
     (values c3 ps1, values c3 ps2, values c3 ps3),
     (values c2 ps1, values c2 ps2, tops c2 ps3),
     (values c1 ps1, values c1 ps2, tops c1 ps2),
     (values c0 ps1, tops c0 ps1)) in
  observe <$> three_levels 1 1 6 [bn_of_word 11] [bn_of_word 22]
                (map bn_of_word [31; 32; 33; 34; 35; 36]) BN_CTX_init
  = Some (([Some (InArray 0)], [Some (InArray 1)], temporaries 2 6),
          ([Some 11], [Some 22],
           [Some 31; Some 32; Some 33; Some 34; Some 35; Some 36]),
          ([Some 11], [Some 22], replicate 6 (Some 0)),
          ([Some 11], [Some 22], [Some 1]),
          ([Some 11], [Some 1])) /\
  observe <$> three_levels 1 1 5 [bn_of_word 11] [bn_of_word 22]
                (map bn_of_word [31; 32; 33; 34; 35]) BN_CTX_init
  = Some (([Some (InArray 0)], [Some (InArray 1)], temporaries 2 5),
          ([Some 11], [Some 22],
           [Some 31; Some 32; Some 33; Some 34; Some 35]),
          ([Some 11], [Some 22], replicate 5 (Some 0)),
          ([Some 11], [Some 0], [Some 0]),
          ([Some 0], [Some 0])).
Proof. by vm_compute. Qed.

(** C9, as stated, fails.  The three extended bignums hold 7, 8 and 9.
    BN_CTX_end_ext for BIGNUM_EXT_MUL2 clears none of them: the bignum of
    BIGNUM_EXT_MUL2 still has [top = 1] and the value 9.  For
    BIGNUM_EXT_MUL1 it clears the bignum of BIGNUM_EXT_MUL2 as well. *)
Lemma BN_CTX_end_ext_not_the_named_slot :
  values ext_in_use (ext_pointers ext_in_use) = [Some 7; Some 8; Some 9] /\
  (fun c => (tops c (ext_pointers c), values c (ext_pointers c)))
    <$> BN_CTX_end_ext ext_in_use BIGNUM_EXT_MUL2
  = Some ([Some 1; Some 1; Some 1], [Some 7; Some 8; Some 9]) /\
  (fun c => (tops c (ext_pointers c), values c (ext_pointers c)))
    <$> BN_CTX_end_ext ext_in_use BIGNUM_EXT_MUL1
  = Some ([Some 1; Some 0; Some 0], [Some 7; Some 0; Some 0]).
Proof. by vm_compute. Qed.

End PoolExamples.

(** ** More about bignums: words, bits and the value *)

Section MoreBignumFacts.
Context `{cfg : BnConfig} `{more : BnConfigMore}.

Lemma words_value_app ws1 ws2 :
  0 <= BN_BITS2 ->
  words_value (ws1 ++ ws2) =
  words_value ws1 + 2 ^ (BN_BITS2 * Z.of_nat (length ws1)) * words_value ws2.
Proof.
  intros Hb. induction ws1 as [|w ws1 IH].
  - simpl. rewrite Z.mul_0_r. simpl. lia.
  - cbn [app words_value length]. rewrite IH.
    replace (BN_BITS2 * Z.of_nat (S (length ws1)))
      with (BN_BITS2 + BN_BITS2 * Z.of_nat (length ws1)) by lia.
    rewrite Z.pow_add_r by lia. lia.
Qed.

Lemma words_value_bound ws :
  0 <= BN_BITS2 -> Forall (fun w => 0 <= w < 2 ^ BN_BITS2) ws ->
  0 <= words_value ws < 2 ^ (BN_BITS2 * Z.of_nat (length ws)).
Proof.
  intros Hb. induction 1 as [|w ws Hw _ IH].
  - simpl. rewrite Z.mul_0_r. simpl. lia.
  - cbn [words_value length].
    replace (BN_BITS2 * Z.of_nat (S (length ws)))
      with (BN_BITS2 + BN_BITS2 * Z.of_nat (length ws)) by lia.
    rewrite Z.pow_add_r by lia.
    assert (0 < 2 ^ BN_BITS2) by (apply Z.pow_pos_nonneg; lia).
    nia.
Qed.

Lemma testbit_below_pow2 w B n :
  0 <= w < 2 ^ B -> B <= n -> Z.testbit w n = false.
Proof.
  intros Hw Hn. destruct (decide (w = 0)) as [->|Hnz].
  - apply Z.testbit_0_l.
  - apply Z.bits_above_log2; [lia|].
    assert (Z.log2 w < B); [|lia].
    apply Z.log2_lt_pow2; lia.
Qed.

(** The bits of the value are the bits of the words. *)
Lemma words_value_testbit ws :
  0 < BN_BITS2 -> Forall (fun w => 0 <= w < 2 ^ BN_BITS2) ws ->
  forall n, 0 <= n ->
    Z.testbit (words_value ws) n =
    Z.testbit (rd ws (n / BN_BITS2)) (n mod BN_BITS2).
Proof.
  intros Hb. induction 1 as [|w ws Hw Hws IH]; intros n Hn.
  - simpl. unfold rd, zlookup. case_decide; simpl;
      rewrite ?lookup_nil; simpl; by rewrite !Z.testbit_0_l.
  - cbn [words_value].
    pose proof (words_value_bound ws ltac:(lia) Hws) as [Hv _].
    destruct (Z.lt_ge_cases n BN_BITS2) as [Hlow|Hhigh].
    + rewrite Z.div_small, Z.mod_small by lia.
      rewrite <- (Z.mod_pow2_bits_low _ BN_BITS2) by lia.
      rewrite Z.mul_comm, Z.mod_add by lia.
      rewrite Z.mod_small by lia.
      unfold rd, zlookup. simpl. done.
    + replace n with ((n - BN_BITS2) + BN_BITS2) at 1 by lia.
      rewrite <- Z.div_pow2_bits by lia.
      rewrite Z.mul_comm, Z.div_add by lia.
      rewrite Z.div_small, Z.add_0_l by lia.
      rewrite IH by lia.
      replace n with ((n - BN_BITS2) + 1 * BN_BITS2) at 3 4 by lia.
      rewrite Z.div_add, Z_mod_plus_full by lia.
      assert (0 <= (n - BN_BITS2) / BN_BITS2) by (apply Z.div_pos; lia).
      f_equal. unfold rd, zlookup. rewrite !decide_True by lia.
      replace (Z.to_nat ((n - BN_BITS2) / BN_BITS2 + 1))
        with (S (Z.to_nat ((n - BN_BITS2) / BN_BITS2))) by lia.
      done.
Qed.

Lemma rd_wr_ne' ws i j w : i <> j -> rd (wr ws i w) j = rd ws j.
Proof.
  intros Hne. unfold rd, wr. case_decide; [|done].
  by rewrite zlookup_insert_ne.
Qed.

Lemma rd_take_ge ws n j : Z.of_nat n <= j -> rd (take n ws) j = 0.
Proof.
  intros Hj. unfold rd, zlookup. case_decide; [|done].
  by rewrite lookup_take_ge by lia.
Qed.

Lemma land_mask_testbit w k :
  0 <= k -> negb (Z.land w (Z.shiftl 1 k) =? 0) = Z.testbit w k.
Proof.
  intros Hk. rewrite Z.shiftl_1_l.
  destruct (Z.testbit w k) eqn:Hbit.
  - apply negb_true_iff, Z.eqb_neq. intros Hz.
    apply (f_equal (fun x => Z.testbit x k)) in Hz.
    rewrite Z.land_spec, Hbit, Z.pow2_bits_true, Z.testbit_0_l in Hz by lia.
    done.
  - apply negb_false_iff, Z.eqb_eq. apply Z.bits_inj'. intros m Hm.
    rewrite Z.land_spec, Z.testbit_0_l, Z.pow2_bits_eqb by lia.
    destruct (Z.eqb_spec k m) as [<-|]; [by rewrite Hbit | apply andb_false_r].
Qed.

Lemma bn_value_testbit (b : BIGNUM) n :
  0 < BN_BITS2 -> words_ok b -> 0 <= n ->
  Z.testbit (bn_value b) n =
  if decide (n / BN_BITS2 < top b)
  then Z.testbit (rd (d b) (n / BN_BITS2)) (n mod BN_BITS2)
  else false.
Proof.
  intros Hb Hw Hn. unfold bn_value.
  rewrite words_value_testbit by (done || by apply Forall_take).
  assert (0 <= n / BN_BITS2) by (apply Z.div_pos; lia).
  case_decide.
  - by rewrite rd_take by lia.
  - rewrite rd_take_ge by lia. apply Z.testbit_0_l.
Qed.

Lemma BN_is_bit_set_off_range_neg (bignum : BIGNUM) (bitNo : Z) :
  bitNo < 0 -> bit_value (BN_is_bit_set bignum bitNo) = false.
Proof.
  intros Hneg. unfold BN_is_bit_set.
  destruct (sanityCheckBignum bignum); simpl; [|done].
  destruct (bitNo <? bnWordsToBits (dmax bignum)); simpl; [|done].
  by replace (bitNo <? 0) with true by (symmetry; apply Z.ltb_lt; lia).
Qed.

(** X3.  BN_is_bit_set reads the bits of the value: for a bignum that
    passes the sanity check and whose words are BN_ULONGs, the BOOLEAN it
    returns for bit [bitNo] is bit [bitNo] of the value, for every
    [bitNo], negative and beyond the capacity included. *)
Theorem BN_is_bit_set_value (bignum : BIGNUM) (bitNo : Z) :
  0 < BN_BITS2 -> sanityCheckBignum bignum = true -> words_ok bignum ->
  bit_value (BN_is_bit_set bignum bitNo) = Z.testbit (bn_value bignum) bitNo.
Proof.
  intros Hb Hs Hw.
  pose proof (proj1 (sanityCheckBignum_spec _) Hs) as (Hd & Ht & _).
  destruct (Z.lt_ge_cases bitNo 0) as [Hneg|Hnn].
  { rewrite Z.testbit_neg_r by done.
    by apply BN_is_bit_set_off_range_neg. }
  rewrite bn_value_testbit by done.
  unfold BN_is_bit_set. rewrite Hs. simpl.
  rewrite Z.quot_div_nonneg, Z.rem_mod_nonneg by lia.
  assert (0 <= bitNo mod BN_BITS2 < BN_BITS2) by (apply Z.mod_pos_bound; lia).
  destruct (Z.ltb_spec bitNo (bnWordsToBits (dmax bignum))) as [Hin|Hout]; simpl.
  - replace (bitNo <? 0) with false by (symmetry; apply Z.ltb_ge; lia).
    rewrite Z.geb_leb.
    destruct (Z.leb_spec (top bignum) (bitNo / BN_BITS2)).
    + by rewrite decide_False by lia.
    + rewrite decide_True by lia. simpl. apply land_mask_testbit. lia.
  - rewrite decide_False; [done|].
    unfold bnWordsToBits in Hout.
    assert (dmax bignum <= bitNo / BN_BITS2); [|lia].
    apply Z.div_le_lower_bound; lia.
Qed.

(** *** BN_set_bit and the value *)

(** What a successful BN_set_bit leaves: the words in use as they were,
    zeros up to the word of the bit, and the bit. *)
Lemma BN_set_bit_result (bignum : BIGNUM) (bitNo : Z) :
  0 < BN_BITS2 ->
  sanityCheckBignum bignum = true -> is_static bignum = false ->
  storage_ok bignum -> words_ok bignum ->
  0 <= bitNo < bnWordsToBits (dmax bignum) ->
  Z.quot bitNo BN_BITS2 < top bignum \/
    Z.quot bitNo BN_BITS2 + 1 < getBNMaxSize bignum ->
  let wordIndex := bitNo / BN_BITS2 in
  let bitIndex := bitNo mod BN_BITS2 in
  let top' := Z.max (top bignum) (wordIndex + 1) in
  exists ws,
    length ws = length (d bignum) /\
    Forall (fun w => 0 <= w < 2 ^ BN_BITS2) ws /\
    (forall j, j < top bignum -> rd ws j = rd (d bignum) j) /\
    (forall j, top bignum <= j < top' -> rd ws j = 0) /\
    BN_set_bit bignum bitNo =
    (true, with_value bignum top' (neg bignum)
             (wr ws wordIndex (Z.lor (rd ws wordIndex) (Z.shiftl 1 bitIndex)))).
Proof.
  intros Hb Hs Hst Hl Hw Hbit Hcase wordIndex bitIndex top'.
  destruct (sane_dmax_length _ Hs Hl) as [Htop Hdmax].
  destruct (bit_index_range bitNo (dmax bignum) Hb Hbit) as [Hwi Hbi].
  pose proof (proj1 (sanityCheckBignum_spec _) Hs) as (Hmax & _ & Hneg & Hfl).
  rewrite Z.quot_div_nonneg, Z.rem_mod_nonneg in * by lia.
  fold wordIndex bitIndex in Hwi, Hbi, Hcase.
  unfold BN_set_bit, is_static in *. rewrite Hs, Hst. simpl.
  replace ((bitNo >=? 0) && (bitNo <? bnWordsToBits (dmax bignum))) with true
    by (symmetry; apply andb_true_iff; split;
        [apply Z.geb_le | apply Z.ltb_lt]; lia).
  simpl. rewrite Z.quot_div_nonneg, Z.rem_mod_nonneg by lia.
  fold wordIndex bitIndex.
  assert (Hsane : forall b : BIGNUM,
            dmax b = dmax bignum -> flags b = flags bignum ->
            neg b = neg bignum -> wordIndex < top b <= dmax bignum ->
            sanityCheckBignum b = true).
  { intros b Hd' Hf' Hn' Ht. apply sanityCheckBignum_spec.
    unfold getBNMaxSize in *. rewrite Hd', Hf', Hn'. lia. }
  destruct (Z.ltb_spec (top bignum) (wordIndex + 1)) as [Hext|Hin].
  - replace (wordIndex <? dmax bignum) with true
      by (symmetry; apply Z.ltb_lt; lia).
    simpl.
    pose proof (set_bit_loop_Forall (fun w => 0 <= w < 2 ^ BN_BITS2)
                  (Z.to_nat (wordIndex + 1 - top bignum)) (top bignum)
                  (wordIndex + 1) (d bignum) Hw) as HF.
    destruct (set_bit_loop_spec (Z.to_nat (wordIndex + 1 - top bignum))
                (top bignum) (wordIndex + 1) (d bignum))
      as (ws & E & Hlen & Htk & Hz); [lia | lia |].
    rewrite E in HF |- *. simpl in HF.
    replace (wordIndex + 1 <? getBNMaxSize bignum) with true
      by (symmetry; apply Z.ltb_lt; lia).
    simpl.
    match goal with |- context [sanityCheckBignum ?b] =>
      rewrite (Hsane b) by (simpl; done || lia) end.
    simpl. exists ws. split; [done|]. split.
    { apply HF. split; [lia | apply Z.pow_pos_nonneg; lia]. }
    split; [|split].
    + intros j Hj. destruct (Z.lt_ge_cases j 0) as [Hjn|Hjn].
      { unfold rd, zlookup. by rewrite !decide_False by lia. }
      rewrite <- (rd_take ws (Z.to_nat (top bignum))) by lia.
      rewrite Htk. apply rd_take. lia.
    + intros j Hj. apply Hz; unfold top' in *; lia.
    + unfold top'. by rewrite Z.max_r by lia.
  - match goal with |- context [sanityCheckBignum ?b] =>
      rewrite (Hsane b) by (simpl; done || lia) end.
    simpl. exists (d bignum). split; [done|]. split; [done|].
    split; [done|]. split.
    + intros j Hj. unfold top' in Hj. lia.
    + unfold top'. rewrite Z.max_l by lia. by destruct bignum.
Qed.

(** X4.  A successful BN_set_bit sets bit [bitNo] of the value and changes
    no other bit: the value afterwards is the value before with that bit
    or-ed in.  It succeeds whenever the bignum is sane and not static and
    the word of the bit is in use already or lies below the last word of
    the allocation class; the sign, [dmax] and [flags] are as they
    were. *)
Theorem BN_set_bit_value (bignum : BIGNUM) (bitNo : Z) :
  0 < BN_BITS2 ->
  sanityCheckBignum bignum = true -> is_static bignum = false ->
  storage_ok bignum -> words_ok bignum ->
  0 <= bitNo < bnWordsToBits (dmax bignum) ->
  Z.quot bitNo BN_BITS2 < top bignum \/
    Z.quot bitNo BN_BITS2 + 1 < getBNMaxSize bignum ->
  (BN_set_bit bignum bitNo).1 = true /\
  bn_value (BN_set_bit bignum bitNo).2 = Z.lor (bn_value bignum) (2 ^ bitNo) /\
  neg (BN_set_bit bignum bitNo).2 = neg bignum /\
  dmax (BN_set_bit bignum bitNo).2 = dmax bignum /\
  flags (BN_set_bit bignum bitNo).2 = flags bignum /\
  words_ok (BN_set_bit bignum bitNo).2.
Proof.
  intros Hb Hs Hst Hl Hw Hbit Hcase.
  destruct (BN_set_bit_result bignum bitNo Hb Hs Hst Hl Hw Hbit Hcase)
    as (ws & Hlen & HF & Hlow & Hzero & ->).
  destruct (sane_dmax_length _ Hs Hl) as [Htop Hdmax].
  destruct (bit_index_range bitNo (dmax bignum) Hb Hbit) as [Hwi Hbi].
  rewrite Z.quot_div_nonneg, Z.rem_mod_nonneg in * by lia.
  set (wordIndex := bitNo / BN_BITS2) in *.
  set (bitIndex := bitNo mod BN_BITS2) in *.
  set (top' := Z.max (top bignum) (wordIndex + 1)) in *.
  assert (Hmask : 0 <= Z.shiftl 1 bitIndex < 2 ^ BN_BITS2).
  { rewrite Z.shiftl_1_l. split; [apply Z.pow_nonneg; lia|].
    apply Z.pow_lt_mono_r; lia. }
  assert (Hword : 0 <= rd ws wordIndex < 2 ^ BN_BITS2).
  { unfold rd. destruct (zlookup ws wordIndex) as [w|] eqn:E; simpl.
    - apply zlookup_Some in E as [_ E]. by apply (Forall_lookup_1 _ _ _ _ HF E).
    - split; [lia | apply Z.pow_pos_nonneg; lia]. }
  assert (Hlor : 0 <= Z.lor (rd ws wordIndex) (Z.shiftl 1 bitIndex) < 2 ^ BN_BITS2).
  { split; [apply Z.lor_nonneg; lia|].
    destruct (decide (Z.lor (rd ws wordIndex) (Z.shiftl 1 bitIndex) = 0)) as [->|Hnz].
    - apply Z.pow_pos_nonneg; lia.
    - apply Z.log2_lt_pow2; [pose proof (Z.lor_nonneg (rd ws wordIndex) (Z.shiftl 1 bitIndex)); lia|].
      rewrite Z.log2_lor by lia.
      apply Z.max_lub_lt.
      + destruct (decide (rd ws wordIndex = 0)) as [->|]; [simpl; lia|].
        apply Z.log2_lt_pow2; lia.
      + rewrite Z.shiftl_1_l, Z.log2_pow2 by lia. lia. }
  assert (Hok' : Forall (fun w => 0 <= w < 2 ^ BN_BITS2)
                   (wr ws wordIndex (Z.lor (rd ws wordIndex) (Z.shiftl 1 bitIndex))))
    by (by apply Forall_wr).
  simpl. split; [done|]. split; [|by split_and!].
  apply Z.bits_inj'. intros n Hn.
  rewrite Z.lor_spec, Z.pow2_bits_eqb by lia.
  rewrite (bn_value_testbit bignum) by done.
  rewrite bn_value_testbit by done. simpl.
  assert (Hdiv : 0 <= n / BN_BITS2) by (apply Z.div_pos; lia).
  assert (Hmod : 0 <= n mod BN_BITS2 < BN_BITS2) by (apply Z.mod_pos_bound; lia).
  assert (Hsame : (bitNo =? n) =
                  (wordIndex =? n / BN_BITS2) && (bitIndex =? n mod BN_BITS2)).
  { assert (Hnz : BN_BITS2 <> 0) by lia.
    pose proof (Z.div_mod n BN_BITS2 Hnz).
    pose proof (Z.div_mod bitNo BN_BITS2 Hnz) as Hdm.
    fold wordIndex bitIndex in Hdm.
    destruct (Z.eqb_spec bitNo n) as [E|E].
    - subst n. unfold wordIndex, bitIndex. by rewrite !Z.eqb_refl.
    - destruct (Z.eqb_spec wordIndex (n / BN_BITS2)) as [E1|]; [|done].
      destruct (Z.eqb_spec bitIndex (n mod BN_BITS2)) as [E2|]; [|done].
      rewrite E1, E2 in Hdm. congruence. }
  rewrite Hsame.
  destruct (Z.eqb_spec wordIndex (n / BN_BITS2)) as [Heq|Hne]; simpl.
  - rewrite <- Heq. rewrite decide_True by (unfold top'; lia).
    rewrite rd_wr_eq by lia.
    rewrite Z.lor_spec, Z.shiftl_1_l, Z.pow2_bits_eqb by lia.
    f_equal. case_decide.
    + by rewrite Hlow.
    + rewrite Hzero by (unfold top'; lia). apply Z.testbit_0_l.
  - rewrite orb_false_r. rewrite rd_wr_ne' by lia.
    destruct (decide (n / BN_BITS2 < top bignum)).
    + rewrite decide_True by (unfold top'; lia). by rewrite Hlow.
    + destruct (decide (n / BN_BITS2 < top')); [|done].
      rewrite Hzero by lia. apply Z.testbit_0_l.
Qed.

(** *** BN_get_word and BN_set_word *)

Lemma take_1_rd ws : (1 <= length ws)%nat -> take 1 ws = [rd ws 0].
Proof. destruct ws as [|w ws]; simpl; [lia | done]. Qed.

Lemma BN_get_word_small (bignum : BIGNUM) :
  sanityCheckBignum bignum = true -> storage_ok bignum ->
  top bignum <= 1 -> BN_get_word bignum = bn_value bignum.
Proof.
  intros Hs Hl Hle. destruct (sane_dmax_length _ Hs Hl) as [Htop Hdmax].
  unfold BN_get_word. rewrite Hs. simpl. rewrite Z.gtb_ltb.
  replace (1 <? top bignum) with false by (symmetry; apply Z.ltb_ge; lia).
  unfold bn_value. destruct (Z.ltb_spec (top bignum) 1).
  - by replace (top bignum) with 0 by lia.
  - replace (top bignum) with 1 by lia. simpl.
    rewrite take_1_rd by lia. simpl. lia.
Qed.

(** X1.  BN_get_word returns the value of a bignum that uses at most one
    word; for a bignum of more than one word it returns BN_NAN. *)
Theorem BN_get_word_value (bignum : BIGNUM) :
  sanityCheckBignum bignum = true -> storage_ok bignum ->
  (top bignum <= 1 -> BN_get_word bignum = bn_value bignum) /\
  (1 < top bignum -> BN_get_word bignum = BN_NAN).
Proof.
  intros Hs Hl. split; [by apply BN_get_word_small|].
  intros Hgt. unfold BN_get_word. rewrite Hs. simpl. rewrite Z.gtb_ltb.
  by replace (1 <? top bignum) with true by (symmetry; apply Z.ltb_lt; lia).
Qed.

Lemma BN_set_word_result (bignum : BIGNUM) (word : Z) :
  sanityCheckBignum bignum = true -> is_static bignum = false ->
  BN_set_word bignum word =
  (true, with_value bignum (if word =? 0 then 0 else 1) 0
           (wr (zeroise (d bignum) (dmax bignum)) 0 word)).
Proof.
  intros Hs Hst. unfold BN_set_word, is_static in *. rewrite Hs, Hst. simpl.
  by rewrite BN_clear_cleared.
Qed.

(** X2.  BN_set_word followed by BN_get_word gives the word back: on a
    sane bignum that is not static BN_set_word succeeds and leaves a sane,
    non-negative bignum whose value is the word, and BN_get_word returns
    it.  On a static bignum BN_set_word returns FALSE and changes
    nothing. *)
Theorem BN_set_word_get_word (bignum : BIGNUM) (word : Z) :
  sanityCheckBignum bignum = true -> storage_ok bignum ->
  (is_static bignum = false ->
     (BN_set_word bignum word).1 = true /\
     BN_get_word (BN_set_word bignum word).2 = word /\
     bn_value (BN_set_word bignum word).2 = word /\
     neg (BN_set_word bignum word).2 = FALSE /\
     sanityCheckBignum (BN_set_word bignum word).2 = true /\
     storage_ok (BN_set_word bignum word).2) /\
  (is_static bignum = true -> BN_set_word bignum word = (false, bignum)).
Proof.
  intros Hs Hl. destruct (sane_dmax_length _ Hs Hl) as [Htop Hdmax].
  pose proof (proj1 (sanityCheckBignum_spec _) Hs) as (Hmax & _ & _ & Hfl).
  split.
  - intros Hst. rewrite BN_set_word_result by done. simpl.
    set (b' := with_value _ _ _ _).
    assert (Hlen : length (d b') = length (d bignum)).
    { simpl. rewrite length_wr, length_zeroise; [done | lia]. }
    assert (Hs' : sanityCheckBignum b' = true).
    { apply sanityCheckBignum_spec. unfold getBNMaxSize, FALSE in *. simpl.
      destruct (word =? 0); lia. }
    assert (Hl' : storage_ok b').
    { unfold storage_ok, getBNMaxSize in *. rewrite Hlen. done. }
    assert (Hv : bn_value b' = word).
    { unfold bn_value. simpl. destruct (Z.eqb_spec word 0) as [->|]; [done|].
      simpl. rewrite take_1_rd by (rewrite length_wr, length_zeroise; lia).
      rewrite rd_wr_eq by (rewrite length_zeroise; lia). simpl. lia. }
    split; [done|]. split; [|by split_and!].
    rewrite BN_get_word_small; [done | done | done |].
    simpl. destruct (word =? 0); lia.
  - intros Hst. unfold BN_set_word, is_static in *. by rewrite Hs, Hst.
Qed.

(** *** BN_num_bits_word and BN_num_bits *)

Lemma bit_length_spec x :
  0 < x -> 2 ^ (bit_length x - 1) <= x < 2 ^ bit_length x.
Proof.
  intros Hx. unfold bit_length.
  replace (x =? 0) with false by (symmetry; apply Z.eqb_neq; lia).
  replace (Z.log2 x + 1 - 1) with (Z.log2 x) by lia.
  replace (Z.log2 x + 1) with (Z.succ (Z.log2 x)) by lia.
  by apply Z.log2_spec.
Qed.

Lemma bit_length_half x : 0 < x -> bit_length x = 1 + bit_length (x / 2).
Proof.
  intros Hx. unfold bit_length.
  replace (x =? 0) with false by (symmetry; apply Z.eqb_neq; lia).
  destruct (Z.eqb_spec (x / 2) 0) as [Hz|Hnz].
  - assert (x = 1) as ->; [|done].
    destruct (Z.lt_ge_cases x 2); [lia|].
    assert (1 <= x / 2) by (apply Z.div_le_lower_bound; lia). lia.
  - assert (2 <= x).
    { destruct (Z.lt_ge_cases x 2); [|done]. rewrite Z.div_small in Hnz; lia. }
    assert (1 <= Z.log2 x) by (apply Z.log2_le_pow2; simpl; lia).
    replace (x / 2) with (Z.shiftr x 1)
      by (by rewrite Z.shiftr_div_pow2 by lia).
    rewrite Z.log2_shiftr by lia. lia.
Qed.

Lemma num_bits_word_loop_spec fuel : forall i v,
  0 <= v < 2 ^ Z.of_nat fuel -> i + Z.of_nat fuel <= 128 ->
  num_bits_word_loop fuel i v = (i + bit_length v, 0).
Proof.
  induction fuel as [|fuel IH]; intros i v Hv Hi.
  - simpl in *. assert (v = 0) as -> by lia.
    change (bit_length 0) with 0. by rewrite Z.add_0_r.
  - cbn [num_bits_word_loop].
    replace (i <? 128) with true by (symmetry; apply Z.ltb_lt; lia).
    rewrite Z.gtb_ltb. destruct (Z.ltb_spec 0 v) as [Hpos|Hz]; simpl.
    + rewrite Z.shiftr_div_pow2 by lia. change (2 ^ 1) with 2.
      rewrite IH; [|split; [apply Z.div_pos; lia|]|lia].
      * rewrite (bit_length_half v) by done. f_equal. lia.
      * apply Z.div_lt_upper_bound; [lia|].
        rewrite Nat2Z.inj_succ, Z.pow_succ_r in Hv by lia. lia.
    + assert (v = 0) as -> by lia.
      change (bit_length 0) with 0. by rewrite Z.add_0_r.
Qed.

Lemma num_bits_word_loop_full fuel : forall i v,
  2 ^ (Z.of_nat fuel - 1) <= v -> 0 < v -> i + Z.of_nat fuel <= 128 ->
  (num_bits_word_loop fuel i v).1 = i + Z.of_nat fuel.
Proof.
  induction fuel as [|fuel IH]; intros i v Hv Hpos Hi.
  - simpl. lia.
  - cbn [num_bits_word_loop].
    replace (i <? 128) with true by (symmetry; apply Z.ltb_lt; lia).
    replace (v >? 0) with true by (symmetry; apply Z.gtb_lt; lia).
    simpl. destruct fuel as [|fuel]; [simpl; lia|].
    rewrite Z.shiftr_div_pow2 by lia. change (2 ^ 1) with 2.
    replace (Z.of_nat (S (S fuel)) - 1) with (Z.succ (Z.of_nat (S fuel) - 1)) in Hv by lia.
    rewrite Z.pow_succ_r in Hv by lia.
    assert (0 < 2 ^ (Z.of_nat (S fuel) - 1)) by (apply Z.pow_pos_nonneg; lia).
    rewrite IH; [lia | | | lia].
    + apply Z.div_le_lower_bound; lia.
    + apply Z.div_str_pos. lia.
Qed.

Lemma BN_num_bits_word_small (word : Z) :
  0 <= word < 2 ^ 127 -> BN_num_bits_word word = bit_length word.
Proof.
  intros Hw. unfold BN_num_bits_word.
  assert (2 ^ 127 < 2 ^ Z.of_nat 128)
    by (change (Z.of_nat 128) with 128; apply Z.pow_lt_mono_r; lia).
  rewrite (num_bits_word_loop_spec 128 0 word) by (done || lia).
  assert (bit_length word < 128).
  { unfold bit_length. destruct (Z.eqb_spec word 0); [lia|].
    assert (Z.log2 word < 127); [|lia]. apply Z.log2_lt_pow2; lia. }
  cbv beta iota. rewrite Z.add_0_l.
  by replace (bit_length word <? 128) with true
    by (symmetry; apply Z.ltb_lt; lia).
Qed.

(** X5.  BN_num_bits_word returns the number of bits of the word, 0 for the
    word 0, for every word below 2^127; from 2^127 on the loop runs into
    its bound of 128 and the function returns the internal-error
    status. *)
Theorem BN_num_bits_word_length (word : Z) :
  0 <= word ->
  (word < 2 ^ 127 -> BN_num_bits_word word = bit_length word) /\
  (2 ^ 127 <= word -> BN_num_bits_word word = CRYPT_ERROR_INTERNAL).
Proof.
  intros H0. split; [intros; by apply BN_num_bits_word_small|].
  intros Hw. unfold BN_num_bits_word.
  assert (H127 : 2 ^ (Z.of_nat 128 - 1) <= word) by exact Hw.
  assert (0 < 2 ^ 127) by (by apply Z.pow_pos_nonneg).
  pose proof (num_bits_word_loop_full 128 0 word H127 ltac:(lia) ltac:(done))
    as Hfull.
  destruct (num_bits_word_loop 128 0 word) as [i v].
  cbn [fst] in Hfull. subst i. done.
Qed.

Lemma log2_high_word v w s :
  0 <= s -> 0 <= v < 2 ^ s -> 0 < w ->
  Z.log2 (v + 2 ^ s * w) = s + Z.log2 w.
Proof.
  intros Hs Hv Hw. apply Z.log2_unique.
  - pose proof (Z.log2_nonneg w). lia.
  - pose proof (Z.log2_spec w Hw) as [Hlo Hhi].
    pose proof (Z.log2_nonneg w).
    rewrite Z.pow_succ_r in Hhi by lia.
    replace (Z.succ (s + Z.log2 w)) with (s + Z.succ (Z.log2 w)) by lia.
    rewrite !Z.pow_add_r, Z.pow_succ_r by lia.
    assert (0 < 2 ^ s) by (apply Z.pow_pos_nonneg; lia).
    nia.
Qed.

Lemma BN_num_bits_normalised (bignum : BIGNUM) :
  0 < BN_BITS2 <= 127 ->
  sanityCheckBignum bignum = true -> words_ok bignum -> normalised bignum ->
  BN_num_bits bignum = bit_length (bn_value bignum).
Proof.
  intros Hb Hs Hw Hn.
  pose proof (proj1 (sanityCheckBignum_spec _) Hs) as (_ & Ht & _).
  unfold BN_num_bits. rewrite Hs. simpl.
  destruct (Z.leb_spec (top bignum) 0) as [Hz|Hpos].
  { unfold bn_value. by replace (top bignum) with 0 by lia. }
  destruct Hn as [Hn|Hn]; [lia|].
  set (w := rd (d bignum) (top bignum - 1)) in *.
  assert (Hl : d bignum !! Z.to_nat (top bignum - 1) = Some w).
  { unfold w, rd, zlookup in *. rewrite decide_True in * by lia.
    destruct (d bignum !! Z.to_nat (top bignum - 1)); simpl in *; done. }
  assert (Hwr : 0 <= w < 2 ^ BN_BITS2) by apply (Forall_lookup_1 _ _ _ _ Hw Hl).
  assert (2 ^ BN_BITS2 <= 2 ^ 127) by (apply Z.pow_le_mono_r; lia).
  rewrite BN_num_bits_word_small by lia.
  assert (Hbl : bit_length w = Z.log2 w + 1).
  { unfold bit_length. by replace (w =? 0) with false
      by (symmetry; apply Z.eqb_neq; lia). }
  pose proof (Z.log2_nonneg w).
  unfold cryptStatusError.
  replace (bit_length w <? 0) with false by (symmetry; apply Z.ltb_ge; lia).
  unfold bn_value.
  replace (Z.to_nat (top bignum)) with (S (Z.to_nat (top bignum - 1))) by lia.
  rewrite (take_S_r _ _ _ Hl).
  rewrite words_value_app by lia. simpl.
  pose proof (lookup_lt_Some _ _ _ Hl) as Hlen.
  rewrite length_take, Nat.min_l by lia.
  pose proof (words_value_bound (take (Z.to_nat (top bignum - 1)) (d bignum))
                ltac:(lia) ltac:(by apply Forall_take)) as Hv.
  rewrite length_take, Nat.min_l in Hv by lia.
  rewrite Z.mul_0_r, Z.add_0_r.
  set (s := BN_BITS2 * Z.of_nat (Z.to_nat (top bignum - 1))) in *.
  assert (Hs0 : 0 <= s) by (unfold s; apply Z.mul_nonneg_nonneg; lia).
  assert (0 < 2 ^ s) by (apply Z.pow_pos_nonneg; lia).
  unfold bit_length at 2.
  replace (_ + 2 ^ s * w =? 0) with false by (symmetry; apply Z.eqb_neq; nia).
  rewrite log2_high_word by lia.
  rewrite Hbl. unfold s. rewrite Z2Nat.id by lia. lia.
Qed.

(** X6.  BN_num_bits returns the number of bits of the value of a
    normalised bignum (0 for zero), for a word size of at most 127 bits:
    the value is below 2 to that number, and not below 2 to that number
    less one unless it is zero. *)
Theorem BN_num_bits_value (bignum : BIGNUM) :
  0 < BN_BITS2 <= 127 ->
  sanityCheckBignum bignum = true -> words_ok bignum -> normalised bignum ->
  BN_num_bits bignum = bit_length (bn_value bignum) /\
  0 <= bn_value bignum < 2 ^ BN_num_bits bignum /\
  (bn_value bignum <> 0 -> 2 ^ (BN_num_bits bignum - 1) <= bn_value bignum) /\
  (BN_num_bits bignum = 0 <-> bn_value bignum = 0).
Proof.
  intros Hb Hs Hw Hn.
  pose proof (BN_num_bits_normalised bignum Hb Hs Hw Hn) as Hbits.
  pose proof (proj1 (sanityCheckBignum_spec _) Hs) as (_ & Ht & _).
  pose proof (words_value_bound (take (Z.to_nat (top bignum)) (d bignum))
                ltac:(lia) ltac:(by apply Forall_take)) as [Hv _].
  fold (bn_value bignum) in Hv.
  rewrite Hbits. split; [done|].
  destruct (Z.eqb_spec (bn_value bignum) 0) as [Hz|Hnz].
  - rewrite Hz. change (bit_length 0) with 0. split; [simpl; lia|].
    split; [done | tauto].
  - assert (Hpos : 0 < bn_value bignum) by lia.
    pose proof (bit_length_spec (bn_value bignum) Hpos) as [Hlo Hhi].
    split; [lia|]. split; [done|].
    split; [|done]. intros Hzero. rewrite Hzero in Hhi. simpl in Hhi. lia.
Qed.

(** *** BN_normalise *)

Lemma normalise_loop_spec fuel ws : forall t ic bound,
  0 <= t <= Z.of_nat fuel ->
  exists t',
    normalise_loop fuel ws t ic bound = (t', ic + (t - t')) /\
    0 <= t' <= t /\
    (forall j, t' <= j < t -> rd ws j = 0) /\
    (t' = 0 \/ rd ws (t' - 1) <> 0 \/ bound <= ic + (t - t')).
Proof.
  induction fuel as [|fuel IH]; intros t ic bound Ht.
  - exists t. cbn [normalise_loop].
    split; [f_equal; lia|]. split; [lia|]. split; [intros; lia|]. lia.
  - cbn [normalise_loop].
    destruct (Z.gtb_spec t 0) as [Hpos|Hz]; cbn [andb].
    2:{ exists t. split; [f_equal; lia|]. split; [lia|].
        split; [intros; lia|]. lia. }
    destruct (Z.ltb_spec ic bound) as [Hic|Hic].
    2:{ exists t. split; [f_equal; lia|]. split; [lia|].
        split; [intros; lia|]. lia. }
    destruct (Z.eqb_spec (rd ws (t - 1)) 0) as [Hw|Hw]; cbn [negb].
    2:{ exists t. split; [f_equal; lia|]. split; [lia|].
        split; [intros; lia|]. tauto. }
    destruct (IH (t - 1) (ic + 1) bound ltac:(lia))
      as (t' & Hloop & Hr & Hzero & Hstop).
    exists t'. split; [rewrite Hloop; f_equal; lia|]. split; [lia|].
    split.
    + intros j Hj. destruct (decide (j = t - 1)) as [->|]; [done|].
      apply Hzero. lia.
    + destruct Hstop as [?|[?|?]]; [tauto | tauto | right; right; lia].
Qed.

(** What BN_normalise does to a bignum that passes the check and uses a
    word: [top] moves down to [t'], below the zero words at the end. *)
Lemma BN_normalise_result (bignum : BIGNUM) :
  sanityCheckBignum bignum = true -> top bignum <> 0 ->
  exists t',
    0 <= t' <= top bignum /\
    (forall j, t' <= j < top bignum -> rd (d bignum) j = 0) /\
    (t' = 0 \/ rd (d bignum) (t' - 1) <> 0) /\
    BN_normalise bignum =
    (negb (top bignum - t' =? getBNMaxSize bignum),
     with_value bignum t' (neg bignum) (d bignum)).
Proof.
  intros Hs Hnz.
  pose proof (proj1 (sanityCheckBignum_spec _) Hs) as (Hd & Ht & Hn & Hf).
  destruct (normalise_loop_spec (Z.to_nat (getBNMaxSize bignum)) (d bignum)
              (top bignum) 0 (getBNMaxSize bignum) ltac:(lia))
    as (t' & Hloop & Hr & Hzero & Hstop).
  exists t'. split; [done|]. split; [done|].
  split; [destruct Hstop as [?|[?|?]]; [tauto | tauto | left; lia]|].
  unfold BN_normalise. rewrite Hs. cbn [negb].
  unfold BN_is_zero. destruct (Z.eqb_spec (top bignum) 0); [done|].
  rewrite Hloop. rewrite Z.add_0_l.
  destruct (Z.ltb_spec (top bignum - t') (getBNMaxSize bignum)) as [Hlt|Hge];
    cbn [negb].
  - replace (top bignum - t' =? getBNMaxSize bignum) with false
      by (symmetry; apply Z.eqb_neq; lia).
    match goal with |- context [sanityCheckBignum ?b] =>
      assert (Hs' : sanityCheckBignum b = true) end.
    { apply sanityCheckBignum_spec. unfold getBNMaxSize in *. simpl. lia. }
    by rewrite Hs'.
  - by replace (top bignum - t' =? getBNMaxSize bignum) with true
      by (symmetry; apply Z.eqb_eq; lia).
Qed.

(** X7.  BN_normalise moves [top] down past the zero words at the end and
    changes nothing else: the value, the sign, the words, [dmax] and the
    flags are as they were, and the result is normalised.  It succeeds
    whenever a word in use is not zero or the bignum does not use every
    word of its allocation class. *)
Theorem BN_normalise_value (bignum : BIGNUM) :
  sanityCheckBignum bignum = true ->
  top bignum < getBNMaxSize bignum \/
    (exists i, 0 <= i < top bignum /\ rd (d bignum) i <> 0) ->
  (BN_normalise bignum).1 = true /\
  normalised (BN_normalise bignum).2 /\
  bn_value (BN_normalise bignum).2 = bn_value bignum /\
  0 <= top (BN_normalise bignum).2 <= top bignum /\
  (forall j, top (BN_normalise bignum).2 <= j < top bignum ->
     rd (d bignum) j = 0) /\
  d (BN_normalise bignum).2 = d bignum /\
  neg (BN_normalise bignum).2 = neg bignum /\
  dmax (BN_normalise bignum).2 = dmax bignum /\
  flags (BN_normalise bignum).2 = flags bignum /\
  sanityCheckBignum (BN_normalise bignum).2 = true.
Proof.
  intros Hs Hok.
  pose proof (proj1 (sanityCheckBignum_spec _) Hs) as (Hd & Ht & Hn & Hf).
  destruct (decide (top bignum = 0)) as [Hz|Hnz].
  { unfold BN_normalise, BN_is_zero. rewrite Hs, Hz. cbn.
    split; [done|]. split; [by left|]. split; [done|]. rewrite Hz.
    split; [lia|]. split; [intros; lia|]. done. }
  destruct (BN_normalise_result _ Hs Hnz) as (t' & Hr & Hzero & Hstop & ->).
  cbn [fst snd with_value top d neg dmax flags].
  assert (Hlt : top bignum - t' <> getBNMaxSize bignum).
  { destruct Hok as [?|(i & Hi & Hw)]; [lia|].
    intros Heq. apply Hw, Hzero. lia. }
  split; [by apply negb_true_iff, Z.eqb_neq|].
  split; [unfold normalised; cbn; tauto|].
  split.
  { unfold bn_value. cbn.
    pose proof (normalise_loop_value (Z.to_nat (getBNMaxSize bignum))
                  (d bignum) (top bignum) 0 (getBNMaxSize bignum)) as Hv.
    destruct (normalise_loop_spec (Z.to_nat (getBNMaxSize bignum)) (d bignum)
                (top bignum) 0 (getBNMaxSize bignum) ltac:(lia))
      as (t'' & Hloop & Hr' & Hzero' & Hstop').
    rewrite Hloop in Hv. cbn [fst] in Hv.
    assert (t'' = t') as ->; [|done].
    destruct (Z.lt_trichotomy t'' t') as [Hlt'|[?|Hgt]]; [|done|].
    - destruct Hstop as [?|Hw]; [lia|]. exfalso. apply Hw, Hzero'. lia.
    - destruct Hstop' as [?|[Hw|?]]; [lia| |lia].
      exfalso. apply Hw, Hzero. lia. }
  split; [lia|]. split; [done|].
  repeat (split; [done|]).
  apply sanityCheckBignum_spec. unfold getBNMaxSize in *. simpl. lia.
Qed.

(** X8.  A bignum that uses every word of its allocation class and whose
    words are all zero is refused by BN_normalise: the loop counts as many
    steps as its bound allows, the check after it fails and the function
    returns FALSE, though it has brought [top] down to 0. *)
Theorem BN_normalise_full_zero (bignum : BIGNUM) :
  sanityCheckBignum bignum = true ->
  top bignum = getBNMaxSize bignum ->
  (forall j, 0 <= j < top bignum -> rd (d bignum) j = 0) ->
  BN_normalise bignum = (false, with_value bignum 0 (neg bignum) (d bignum)).
Proof.
  intros Hs Htop Hzero.
  pose proof (proj1 (sanityCheckBignum_spec _) Hs) as (Hd & Ht & Hn & Hf).
  destruct (BN_normalise_result _ Hs ltac:(lia))
    as (t' & Hr & _ & Hstop & ->).
  assert (t' = 0) as ->.
  { destruct Hstop as [?|Hw]; [done|].
    destruct (decide (t' = 0)); [done|]. exfalso. apply Hw, Hzero. lia. }
  by replace (top bignum - 0 =? getBNMaxSize bignum) with true
    by (symmetry; apply Z.eqb_eq; lia).
Qed.

(** *** BN_swap *)

(** X9.  BN_swap exchanges the values, the signs and the lengths of two
    bignums and leaves [dmax] and the flags of each with it, provided the
    first is not static, its value fits a plain bignum (the local
    temporary) and each value fits the other's [dmax]. *)
Theorem BN_swap_exchanges (bignum1 bignum2 : BIGNUM) :
  cfg_ok cfg ->
  sanityCheckBignum bignum1 = true -> sanityCheckBignum bignum2 = true ->
  storage_ok bignum1 -> storage_ok bignum2 ->
  is_static bignum1 = false ->
  top bignum1 <= BIGNUM_ALLOC_WORDS ->
  top bignum2 <= dmax bignum1 -> top bignum1 <= dmax bignum2 ->
  (bn_value (BN_swap bignum1 bignum2).1 = bn_value bignum2 /\
   neg (BN_swap bignum1 bignum2).1 = neg bignum2 /\
   top (BN_swap bignum1 bignum2).1 = top bignum2) /\
  (bn_value (BN_swap bignum1 bignum2).2 = bn_value bignum1 /\
   neg (BN_swap bignum1 bignum2).2 = neg bignum1 /\
   top (BN_swap bignum1 bignum2).2 = top bignum1) /\
  (dmax (BN_swap bignum1 bignum2).1 = dmax bignum1 /\
   flags (BN_swap bignum1 bignum2).1 = flags bignum1 /\
   dmax (BN_swap bignum1 bignum2).2 = dmax bignum2 /\
   flags (BN_swap bignum1 bignum2).2 = flags bignum2) /\
  sanityCheckBignum (BN_swap bignum1 bignum2).1 = true /\
  sanityCheckBignum (BN_swap bignum1 bignum2).2 = true.
Proof.
  intros Hc Hs1 Hs2 Hl1 Hl2 Hst Ht1 Ht2 Ht3.
  pose proof (words_pos Hc). pose proof (flg_none Hc). pose proof (flg_max Hc).
  destruct (sane_dmax_length _ Hs1 Hl1) as [? ?].
  destruct (sane_dmax_length _ Hs2 Hl2) as [? ?].
  pose proof (proj1 (sanityCheckBignum_spec _) Hs1) as (? & ? & ? & ?).
  pose proof (proj1 (sanityCheckBignum_spec _) Hs2) as (? & ? & ? & ?).
  rewrite BN_swap_static_second by (done || lia).
  cbn [fst snd with_value top d neg dmax flags].
  split; [split; [|done]|split; [split; [|done]|split; [done|split]]].
  - unfold bn_value, with_value. cbn [top d]. by rewrite take_memcpy by lia.
  - unfold bn_value, with_value. cbn [top d].
    assert (Hlen : length (memcpy (d BN_init) (d bignum1) (top bignum1)) =
                   length (d BN_init)).
    { apply length_memcpy; [lia|]. cbn. rewrite length_replicate. lia. }
    rewrite take_memcpy.
    + by rewrite take_memcpy by lia.
    + rewrite Hlen. cbn. rewrite length_replicate. lia.
  - apply sanityCheckBignum_spec. unfold getBNMaxSize in *. simpl. lia.
  - apply sanityCheckBignum_spec. unfold getBNMaxSize in *. simpl. lia.
Qed.

(** BN_swap on operands that pass the check, the first not static, by the
    copy that is refused. *)
Lemma BN_swap_cases (bignum1 bignum2 : BIGNUM) :
  cfg_ok cfg ->
  sanityCheckBignum bignum1 = true -> sanityCheckBignum bignum2 = true ->
  is_static bignum1 = false ->
  BN_swap bignum1 bignum2 =
  if negb (top bignum1 <=? BIGNUM_ALLOC_WORDS)
     || negb (top bignum2 <=? dmax bignum1)
  then (bignum1, bignum2)
  else
    (with_value bignum1 (top bignum2) (neg bignum2)
       (memcpy (d bignum1) (d bignum2) (top bignum2)),
     if top bignum1 <=? dmax bignum2 then
       with_value bignum2 (top bignum1) (neg bignum1)
         (memcpy (d bignum2) (memcpy (d BN_init) (d bignum1) (top bignum1))
            (top bignum1))
     else bignum2).
Proof.
  intros Hc Hs1 Hs2 Hst.
  pose proof (words_pos Hc). pose proof (flg_none Hc). pose proof (flg_max Hc).
  assert (Hsi : sanityCheckBignum BN_init = true)
    by (by apply BN_init_sane).
  pose proof (proj1 (sanityCheckBignum_spec _) Hs1) as (? & ? & ? & ?).
  unfold BN_swap, is_static in *. rewrite Hst. cbn [negb].
  unfold BN_copy at 1. rewrite Hsi, Hs1. cbn [negb].
  change (dmax BN_init) with BIGNUM_ALLOC_WORDS.
  rewrite Z.geb_leb.
  destruct (Z.leb_spec (top bignum1) BIGNUM_ALLOC_WORDS) as [Ht1|Ht1];
    cbn [negb orb]; [|done].
  unfold BN_copy at 1. rewrite Hs1, Hs2. cbn [negb]. rewrite Z.geb_leb.
  destruct (Z.leb_spec (top bignum2) (dmax bignum1)) as [Ht2|Ht2];
    cbn [negb]; [|done].
  unfold BN_copy. rewrite Hs2. cbn [negb].
  match goal with |- context [sanityCheckBignum ?b] =>
    assert (Hst' : sanityCheckBignum b = true) end.
  { apply sanityCheckBignum_spec. unfold getBNMaxSize, flag_set. simpl. lia. }
  rewrite Hst'. cbn [negb with_value top neg d]. rewrite Z.geb_leb.
  by destruct (top bignum1 <=? dmax bignum2).
Qed.

(** X10.  When a copy inside BN_swap is refused the swap is given up where
    it stands.  A first operand that uses more words than a plain bignum
    holds, or a second operand too long for the first, leaves both as they
    were; a first operand too long for the second leaves the second as it
    was after the first has taken its value, so both then hold the value
    of the second. *)
Theorem BN_swap_given_up (bignum1 bignum2 : BIGNUM) :
  cfg_ok cfg ->
  sanityCheckBignum bignum1 = true -> sanityCheckBignum bignum2 = true ->
  storage_ok bignum2 ->
  is_static bignum1 = false ->
  (BIGNUM_ALLOC_WORDS < top bignum1 \/ dmax bignum1 < top bignum2 ->
     BN_swap bignum1 bignum2 = (bignum1, bignum2)) /\
  (top bignum1 <= BIGNUM_ALLOC_WORDS -> top bignum2 <= dmax bignum1 ->
   dmax bignum2 < top bignum1 ->
     (BN_swap bignum1 bignum2).2 = bignum2 /\
     bn_value (BN_swap bignum1 bignum2).1 = bn_value bignum2 /\
     neg (BN_swap bignum1 bignum2).1 = neg bignum2).
Proof.
  intros Hc Hs1 Hs2 Hl2 Hst.
  destruct (sane_dmax_length _ Hs2 Hl2) as [? ?].
  rewrite BN_swap_cases by done. split.
  - intros Hbig.
    destruct (Z.leb_spec (top bignum1) BIGNUM_ALLOC_WORDS),
      (Z.leb_spec (top bignum2) (dmax bignum1)); cbn [negb orb]; try done.
    lia.
  - intros Ht1 Ht2 Ht3.
    replace (top bignum1 <=? BIGNUM_ALLOC_WORDS) with true
      by (symmetry; apply Z.leb_le; lia).
    replace (top bignum2 <=? dmax bignum1) with true
      by (symmetry; apply Z.leb_le; lia).
    replace (top bignum1 <=? dmax bignum2) with false
      by (symmetry; apply Z.leb_gt; lia).
    cbn [negb orb fst snd]. split; [done|]. split; [|done].
    apply bn_value_copy. lia.
Qed.

(** *** BN_clear *)

Lemma rd_zeroise ws n j :
  0 <= n <= Z.of_nat (length ws) ->
  rd (zeroise ws n) j = if decide (0 <= j < n) then 0 else rd ws j.
Proof.
  intros Hn. unfold rd, zeroise, zlookup.
  destruct (decide (0 <= j)) as [Hj|Hj]; [|by rewrite decide_False by lia].
  destruct (decide (0 <= j < n)) as [Hlt|Hge].
  - rewrite lookup_app_l by (rewrite length_replicate; lia).
    by rewrite lookup_replicate_2 by lia.
  - rewrite lookup_app_r by (rewrite length_replicate; lia).
    rewrite length_replicate, lookup_drop. do 2 f_equal. lia.
Qed.

Lemma zeroise_idemp ws n :
  0 <= n <= Z.of_nat (length ws) -> zeroise (zeroise ws n) n = zeroise ws n.
Proof.
  intros Hn. unfold zeroise. f_equal.
  rewrite drop_app_length'; [done|]. rewrite length_replicate. lia.
Qed.

(** X11.  BN_clear of a bignum that is not static leaves the value zero:
    no word is in use, the sign is clear, the first [dmax] words of the
    array are zero and the words above them are as they were; the readers
    agree (BN_get_word gives 0, BN_num_bits gives 0, no bit is set), and
    clearing again changes nothing. *)
Theorem BN_clear_zero (bignum : BIGNUM) :
  0 < BN_BITS2 ->
  sanityCheckBignum bignum = true -> is_static bignum = false ->
  storage_ok bignum ->
  (sanityCheckBignum (BN_clear bignum) = true /\
   storage_ok (BN_clear bignum) /\
   top (BN_clear bignum) = 0 /\ neg (BN_clear bignum) = FALSE /\
   bn_value (BN_clear bignum) = 0) /\
  (forall j, rd (d (BN_clear bignum)) j =
             if decide (0 <= j < dmax bignum) then 0 else rd (d bignum) j) /\
  (BN_get_word (BN_clear bignum) = 0 /\
   BN_num_bits (BN_clear bignum) = 0 /\
   forall bitNo, bit_value (BN_is_bit_set (BN_clear bignum) bitNo) = false) /\
  BN_clear (BN_clear bignum) = BN_clear bignum.
Proof.
  intros Hb Hs Hst Hl.
  destruct (sane_dmax_length _ Hs Hl) as [? ?].
  pose proof (proj1 (sanityCheckBignum_spec _) Hs) as (? & ? & ? & ?).
  assert (Hs' : sanityCheckBignum (BN_clear bignum) = true).
  { rewrite BN_clear_cleared by done. apply sanityCheckBignum_spec.
    unfold getBNMaxSize, TRUE, FALSE in *. simpl. lia. }
  split; [|split; [|split]].
  - split; [done|]. rewrite BN_clear_cleared by done.
    split.
    { unfold storage_ok, getBNMaxSize in *. simpl.
      by rewrite length_zeroise by lia. }
    done.
  - intros j. rewrite BN_clear_cleared by done. simpl.
    apply rd_zeroise. lia.
  - split; [|split].
    + unfold BN_get_word. rewrite Hs'. rewrite BN_clear_cleared by done.
      done.
    + unfold BN_num_bits. rewrite Hs'. rewrite BN_clear_cleared by done.
      done.
    + intros bitNo.
      destruct (Z.lt_ge_cases bitNo 0) as [Hneg|Hpos].
      * by apply BN_is_bit_set_off_range_neg.
      * apply BN_is_bit_set_above_top.
        rewrite BN_clear_cleared by done. simpl.
        pose proof (Z.quot_pos bitNo BN_BITS2). lia.
  - rewrite (BN_clear_cleared (BN_clear bignum)); [|done|].
    + rewrite BN_clear_cleared by done. unfold with_value. simpl.
      by rewrite zeroise_idemp by lia.
    + rewrite BN_clear_cleared by done. done.
Qed.

(** *** BN_new, BN_free and BN_dup *)

Lemma BN_new_ok :
  cfg_ok cfg -> cfg_more_ok cfg more ->
  forall b, BN_new true = Some b ->
  sanityCheckBignum b = true /\ is_static b = false /\ storage_ok b /\
  dmax b = BIGNUM_ALLOC_WORDS /\ flags b = BN_FLG_MALLOCED.
Proof.
  intros Hc Hm b [= <-].
  pose proof (words_pos Hc). pose proof (flg_malloced_range Hm).
  pose proof (flg_malloced_ext Hm) as He.
  pose proof (flg_malloced_ext2 Hm) as He2.
  split; [|split; [|split]].
  - apply sanityCheckBignum_spec. unfold getBNMaxSize, TRUE, FALSE.
    cbn [flags dmax top neg BN_init]. rewrite He, He2. lia.
  - unfold is_static. cbn [flags]. apply (flg_malloced_static Hm).
  - unfold storage_ok, getBNMaxSize. cbn [flags d BN_init].
    rewrite He, He2, length_replicate. lia.
  - done.
Qed.

(** X12.  BN_dup gives a new bignum from the heap with the value, the sign
    and the length of its argument, whatever the flags of the argument: the
    duplicate of a static bignum is not static.  It gives NULL when no
    memory is left, and when the argument does not pass the check or uses
    more words than a plain bignum holds. *)
Theorem BN_dup_value (alloc : bool) (bignum : BIGNUM) :
  cfg_ok cfg -> cfg_more_ok cfg more -> storage_ok bignum ->
  (sanityCheckBignum bignum = true -> top bignum <= BIGNUM_ALLOC_WORDS ->
   exists newBignum,
     BN_dup true bignum = Some newBignum /\
     bn_value newBignum = bn_value bignum /\
     neg newBignum = neg bignum /\ top newBignum = top bignum /\
     dmax newBignum = BIGNUM_ALLOC_WORDS /\
     flags newBignum = BN_FLG_MALLOCED /\
     is_static newBignum = false /\
     sanityCheckBignum newBignum = true /\ storage_ok newBignum) /\
  (sanityCheckBignum bignum = false \/ BIGNUM_ALLOC_WORDS < top bignum ->
   BN_dup alloc bignum = None) /\
  BN_dup false bignum = None.
Proof.
  intros Hc Hm Hl.
  destruct (BN_new true) as [b|] eqn:Hnew; [|done].
  destruct (BN_new_ok Hc Hm b Hnew) as (Hsb & Hstb & Hlb & Hdb & Hfb).
  split; [|split; [|done]].
  - intros Hs Ht.
    destruct (sane_dmax_length _ Hs Hl) as [? ?].
    pose proof (proj1 (sanityCheckBignum_spec _) Hs) as (? & ? & ? & ?).
    pose proof (proj1 (sanityCheckBignum_spec _) Hsb) as (? & ? & ? & ?).
    destruct (sane_dmax_length _ Hsb Hlb) as [? ?].
    eexists. split.
    { unfold BN_dup. rewrite Hnew. unfold BN_copy. rewrite Hsb, Hs.
      cbn [negb]. rewrite Hdb.
      replace (BIGNUM_ALLOC_WORDS >=? top bignum) with true
        by (symmetry; apply Z.geb_le; lia).
      reflexivity. }
    split; [apply bn_value_copy; lia|].
    split; [done|]. split; [done|]. split; [done|]. split; [done|].
    split; [done|]. split.
    + apply sanityCheckBignum_spec. unfold getBNMaxSize in *. simpl. lia.
    + unfold storage_ok, getBNMaxSize in *. simpl.
      rewrite length_memcpy by lia. done.
  - intros Hbad. unfold BN_dup. destruct alloc; [|done]. rewrite Hnew.
    unfold BN_copy. rewrite Hsb. cbn [negb].
    destruct (sanityCheckBignum bignum); cbn [negb]; [|done].
    destruct Hbad as [?|Hbig]; [done|]. rewrite Hdb.
    by replace (BIGNUM_ALLOC_WORDS >=? top bignum) with false
      by (symmetry; rewrite Z.geb_leb; apply Z.leb_gt; lia).
Qed.

(** *** The reduction contexts *)

Lemma zeroise_replicate n :
  zeroise (replicate (Z.to_nat n) 0) n = replicate (Z.to_nat n) 0.
Proof.
  unfold zeroise. rewrite drop_ge by (rewrite length_replicate; lia).
  apply app_nil_r.
Qed.

Lemma BN_zero_init : cfg_ok cfg -> BN_zero BN_init = BN_init.
Proof.
  intros Hc. destruct (BN_init_ok Hc) as (Hs & Hst & _).
  unfold BN_zero. rewrite BN_set_word_result by done.
  unfold with_value, BN_init. cbn [fst snd dmax flags d]. f_equal.
  rewrite zeroise_replicate. unfold wr. rewrite decide_True by lia.
  apply list_insert_id. apply lookup_replicate_2.
  pose proof (words_pos Hc). lia.
Qed.

(** X13.  BN_RECP_CTX_set takes nothing from the context it is given: it
    initialises it first.  For a divisor that passes the check and fits a
    plain bignum it returns TRUE with N a copy of the divisor (value and
    sign), Nr zero as BN_init leaves it and num_bits the result of
    BN_num_bits; otherwise it returns FALSE and leaves the context
    initialised. *)
Theorem BN_RECP_CTX_set_value (bnRecpCTX : BN_RECP_CTX) (d : BIGNUM) :
  cfg_ok cfg -> storage_ok d ->
  (sanityCheckBignum d = true -> top d <= BIGNUM_ALLOC_WORDS ->
   (BN_RECP_CTX_set bnRecpCTX d).1 = true /\
   bn_value (recp_N (BN_RECP_CTX_set bnRecpCTX d).2) = bn_value d /\
   neg (recp_N (BN_RECP_CTX_set bnRecpCTX d).2) = neg d /\
   top (recp_N (BN_RECP_CTX_set bnRecpCTX d).2) = top d /\
   flags (recp_N (BN_RECP_CTX_set bnRecpCTX d).2) = 0 /\
   recp_Nr (BN_RECP_CTX_set bnRecpCTX d).2 = BN_init /\
   recp_num_bits (BN_RECP_CTX_set bnRecpCTX d).2 = BN_num_bits d) /\
  (sanityCheckBignum d = false \/ BIGNUM_ALLOC_WORDS < top d ->
   BN_RECP_CTX_set bnRecpCTX d = (false, BN_RECP_CTX_init)).
Proof.
  intros Hc Hl. destruct (BN_init_ok Hc) as (Hsi & _ & _).
  unfold BN_RECP_CTX_set. cbn [recp_N recp_Nr BN_RECP_CTX_init].
  unfold BN_copy. rewrite Hsi. cbn [negb].
  change (dmax BN_init) with BIGNUM_ALLOC_WORDS. rewrite Z.geb_leb.
  split.
  - intros Hs Ht. rewrite Hs. cbn [negb].
    destruct (sane_dmax_length _ Hs Hl) as [? ?].
    replace (top d <=? BIGNUM_ALLOC_WORDS) with true
      by (symmetry; apply Z.leb_le; lia).
    cbn [negb fst snd recp_N recp_Nr recp_num_bits].
    split; [done|]. split; [apply bn_value_copy; lia|].
    split; [done|]. split; [done|]. split; [done|].
    split; [by apply BN_zero_init | done].
  - intros Hbad. destruct (sanityCheckBignum d); cbn [negb]; [|done].
    destruct Hbad as [?|Hbig]; [done|].
    by replace (top d <=? BIGNUM_ALLOC_WORDS) with false
      by (symmetry; apply Z.leb_gt; lia).
Qed.

Lemma BN_clear_init : cfg_ok cfg -> BN_clear BN_init = BN_init.
Proof.
  intros Hc. destruct (BN_init_ok Hc) as (Hs & Hst & _).
  rewrite BN_clear_cleared by done.
  unfold with_value, BN_init. cbn [dmax flags d]. f_equal.
  apply zeroise_replicate.
Qed.

(** X23.  BN_RECP_CTX_free after BN_RECP_CTX_set wipes the copy of the
    divisor: every word of N is zero, no word is in use and the sign is
    clear, and Nr is as BN_init leaves it.  It does not touch num_bits,
    which still holds the number of bits of the divisor. *)
Theorem BN_RECP_CTX_free_after_set (bnRecpCTX : BN_RECP_CTX)
    (divisor : BIGNUM) :
  cfg_ok cfg -> storage_ok divisor ->
  sanityCheckBignum divisor = true -> top divisor <= BIGNUM_ALLOC_WORDS ->
  (forall j,
     rd (d (recp_N (BN_RECP_CTX_free (BN_RECP_CTX_set bnRecpCTX divisor).2)))
        j = 0) /\
  top (recp_N (BN_RECP_CTX_free (BN_RECP_CTX_set bnRecpCTX divisor).2)) = 0 /\
  neg (recp_N (BN_RECP_CTX_free (BN_RECP_CTX_set bnRecpCTX divisor).2))
    = FALSE /\
  bn_value (recp_N (BN_RECP_CTX_free (BN_RECP_CTX_set bnRecpCTX divisor).2))
    = 0 /\
  recp_Nr (BN_RECP_CTX_free (BN_RECP_CTX_set bnRecpCTX divisor).2) = BN_init /\
  recp_num_bits (BN_RECP_CTX_free (BN_RECP_CTX_set bnRecpCTX divisor).2)
    = BN_num_bits divisor.
Proof.
  intros Hc Hl Hs Ht. destruct (BN_init_ok Hc) as (Hsi & Hsti & Hli).
  pose proof (words_pos Hc) as Hw.
  destruct (sane_dmax_length _ Hs Hl) as [? ?].
  assert (Hset : BN_RECP_CTX_set bnRecpCTX divisor =
            (true,
             {| recp_N := with_value BN_init (top divisor) (neg divisor)
                            (memcpy (d BN_init) (d divisor) (top divisor));
                recp_Nr := BN_init;
                recp_num_bits := BN_num_bits divisor |})).
  { unfold BN_RECP_CTX_set. cbn [recp_N recp_Nr BN_RECP_CTX_init].
    unfold BN_copy. rewrite Hsi, Hs. cbn [negb].
    change (dmax BN_init) with BIGNUM_ALLOC_WORDS.
    replace (BIGNUM_ALLOC_WORDS >=? top divisor) with true
      by (symmetry; apply Z.geb_le; lia).
    cbn [negb]. by rewrite BN_zero_init. }
  rewrite Hset. cbn [snd BN_RECP_CTX_free recp_N recp_Nr recp_num_bits].
  set (n := with_value BN_init (top divisor) (neg divisor)
              (memcpy (d BN_init) (d divisor) (top divisor))).
  assert (Hlen : length (d n) = Z.to_nat BIGNUM_ALLOC_WORDS).
  { cbn [n with_value d]. rewrite length_memcpy; [|lia|].
    - cbn. by rewrite length_replicate.
    - cbn. rewrite length_replicate. lia. }
  assert (Hsn : sanityCheckBignum n = true).
  { pose proof (flg_none Hc). pose proof (flg_max Hc).
    pose proof (proj1 (sanityCheckBignum_spec _) Hs) as (? & ? & ? & ?).
    apply sanityCheckBignum_spec. unfold getBNMaxSize, flag_set. simpl. lia. }
  assert (Hstn : is_static n = false) by exact Hsti.
  rewrite (BN_clear_cleared n) by done.
  cbn [with_value d top neg].
  split; [|split; [done|split; [done|split; [done|split; [|done]]]]].
  - intros j. rewrite rd_zeroise by (change (dmax n) with BIGNUM_ALLOC_WORDS; lia).
    change (dmax n) with BIGNUM_ALLOC_WORDS.
    case_decide; [done|]. unfold rd, zlookup. case_decide; [|done].
    by rewrite lookup_ge_None_2 by lia.
  - by apply BN_clear_init.
Qed.

Lemma BN_clear_sane (bignum : BIGNUM) :
  sanityCheckBignum bignum = true -> sanityCheckBignum (BN_clear bignum) = true.
Proof.
  intros Hs. unfold BN_clear. rewrite Hs. cbn [negb].
  destruct (flag_set (flags bignum) BN_FLG_STATIC_DATA); cbn [negb]; [done|].
  pose proof (proj1 (sanityCheckBignum_spec _) Hs) as (? & ? & ? & ?).
  apply sanityCheckBignum_spec. unfold getBNMaxSize, TRUE, FALSE in *.
  simpl. lia.
Qed.

(** X14.  A Montgomery context from BN_MONT_CTX_init passes
    sanityCheckBNMontCTX, and BN_MONT_CTX_free keeps a context that passes
    it passing: it clears RR and N (no word in use, sign clear, unless the
    bignum is static), keeps ri and the flags, and gives the memory back
    exactly when the flags say it came from the heap. *)
Theorem BN_MONT_CTX_free_sane (bnMontCTX : BN_MONT_CTX) :
  cfg_ok cfg -> cfg_more_ok cfg more ->
  sanityCheckBNMontCTX BN_MONT_CTX_init = true /\
  (sanityCheckBNMontCTX bnMontCTX = true ->
   sanityCheckBNMontCTX (BN_MONT_CTX_free bnMontCTX).1 = true /\
   (is_static (mont_RR bnMontCTX) = false ->
    top (mont_RR (BN_MONT_CTX_free bnMontCTX).1) = 0 /\
    neg (mont_RR (BN_MONT_CTX_free bnMontCTX).1) = FALSE) /\
   (is_static (mont_N bnMontCTX) = false ->
    top (mont_N (BN_MONT_CTX_free bnMontCTX).1) = 0 /\
    neg (mont_N (BN_MONT_CTX_free bnMontCTX).1) = FALSE) /\
   mont_ri (BN_MONT_CTX_free bnMontCTX).1 = mont_ri bnMontCTX /\
   mont_flags (BN_MONT_CTX_free bnMontCTX).1 = mont_flags bnMontCTX /\
   ((BN_MONT_CTX_free bnMontCTX).2 = true <->
    mont_flags bnMontCTX = BN_FLG_MALLOCED)).
Proof.
  intros Hc Hm. destruct (BN_init_ok Hc) as (Hsi & _ & _).
  pose proof (pkcsize_pos Hm) as Hp.
  split.
  { unfold sanityCheckBNMontCTX, BN_MONT_CTX_init, bytesToBits.
    cbn [mont_RR mont_N mont_ri mont_flags]. rewrite Hsi. cbn [negb orb].
    replace (0 >? CRYPT_MAX_PKCSIZE * 8) with false
      by (symmetry; rewrite Z.gtb_ltb; apply Z.ltb_ge; lia).
    done. }
  intros Hs. unfold sanityCheckBNMontCTX in Hs.
  destruct (sanityCheckBignum (mont_RR bnMontCTX)) eqn:Hrr; [|done].
  destruct (sanityCheckBignum (mont_N bnMontCTX)) eqn:Hn; [|done].
  cbn [negb orb] in Hs.
  destruct ((mont_ri bnMontCTX <? 0)
            || (mont_ri bnMontCTX >? bytesToBits CRYPT_MAX_PKCSIZE)) eqn:Hri;
    [done|].
  destruct (Z.eqb_spec (mont_flags bnMontCTX) 0) as [Hf0|Hf0];
    cbn [negb andb] in Hs.
  - split.
    { unfold sanityCheckBNMontCTX. cbn [BN_MONT_CTX_free fst mont_RR mont_N
        mont_ri mont_flags].
      rewrite !BN_clear_sane by done. cbn [negb orb]. rewrite Hri, Hf0.
      done. }
    split; [intros; by apply BN_clear_top|].
    split; [intros; by apply BN_clear_top|].
    split; [done|]. split; [done|].
    cbn [BN_MONT_CTX_free snd]. rewrite Hf0.
    pose proof (flg_malloced_bit Hm) as Hbit. unfold flag_set in *.
    rewrite Z.land_0_l. cbn.
    split; [done|]. intros Heq. rewrite <- Heq in Hbit.
    by rewrite Z.land_0_l in Hbit.
  - destruct (Z.eqb_spec (mont_flags bnMontCTX) BN_FLG_MALLOCED) as [Hfm|Hfm];
      [|done].
    split.
    { unfold sanityCheckBNMontCTX. cbn [BN_MONT_CTX_free fst mont_RR mont_N
        mont_ri mont_flags].
      rewrite !BN_clear_sane by done. cbn [negb orb]. rewrite Hri, Hfm.
      rewrite Z.eqb_refl. by destruct (BN_FLG_MALLOCED =? 0). }
    split; [intros; by apply BN_clear_top|].
    split; [intros; by apply BN_clear_top|].
    split; [done|]. split; [done|].
    cbn [BN_MONT_CTX_free snd]. rewrite Hfm.
    by rewrite (flg_malloced_bit Hm).
Qed.

(** *** BN_high_bit *)

Lemma to_int_testbit x n : 0 <= n < 32 -> Z.testbit (to_int x) n = Z.testbit x n.
Proof.
  intros Hn. unfold to_int. cbv zeta.
  destruct (x mod 2 ^ 32 <? 2 ^ 31).
  - apply Z.mod_pow2_bits_low. lia.
  - rewrite <- (Z.mod_pow2_bits_low (x mod 2 ^ 32 - 2 ^ 32) 32 n) by lia.
    replace ((x mod 2 ^ 32 - 2 ^ 32) mod 2 ^ 32) with (x mod 2 ^ 32).
    + apply Z.mod_pow2_bits_low. lia.
    + rewrite <- Zminus_mod_idemp_r, Z_mod_same_full, Z.sub_0_r.
      by rewrite Z.mod_mod.
Qed.

Lemma bn_value_range (b : BIGNUM) :
  0 < BN_BITS2 -> sanityCheckBignum b = true -> words_ok b ->
  0 <= bn_value b < 2 ^ (BN_BITS2 * top b).
Proof.
  intros Hb Hs Hw.
  pose proof (proj1 (sanityCheckBignum_spec _) Hs) as (_ & Ht & _).
  pose proof (words_value_bound (take (Z.to_nat (top b)) (d b))
                ltac:(lia) ltac:(by apply Forall_take)) as Hv.
  fold (bn_value b) in Hv. split; [lia|].
  eapply Z.lt_le_trans; [apply Hv|].
  apply Z.pow_le_mono_r; [lia|]. rewrite length_take.
  apply Z.mul_le_mono_nonneg_l; lia.
Qed.

Lemma bit_length_le x s : 0 <= s -> 0 <= x < 2 ^ s -> 0 <= bit_length x <= s.
Proof.
  intros Hs Hx. unfold bit_length. destruct (Z.eqb_spec x 0); [lia|].
  pose proof (Z.log2_nonneg x).
  assert (Z.log2 x < s) by (apply Z.log2_lt_pow2; lia). lia.
Qed.

Lemma testbit_high_byte v :
  0 < v ->
  Z.testbit v (8 * ((bit_length v + 7) / 8) - 1) = (bit_length v mod 8 =? 0).
Proof.
  intros Hv. unfold bit_length.
  replace (v =? 0) with false by (symmetry; apply Z.eqb_neq; lia).
  pose proof (Z.log2_nonneg v).
  destruct (Z.eqb_spec ((Z.log2 v + 1) mod 8) 0) as [Hm|Hm].
  - replace (8 * ((Z.log2 v + 1 + 7) / 8) - 1) with (Z.log2 v)
      by (Z.div_mod_to_equations; lia).
    by apply Z.bit_log2.
  - apply Z.bits_above_log2; [lia|]. Z.div_mod_to_equations. lia.
Qed.

(** X15.  BN_high_bit tells whether the most significant byte of the value
    has its top bit set, that is whether the number of bits of the value
    is a multiple of 8 (and not 0): for a normalised bignum whose words
    are BN_ULONGs of BN_BYTES bytes.  BN_num_bytes is the number of bytes
    of the value. *)
Theorem BN_high_bit_value (bignum : BIGNUM) :
  0 < BN_BYTES -> BN_BITS2 = 8 * BN_BYTES -> BN_BITS2 <= 127 ->
  sanityCheckBignum bignum = true -> words_ok bignum -> normalised bignum ->
  BN_num_bytes bignum = (bit_length (bn_value bignum) + 7) / 8 /\
  BN_high_bit bignum =
    negb (bn_value bignum =? 0) && (bit_length (bn_value bignum) mod 8 =? 0).
Proof.
  intros Hy Hbits Hmax Hs Hw Hn.
  assert (Hb : 0 < BN_BITS2) by lia.
  pose proof (proj1 (sanityCheckBignum_spec _) Hs) as (_ & Ht & _).
  pose proof (bn_value_range _ Hb Hs Hw) as Hv.
  pose proof (bit_length_le _ (BN_BITS2 * top bignum)
                ltac:(apply Z.mul_nonneg_nonneg; lia) Hv) as Hlen.
  assert (Hbytes : BN_num_bytes bignum = (bit_length (bn_value bignum) + 7) / 8).
  { unfold BN_num_bytes. rewrite BN_num_bits_normalised by (done || lia).
    apply Z.quot_div_nonneg; lia. }
  split; [done|].
  unfold BN_high_bit. rewrite Hbytes, Hs. cbn [negb].
  set (v := bn_value bignum) in *. set (n := bit_length v) in *.
  destruct (Z.eqb_spec v 0) as [Hz|Hnz]; cbn [negb andb].
  { subst n. rewrite Hz. change (bit_length 0) with 0. done. }
  assert (Hn1 : 1 <= n).
  { subst n. unfold bit_length.
    replace (v =? 0) with false by (symmetry; apply Z.eqb_neq; lia).
    pose proof (Z.log2_nonneg v). lia. }
  set (q := (n + 7) / 8 - 1).
  assert (Hq : 0 <= q /\ 8 * q < n) by (subst q; Z.div_mod_to_equations; lia).
  replace (q <? 0) with false by (symmetry; apply Z.ltb_ge; lia).
  rewrite Z.quot_div_nonneg, Z.rem_mod_nonneg by lia.
  change 128 with (Z.shiftl 1 7). rewrite land_mask_testbit by lia.
  rewrite to_int_testbit by lia.
  pose proof (Z.mod_pos_bound q BN_BYTES Hy) as Hr.
  rewrite Z.shiftr_spec by lia.
  pose proof (testbit_high_byte v ltac:(lia)) as Hhb. fold n in Hhb.
  rewrite <- Hhb.
  replace (8 * ((n + 7) / 8) - 1) with (8 * q + 7) by (subst q; lia).
  pose proof (bn_value_testbit bignum (8 * q + 7) Hb Hw ltac:(lia)) as Htb.
  fold v in Htb. rewrite Htb.
  assert (Hne : BN_BYTES <> 0) by lia.
  assert (Hdiv : (8 * q + 7) / BN_BITS2 = q / BN_BYTES).
  { symmetry. apply (Z.div_unique _ _ _ (7 + q mod BN_BYTES * 8)); [lia|].
    rewrite Hbits. pose proof (Z.div_mod q BN_BYTES Hne). lia. }
  assert (Hmod : (8 * q + 7) mod BN_BITS2 = 7 + q mod BN_BYTES * 8).
  { symmetry. apply (Z.mod_unique _ _ (q / BN_BYTES)); [lia|].
    rewrite Hbits. pose proof (Z.div_mod q BN_BYTES Hne). lia. }
  rewrite Hdiv, Hmod.
  rewrite decide_True; [done|].
  apply Z.div_lt_upper_bound; [lia|]. nia.
Qed.

(** ** More about the pool *)

#[local] Arguments clear_at : simpl never.
#[local] Arguments BN_CTX_get_ext : simpl never.

(** *** The stack above the active entry *)

Lemma clear_at_books bnCTX p bnCTX' :
  clear_at bnCTX p = Some bnCTX' ->
  stack bnCTX' = stack bnCTX /\ stackPos bnCTX' = stackPos bnCTX /\
  bnArrayMax bnCTX' = bnArrayMax bnCTX.
Proof.
  unfold clear_at. intros Hc.
  destruct p as [p|]; simpl in Hc; [|done].
  destruct (deref bnCTX p) as [b|]; simpl in Hc; [|done].
  destruct p as [i|i|i]; simpl in Hc;
    apply fmap_Some in Hc as (a & _ & ->); done.
Qed.

Lemma store_books bnCTX p b bnCTX' :
  store bnCTX p b = Some bnCTX' ->
  stack bnCTX' = stack bnCTX /\ stackPos bnCTX' = stackPos bnCTX /\
  bnArrayMax bnCTX' = bnArrayMax bnCTX.
Proof.
  intros Hs. destruct p as [i|i|i]; simpl in Hs;
    apply fmap_Some in Hs as (a & _ & ->); done.
Qed.

Lemma BN_CTX_end_ext_books bnCTX t bnCTX' :
  BN_CTX_end_ext bnCTX t = Some bnCTX' ->
  exists c, BN_CTX_end bnCTX = Some c /\
    stack bnCTX' = stack c /\ stackPos bnCTX' = stackPos c /\
    bnArrayMax bnCTX' = bnArrayMax c.
Proof.
  unfold BN_CTX_end_ext. intros He.
  destruct (BN_CTX_end bnCTX) as [c|]; simpl in He; [|done].
  exists c. split; [done|].
  destruct (negb _); [by injection He as <-|].
  destruct (ext_type_eqb t BIGNUM_EXT_MUL1).
  - destruct (clear_at c _) as [c2|] eqn:Hc2; simpl in He; [|done].
    apply clear_at_books in Hc2 as (<- & <- & <-).
    by apply clear_at_books in He.
  - by apply clear_at_books in He.
Qed.

Lemma stack_clean_same c c' :
  stack c' = stack c -> stackPos c' = stackPos c ->
  stack_clean c -> stack_clean c'.
Proof. unfold stack_clean. intros -> ->. done. Qed.

Lemma BN_CTX_end_clean c c' :
  ctx_inv c -> stack_clean c -> BN_CTX_end c = Some c' -> stack_clean c'.
Proof.
  intros Hi Hcl He.
  pose proof (inv_pos _ Hi) as Hp. pose proof (inv_stack_len _ Hi) as Hl.
  destruct (decide (stackPos c = 0)) as [Hz|Hnz].
  { by rewrite BN_CTX_end_underflow in He. }
  destruct (ctx_inv_top _ Hi) as (hi & Hhi & _).
  destruct (zlookup_in_range (stack c) (stackPos c - 1)) as [lo Hlo]; [lia|].
  destruct (BN_CTX_end_spec _ lo hi Hi Hlo Hhi) as (a' & _ & _ & Heq).
  rewrite Heq in He. injection He as <-.
  destruct (hi <? BN_CTX_ARRAY_SIZE); [|done].
  intros j Hj. cbn [stack stackPos with_stack] in *.
  destruct (decide (j = stackPos c)) as [->|Hne].
  - apply zlookup_insert_eq. lia.
  - rewrite zlookup_insert_ne by lia. apply Hcl. lia.
Qed.

Lemma reachable_stack_clean bnCTX :
  cfg_ok cfg -> reachable bnCTX -> stack_clean bnCTX.
Proof.
  intros Hc. induction 1 as
    [ | c c' Hr IH Hs | c c' Hr IH He | c t c' Hr IH He | c p c' Hr IH Hg
      | c p b c' Hr IH Hs ].
  - intros j Hj. cbn [stack stackPos BN_CTX_init] in *.
    apply zlookup_Some. split; [lia|]. apply lookup_replicate_2. lia.
  - pose proof (reachable_inv _ Hc Hr) as Hi.
    pose proof (inv_pos _ Hi) as Hp. pose proof (inv_stack_len _ Hi) as Hl.
    destruct (ctx_inv_top _ Hi) as (t & Ht & _).
    destruct (decide (stackPos c + 1 < BN_CTX_ARRAY_SIZE)) as [Hroom|Hroom].
    2:{ rewrite BN_CTX_start_overflow in Hs by (done || lia). done. }
    rewrite (BN_CTX_start_spec _ t) in Hs by done. injection Hs as <-.
    intros j Hj. cbn [stack stackPos with_stack] in *.
    rewrite zlookup_insert_ne by lia. apply IH. lia.
  - by apply (BN_CTX_end_clean c c' (reachable_inv _ Hc Hr)).
  - apply BN_CTX_end_ext_books in He as (c1 & Hend & Hst & Hpos & _).
    apply (stack_clean_same c1); [done | done |].
    by apply (BN_CTX_end_clean c c1 (reachable_inv _ Hc Hr)).
  - pose proof (reachable_inv _ Hc Hr) as Hi.
    pose proof (inv_pos _ Hi) as Hp.
    destruct (ctx_inv_top _ Hi) as (t & Ht & _).
    rewrite (BN_CTX_get_spec _ t) in Hg by done.
    destruct (bnArrayMax c >=? BN_CTX_ARRAY_SIZE); injection Hg as _ <-;
      [done|].
    intros j Hj. cbn [stack stackPos with_stack with_bnArrayMax] in *.
    rewrite zlookup_insert_ne by lia. apply IH. lia.
  - apply store_books in Hs as (Hst & Hpos & _).
    by apply (stack_clean_same c).
Qed.

(** *** BN_CTX_start *)

(** X16.  A context in use takes BN_CTX_ARRAY_SIZE - 1 nested checkpoints.
    Below that depth BN_CTX_start opens a level whose mark is the mark of
    the level around it and changes nothing else; at that depth it writes
    stack[ BN_CTX_ARRAY_SIZE ], past the end of the array. *)
Theorem BN_CTX_start_nesting (bnCTX : BN_CTX) :
  cfg_ok cfg -> reachable bnCTX ->
  (stackPos bnCTX + 1 < BN_CTX_ARRAY_SIZE ->
   exists bnCTX',
     BN_CTX_start bnCTX = Some bnCTX' /\
     stackPos bnCTX' = stackPos bnCTX + 1 /\
     stack_top bnCTX' = stack_top bnCTX /\
     (forall j, j <> stackPos bnCTX + 1 ->
        zlookup (stack bnCTX') j = zlookup (stack bnCTX) j) /\
     bnArray bnCTX' = bnArray bnCTX /\
     bnExtArray bnCTX' = bnExtArray bnCTX /\
     bnExt2Array bnCTX' = bnExt2Array bnCTX /\
     bnArrayMax bnCTX' = bnArrayMax bnCTX) /\
  (stackPos bnCTX + 1 = BN_CTX_ARRAY_SIZE -> BN_CTX_start bnCTX = None).
Proof.
  intros Hc Hr. pose proof (reachable_inv _ Hc Hr) as Hi.
  pose proof (inv_pos _ Hi) as Hp. pose proof (inv_stack_len _ Hi) as Hl.
  destruct (ctx_inv_top _ Hi) as (t & Ht & _).
  split; [|by apply BN_CTX_start_overflow].
  intros Hroom. eexists. split; [by apply (BN_CTX_start_spec _ t)|].
  cbn [stack stackPos with_stack bnArray bnExtArray bnExt2Array bnArrayMax].
  split; [done|]. split.
  { rewrite Ht. unfold stack_top. cbn [stack stackPos with_stack].
    apply zlookup_insert_eq. lia. }
  split; [|done].
  intros j Hj. apply zlookup_insert_ne; lia.
Qed.

(** *** BN_CTX_start and BN_CTX_end *)

(** X17.  A checkpoint that takes no bignum leaves no trace: on a context
    in use whose pool is not full, BN_CTX_start followed at once by
    BN_CTX_end gives back the context as it was. *)
Theorem BN_CTX_start_end_round_trip (bnCTX : BN_CTX) (t : Z) :
  cfg_ok cfg -> reachable bnCTX ->
  stackPos bnCTX + 1 < BN_CTX_ARRAY_SIZE ->
  stack_top bnCTX = Some t -> t < BN_CTX_ARRAY_SIZE ->
  BN_CTX_start bnCTX ≫= BN_CTX_end = Some bnCTX.
Proof.
  intros Hc Hr Hroom Ht Hfree.
  pose proof (reachable_inv _ Hc Hr) as Hi.
  pose proof (reachable_stack_clean _ Hc Hr) as Hcl.
  pose proof (inv_pos _ Hi) as Hp. pose proof (inv_stack_len _ Hi) as Hl.
  pose proof (BN_CTX_start_spec _ t Hi Ht Hroom) as Hs.
  pose proof (BN_CTX_start_inv _ _ Hi Hs) as Hi'.
  rewrite Hs. cbn [mbind option_bind].
  set (c1 := with_stack bnCTX
               (<[Z.to_nat (stackPos bnCTX + 1) := t]> (stack bnCTX))
               (stackPos bnCTX + 1)) in *.
  assert (Hlo : zlookup (stack c1) (stackPos c1 - 1) = Some t).
  { cbn [c1 stack stackPos with_stack].
    rewrite zlookup_insert_ne by lia.
    by replace (stackPos bnCTX + 1 - 1) with (stackPos bnCTX) by lia. }
  assert (Hhi : stack_top c1 = Some t).
  { unfold stack_top. cbn [c1 stack stackPos with_stack].
    apply zlookup_insert_eq. lia. }
  destruct (BN_CTX_end_spec c1 t t Hi' Hlo Hhi) as (a' & Hlen & Hk & ->).
  replace (t <? BN_CTX_ARRAY_SIZE) with true
    by (symmetry; apply Z.ltb_lt; lia).
  f_equal.
  assert (a' = bnArray bnCTX) as ->.
  { apply list_eq. intros i.
    specialize (Hk (Z.of_nat i)). rewrite decide_False in Hk by lia.
    unfold zlookup in Hk. rewrite !decide_True in Hk by lia.
    by rewrite Nat2Z.id in Hk. }
  destruct bnCTX as [a e e2 m s pos].
  unfold with_stack, with_bnArray.
  cbn [c1 stack stackPos with_stack bnArray bnExtArray bnExt2Array bnArrayMax]
    in *.
  f_equal; [|lia].
  rewrite list_insert_insert_eq. apply list_insert_id.
  specialize (Hcl (pos + 1) ltac:(cbn; lia)). cbn in Hcl.
  by apply zlookup_Some in Hcl as [_ ?].
Qed.

(** *** BN_CTX_end *)

(** X18.  On a context in use, inside a checkpoint, BN_CTX_end clears
    (BN_clear) the bignums between the mark of the enclosing level and the
    mark of the active level and touches no other bignum; it leaves
    bnArrayMax as it is, and it drops the level when the active mark is
    below the size of the pool.  With no checkpoint open it reads
    stack[ -1 ], before the start of the array. *)
Theorem BN_CTX_end_releases (bnCTX : BN_CTX) :
  cfg_ok cfg -> reachable bnCTX ->
  (0 < stackPos bnCTX ->
   exists lo hi c,
     zlookup (stack bnCTX) (stackPos bnCTX - 1) = Some lo /\
     stack_top bnCTX = Some hi /\ 0 <= lo <= hi /\
     BN_CTX_end bnCTX = Some c /\
     (forall k, lo <= k < hi ->
        deref c (InArray k) = BN_clear <$> deref bnCTX (InArray k)) /\
     (forall k, ~ lo <= k < hi ->
        deref c (InArray k) = deref bnCTX (InArray k)) /\
     bnExtArray c = bnExtArray bnCTX /\ bnExt2Array c = bnExt2Array bnCTX /\
     bnArrayMax c = bnArrayMax bnCTX /\
     (hi < BN_CTX_ARRAY_SIZE ->
        stackPos c = stackPos bnCTX - 1 /\ stack_top c = Some lo)) /\
  (stackPos bnCTX = 0 -> BN_CTX_end bnCTX = None).
Proof.
  intros Hc Hr. pose proof (reachable_inv _ Hc Hr) as Hi.
  pose proof (inv_pos _ Hi) as Hp. pose proof (inv_stack_len _ Hi) as Hl.
  split; [|by apply BN_CTX_end_underflow].
  intros Hpos.
  destruct (ctx_inv_top _ Hi) as (hi & Hhi & _).
  destruct (zlookup_in_range (stack bnCTX) (stackPos bnCTX - 1)) as [lo Hlo];
    [lia|].
  pose proof (inv_sorted _ Hi (stackPos bnCTX - 1) (stackPos bnCTX) lo hi
                ltac:(lia) ltac:(lia) Hlo Hhi) as Hs.
  destruct (BN_CTX_end_frame _ lo hi Hi Hlo Hhi)
    as (c & He & Hin & Hout & He1 & He2 & Hm & Hpop & _).
  exists lo, hi, c. split_and!; (done || lia).
Qed.

(** *** The last-used position *)

Lemma pool_step_inv c c' : ctx_inv c -> pool_step c c' -> ctx_inv c'.
Proof.
  intros Hi Hs. destruct Hs as [c c' H|c c' H|c t c' H|c p c' H|c p b c' H].
  - by eapply BN_CTX_start_inv.
  - by eapply BN_CTX_end_inv.
  - by eapply BN_CTX_end_ext_inv.
  - by eapply BN_CTX_get_inv.
  - by eapply store_inv.
Qed.

Lemma BN_CTX_end_max c c' :
  ctx_inv c -> BN_CTX_end c = Some c' -> bnArrayMax c' = bnArrayMax c.
Proof.
  intros Hi He.
  pose proof (inv_pos _ Hi) as Hp. pose proof (inv_stack_len _ Hi) as Hl.
  destruct (decide (stackPos c = 0)) as [Hz|Hnz].
  { by rewrite BN_CTX_end_underflow in He. }
  destruct (ctx_inv_top _ Hi) as (hi & Hhi & _).
  destruct (zlookup_in_range (stack c) (stackPos c - 1)) as [lo Hlo]; [lia|].
  destruct (BN_CTX_end_frame _ lo hi Hi Hlo Hhi) as (c1 & He' & Hrest).
  rewrite He in He'. injection He' as <-. apply Hrest.
Qed.

Lemma pool_step_max c c' :
  ctx_inv c -> pool_step c c' -> bnArrayMax c <= bnArrayMax c'.
Proof.
  intros Hi Hs. destruct Hs as [c c' H|c c' H|c t c' H|c p c' H|c p b c' H].
  - pose proof (inv_pos _ Hi) as Hp.
    destruct (ctx_inv_top _ Hi) as (t & Ht & _).
    destruct (decide (stackPos c + 1 < BN_CTX_ARRAY_SIZE)) as [Hroom|Hroom].
    2:{ rewrite BN_CTX_start_overflow in H by (done || lia). done. }
    rewrite (BN_CTX_start_spec _ t) in H by done. injection H as <-. done.
  - by rewrite (BN_CTX_end_max c c').
  - apply BN_CTX_end_ext_books in H as (c1 & Hend & _ & _ & ->).
    by rewrite (BN_CTX_end_max c c1).
  - destruct (ctx_inv_top _ Hi) as (t & Ht & _).
    rewrite (BN_CTX_get_spec _ t) in H by done.
    destruct (bnArrayMax c >=? BN_CTX_ARRAY_SIZE); injection H as _ <-;
      [done|].
    cbn [bnArrayMax with_bnArrayMax]. lia.
  - apply store_books in H as (_ & _ & ->). done.
Qed.

(** X19.  The last-used position bnArrayMax never goes down: no function
    of the pool lowers it, BN_CTX_end included.  So the exhaustion of the
    pool is final: once bnArrayMax has reached BN_CTX_ARRAY_SIZE, every
    BN_CTX_get returns NULL and changes nothing, whatever the caller does
    with the functions of the pool afterwards. *)
Theorem BN_CTX_exhaustion_is_final (bnCTX later : BN_CTX) :
  cfg_ok cfg -> reachable bnCTX -> pool_later bnCTX later ->
  bnArrayMax bnCTX <= bnArrayMax later /\
  (bnArrayMax bnCTX = BN_CTX_ARRAY_SIZE ->
   bnArrayMax later = BN_CTX_ARRAY_SIZE /\
   BN_CTX_get later = Some (None, later)).
Proof.
  intros Hc Hr Hl. pose proof (reachable_inv _ Hc Hr) as Hi.
  assert (Hboth : ctx_inv later /\ bnArrayMax bnCTX <= bnArrayMax later).
  { induction Hl as [|c' c'' _ [IHi IHm] Hs]; [split; [done | lia]|].
    split; [by eapply pool_step_inv|].
    pose proof (pool_step_max _ _ IHi Hs). lia. }
  destruct Hboth as [Hil Hm]. split; [done|].
  intros Hfull. pose proof (inv_max _ Hil).
  split; [lia|].
  destruct (ctx_inv_top _ Hil) as (t & Ht & _).
  rewrite (BN_CTX_get_spec _ t) by done.
  by replace (bnArrayMax later >=? BN_CTX_ARRAY_SIZE) with true
    by (symmetry; apply Z.geb_le; lia).
Qed.

(** *** BN_CTX_init and BN_CTX_final *)

Lemma deref_init (p : bnref) (b : BIGNUM) :
  deref BN_CTX_init p = Some b ->
  match p with
  | InArray i => b = BN_init /\ 0 <= i < BN_CTX_ARRAY_SIZE
  | InExtArray i => b = BN_init_ext false /\ 0 <= i < BN_CTX_EXTARRAY_SIZE
  | InExt2Array i => b = BN_init_ext true /\ 0 <= i < BN_CTX_EXT2ARRAY_SIZE
  end.
Proof.
  destruct p as [i|i|i]; cbn [deref BN_CTX_init bnArray bnExtArray bnExt2Array];
    intros [Hi [-> Hlt]%lookup_replicate]%zlookup_Some; split; (done || lia).
Qed.

(** X20.  BN_CTX_init leaves every bignum of the pool ready for use: it
    passes the check, is not static, has the value zero and a clear sign,
    and has the array and the capacity of its class: BIGNUM_ALLOC_WORDS
    for bnArray, BIGNUM_ALLOC_WORDS_EXT for bnExtArray and
    BIGNUM_ALLOC_WORDS_EXT2 for bnExt2Array. *)
Theorem BN_CTX_init_bignums (p : bnref) (b : BIGNUM) :
  cfg_ok cfg -> deref BN_CTX_init p = Some b ->
  sanityCheckBignum b = true /\ is_static b = false /\ storage_ok b /\
  top b = 0 /\ neg b = FALSE /\ bn_value b = 0 /\
  dmax b = getBNMaxSize b /\
  getBNMaxSize b =
    match p with
    | InArray _ => BIGNUM_ALLOC_WORDS
    | InExtArray _ => BIGNUM_ALLOC_WORDS_EXT
    | InExt2Array _ => BIGNUM_ALLOC_WORDS_EXT2
    end.
Proof.
  intros Hc Hd. apply deref_init in Hd.
  destruct p as [i|i|i]; destruct Hd as [-> _].
  - destruct (BN_init_ok Hc) as (? & ? & ?). split_and!; try done.
  - destruct (BN_init_ext_ok false Hc) as (? & ? & ?).
    assert (getBNMaxSize (BN_init_ext false) = BIGNUM_ALLOC_WORDS_EXT).
    { unfold getBNMaxSize. cbn [BN_init_ext flags].
      by rewrite (flg_ext_bit Hc). }
    split_and!; try done.
  - destruct (BN_init_ext_ok true Hc) as (? & ? & ?).
    assert (getBNMaxSize (BN_init_ext true) = BIGNUM_ALLOC_WORDS_EXT2).
    { unfold getBNMaxSize. cbn [BN_init_ext flags].
      by rewrite (flg_ext_ext2 Hc), (flg_ext2_bit Hc). }
    split_and!; try done.
Qed.

(** X21.  BN_CTX_final brings any context in use back to the state
    BN_CTX_init leaves, an exhausted pool included: no checkpoint is open,
    bnArrayMax is 0 and the next BN_CTX_get returns the first bignum of
    the pool. *)
Theorem BN_CTX_final_resets (bnCTX : BN_CTX) :
  cfg_ok cfg -> reachable bnCTX ->
  BN_CTX_final bnCTX = BN_CTX_init /\
  stackPos (BN_CTX_final bnCTX) = 0 /\ bnArrayMax (BN_CTX_final bnCTX) = 0 /\
  stack_top (BN_CTX_final bnCTX) = Some 0 /\
  exists bnCTX',
    BN_CTX_get (BN_CTX_final bnCTX) = Some (Some (InArray 0), bnCTX') /\
    bnArrayMax bnCTX' = 1 /\ stack_top bnCTX' = Some 1.
Proof.
  intros Hc Hr. pose proof (reachable_inv _ Hc Hr) as Hi.
  pose proof (array_pos Hc) as Hsize.
  assert (Hf : BN_CTX_final bnCTX = BN_CTX_init).
  { unfold BN_CTX_final. by rewrite (ctx_inv_sane _ Hi). }
  assert (Ht : stack_top BN_CTX_init = Some 0).
  { unfold stack_top. cbn [stack stackPos BN_CTX_init].
    apply zlookup_Some. split; [lia|]. apply lookup_replicate_2. lia. }
  rewrite Hf. split; [done|]. split; [done|]. split; [done|].
  split; [done|].
  eexists. split.
  { apply (BN_CTX_get_room _ 0); [by apply BN_CTX_init_inv | done | lia]. }
  cbn [bnArrayMax with_bnArrayMax BN_CTX_init]. split; [done|].
  unfold stack_top.
  cbn [stack stackPos with_stack with_bnArrayMax BN_CTX_init].
  apply zlookup_insert_eq. rewrite length_replicate. lia.
Qed.

(** *** Temporaries of nested levels *)

Lemma temporaries_app t n m :
  temporaries t (n + m) = temporaries t n ++ temporaries (t + Z.of_nat n) m.
Proof.
  revert t. induction n as [|n IH]; intros t; cbn [temporaries Nat.add app].
  - by rewrite Z.add_0_r.
  - rewrite IH. do 3 f_equal. lia.
Qed.

Lemma elem_of_temporaries p t n :
  p ∈ temporaries t n <-> exists i, p = Some (InArray i) /\ t <= i < t + Z.of_nat n.
Proof.
  revert t. induction n as [|n IH]; intros t; cbn [temporaries].
  - rewrite elem_of_nil. split; [done|]. intros (i & _ & ?). lia.
  - rewrite elem_of_cons, IH. split.
    + intros [->|(i & -> & ?)]; [exists t | exists i]; split; (done || lia).
    + intros (i & -> & Hi). destruct (decide (i = t)) as [->|]; [by left|].
      right. exists i. split; [done | lia].
Qed.

Lemma NoDup_temporaries t n : NoDup (temporaries t n).
Proof.
  revert t. induction n as [|n IH]; intros t; cbn [temporaries].
  - apply NoDup_nil_2.
  - apply NoDup_cons. split; [|apply IH].
    rewrite elem_of_temporaries. intros (i & [= <-] & ?). lia.
Qed.

(** X22.  The pool never hands out a bignum twice among the temporaries
    that are live together: [n] calls of BN_CTX_get, a BN_CTX_start and
    [m] more calls, within the capacity, return [n + m] different pointers,
    each to a bignum of bnArray from the active mark on, and change no
    bignum. *)
Theorem BN_CTX_get_no_alias (bnCTX : BN_CTX) (t : Z) (n m : nat) :
  cfg_ok cfg -> reachable bnCTX ->
  stack_top bnCTX = Some t ->
  stackPos bnCTX + 1 < BN_CTX_ARRAY_SIZE ->
  t + Z.of_nat n + Z.of_nat m <= BN_CTX_ARRAY_SIZE ->
  exists ps c1 c2 qs c3,
    get_n n bnCTX = Some (ps, c1) /\
    BN_CTX_start c1 = Some c2 /\
    get_n m c2 = Some (qs, c3) /\
    length ps = n /\ length qs = m /\
    NoDup (ps ++ qs) /\
    (forall p, p ∈ ps ++ qs ->
       exists i b, p = Some (InArray i) /\
         t <= i < t + Z.of_nat n + Z.of_nat m /\
         deref c3 (InArray i) = Some b) /\
    bnArray c3 = bnArray bnCTX.
Proof.
  intros Hc Hr Ht Hdeep Hroom.
  pose proof (reachable_inv _ Hc Hr) as Hi.
  destruct (get_n_spec n bnCTX t Hi Ht ltac:(lia))
    as (c1 & Hg1 & Hi1 & Hp1 & Ht1 & _ & Ha1 & _).
  pose proof (BN_CTX_start_spec c1 _ Hi1 Ht1 ltac:(lia)) as Hs.
  pose proof (BN_CTX_start_inv _ _ Hi1 Hs) as Hi2.
  set (c2 := with_stack c1
               (<[Z.to_nat (stackPos c1 + 1) := t + Z.of_nat n]> (stack c1))
               (stackPos c1 + 1)) in *.
  assert (Ht2 : stack_top c2 = Some (t + Z.of_nat n)).
  { unfold stack_top. cbn [c2 stack stackPos with_stack].
    apply zlookup_insert_eq.
    pose proof (inv_pos _ Hi1). pose proof (inv_stack_len _ Hi1). lia. }
  destruct (get_n_spec m c2 _ Hi2 Ht2 ltac:(lia))
    as (c3 & Hg3 & Hi3 & _ & _ & _ & Ha3 & _).
  exists (temporaries t n), c1, c2, (temporaries (t + Z.of_nat n) m), c3.
  assert (Hlen : forall t n, length (temporaries t n) = n).
  { intros t' n'. revert t'. induction n' as [|n' IH]; intros t'; simpl;
      [done | by rewrite IH]. }
  split_and!; try done.
  - rewrite <- temporaries_app. apply NoDup_temporaries.
  - intros p Hp. rewrite <- temporaries_app in Hp.
    apply elem_of_temporaries in Hp as (i & -> & Hin).
    pose proof (ctx_inv_top _ Hi) as (t' & Ht' & Ht0 & _).
    rewrite Ht in Ht'. injection Ht' as <-.
    destruct (zlookup_in_range (bnArray c3) i) as [b Hb].
    { rewrite (inv_array_len _ Hi3). lia. }
    exists i, b. split; [done|]. split; [lia | done].
  - by rewrite Ha3.
Qed.

Lemma reachable_iter_start n : forall c c',
  reachable c ->
  Nat.iter n (fun c => c ≫= BN_CTX_start) (Some c) = Some c' ->
  reachable c'.
Proof.
  induction n as [|n IH]; intros c c' Hr Hit.
  - by injection Hit as <-.
  - change (Nat.iter n (fun c => c ≫= BN_CTX_start) (Some c)
            ≫= BN_CTX_start = Some c') in Hit.
    destruct (Nat.iter n (fun c => c ≫= BN_CTX_start) (Some c))
      as [c1|] eqn:Hn; [|done].
    eapply reachable_start; [by eapply IH | exact Hit].
Qed.

End MoreBignumFacts.

(** ** The further properties at work *)

Lemma cfg8_more_ok : cfg_more_ok cfg8 cfg8_more.
Proof. by split. Qed.

Section MoreExamples.
#[local] Existing Instance cfg8.
#[local] Existing Instance cfg8_more.

Lemma pool_deep_reachable : reachable pool_deep.
Proof.
  apply (reachable_iter_start 7 BN_CTX_init); [apply reachable_init|].
  by vm_compute.
Qed.

Lemma words_ok_two_words : words_ok bn_two_words.
Proof. repeat constructor; vm_compute; congruence. Qed.

Lemma words_ok_of_word_5 : words_ok (bn_of_word 5).
Proof. repeat constructor; vm_compute; congruence. Qed.

Lemma words_ok_of_word_128 : words_ok (bn_of_word 128).
Proof. repeat constructor; vm_compute; congruence. Qed.

Lemma BN_get_word_value_witness :
  BN_get_word (bn_of_word 5) = bn_value (bn_of_word 5) /\
  BN_get_word bn_two_words = BN_NAN.
Proof.
  assert (Hs1 : sanityCheckBignum (bn_of_word 5) = true) by reflexivity.
  assert (Hl1 : storage_ok (bn_of_word 5)) by reflexivity.
  assert (Hs2 : sanityCheckBignum bn_two_words = true) by reflexivity.
  assert (Hl2 : storage_ok bn_two_words) by reflexivity.
  destruct (BN_get_word_value (bn_of_word 5) Hs1 Hl1) as [Hone _].
  destruct (BN_get_word_value bn_two_words Hs2 Hl2) as [_ Htwo].
  split.
  - apply Hone. vm_compute. discriminate.
  - apply Htwo. reflexivity.
Defined.

Lemma BN_set_word_get_word_witness :
  BN_get_word (BN_set_word bn_two_words 9).2 = 9 /\
  BN_set_word BN_value_one 9 = (false, BN_value_one).
Proof.
  assert (Hs1 : sanityCheckBignum bn_two_words = true) by reflexivity.
  assert (Hl1 : storage_ok bn_two_words) by reflexivity.
  assert (Hs2 : sanityCheckBignum BN_value_one = true) by reflexivity.
  assert (Hl2 : storage_ok BN_value_one) by reflexivity.
  destruct (BN_set_word_get_word bn_two_words 9 Hs1 Hl1) as [Hset _].
  destruct (BN_set_word_get_word BN_value_one 9 Hs2 Hl2) as [_ Hstatic].
  split.
  - apply Hset. reflexivity.
  - apply Hstatic. reflexivity.
Defined.

Lemma BN_is_bit_set_value_witness :
  bit_value (BN_is_bit_set bn_two_words 70) =
  Z.testbit (bn_value bn_two_words) 70.
Proof.
  assert (Hb : 0 < BN_BITS2) by reflexivity.
  assert (Hs : sanityCheckBignum bn_two_words = true) by reflexivity.
  exact (BN_is_bit_set_value bn_two_words 70 Hb Hs words_ok_two_words).
Defined.

Lemma BN_set_bit_value_witness :
  (BN_set_bit (bn_of_word 5) 70).1 = true /\
  bn_value (BN_set_bit (bn_of_word 5) 70).2 =
  Z.lor (bn_value (bn_of_word 5)) (2 ^ 70).
Proof.
  assert (Hb : 0 < BN_BITS2) by reflexivity.
  assert (Hs : sanityCheckBignum (bn_of_word 5) = true) by reflexivity.
  assert (Hst : is_static (bn_of_word 5) = false) by reflexivity.
  assert (Hl : storage_ok (bn_of_word 5)) by reflexivity.
  assert (Hr : 0 <= 70 < bnWordsToBits (dmax (bn_of_word 5)))
    by (split; [by vm_compute | reflexivity]).
  assert (Hw : Z.quot 70 BN_BITS2 < top (bn_of_word 5) \/
               Z.quot 70 BN_BITS2 + 1 < getBNMaxSize (bn_of_word 5))
    by (right; reflexivity).
  destruct (BN_set_bit_value (bn_of_word 5) 70 Hb Hs Hst Hl
              words_ok_of_word_5 Hr Hw) as (Hok & Hv & _).
  split; [exact Hok | exact Hv].
Defined.

Lemma BN_num_bits_word_length_witness :
  BN_num_bits_word 5 = bit_length 5 /\
  BN_num_bits_word (2 ^ 127) = CRYPT_ERROR_INTERNAL.
Proof.
  assert (H5 : 0 <= 5) by lia.
  assert (Hbig : 0 <= 2 ^ 127) by lia.
  destruct (BN_num_bits_word_length 5 H5) as [Hsmall _].
  destruct (BN_num_bits_word_length (2 ^ 127) Hbig) as [_ Hfull].
  split.
  - apply Hsmall. reflexivity.
  - apply Hfull. lia.
Defined.

Lemma BN_num_bits_value_witness :
  BN_num_bits bn_two_words = bit_length (bn_value bn_two_words) /\
  bn_value bn_two_words < 2 ^ BN_num_bits bn_two_words.
Proof.
  assert (Hb : 0 < BN_BITS2 <= 127)
    by (split; [reflexivity | vm_compute; discriminate]).
  assert (Hs : sanityCheckBignum bn_two_words = true) by reflexivity.
  assert (Hn : normalised bn_two_words)
    by (right; vm_compute; discriminate).
  destruct (BN_num_bits_value bn_two_words Hb Hs words_ok_two_words Hn)
    as (Hbits & [_ Hlt] & _).
  split; [exact Hbits | exact Hlt].
Defined.

Lemma BN_normalise_value_witness :
  (BN_normalise bn_padded).1 = true /\
  normalised (BN_normalise bn_padded).2 /\
  bn_value (BN_normalise bn_padded).2 = bn_value bn_padded.
Proof.
  assert (Hs : sanityCheckBignum bn_padded = true) by reflexivity.
  assert (Hok : top bn_padded < getBNMaxSize bn_padded \/
                exists i, 0 <= i < top bn_padded /\ rd (d bn_padded) i <> 0)
    by (left; reflexivity).
  destruct (BN_normalise_value bn_padded Hs Hok) as (Hr & Hn & Hv & _).
  split; [exact Hr|]. split; [exact Hn | exact Hv].
Defined.

Lemma BN_normalise_full_zero_witness :
  BN_normalise bn_full_zero =
  (false, with_value bn_full_zero 0 (neg bn_full_zero) (d bn_full_zero)).
Proof.
  assert (Hs : sanityCheckBignum bn_full_zero = true) by reflexivity.
  assert (Ht : top bn_full_zero = getBNMaxSize bn_full_zero) by reflexivity.
  assert (Hz : forall j, 0 <= j < top bn_full_zero ->
                 rd (d bn_full_zero) j = 0).
  { intros j Hj. change (0 <= j < 4) in Hj.
    assert (Hcases : j = 0 \/ j = 1 \/ j = 2 \/ j = 3) by lia.
    destruct Hcases as [->|[->|[->| ->]]]; reflexivity. }
  exact (BN_normalise_full_zero bn_full_zero Hs Ht Hz).
Defined.

Lemma BN_swap_exchanges_witness :
  bn_value (BN_swap (bn_of_word 5) bn_two_words).1 = bn_value bn_two_words /\
  bn_value (BN_swap (bn_of_word 5) bn_two_words).2 = bn_value (bn_of_word 5).
Proof.
  assert (Hs1 : sanityCheckBignum (bn_of_word 5) = true) by reflexivity.
  assert (Hs2 : sanityCheckBignum bn_two_words = true) by reflexivity.
  assert (Hl1 : storage_ok (bn_of_word 5)) by reflexivity.
  assert (Hl2 : storage_ok bn_two_words) by reflexivity.
  assert (Hst : is_static (bn_of_word 5) = false) by reflexivity.
  assert (Ht1 : top (bn_of_word 5) <= BIGNUM_ALLOC_WORDS)
    by (vm_compute; discriminate).
  assert (Ht2 : top bn_two_words <= dmax (bn_of_word 5))
    by (vm_compute; discriminate).
  assert (Ht3 : top (bn_of_word 5) <= dmax bn_two_words)
    by (vm_compute; discriminate).
  destruct (BN_swap_exchanges (bn_of_word 5) bn_two_words cfg8_ok
              Hs1 Hs2 Hl1 Hl2 Hst Ht1 Ht2 Ht3)
    as ((Hv1 & _) & (Hv2 & _) & _).
  split; [exact Hv1 | exact Hv2].
Defined.

Lemma BN_swap_given_up_witness :
  BN_swap bn_ext_five (bn_of_word 5) = (bn_ext_five, bn_of_word 5) /\
  (BN_swap bn_two_words bn_small).2 = bn_small /\
  bn_value (BN_swap bn_two_words bn_small).1 = bn_value bn_small.
Proof.
  assert (Hs1 : sanityCheckBignum bn_ext_five = true) by reflexivity.
  assert (Hs2 : sanityCheckBignum (bn_of_word 5) = true) by reflexivity.
  assert (Hl2 : storage_ok (bn_of_word 5)) by reflexivity.
  assert (Hst1 : is_static bn_ext_five = false) by reflexivity.
  assert (Hs3 : sanityCheckBignum bn_two_words = true) by reflexivity.
  assert (Hs4 : sanityCheckBignum bn_small = true) by reflexivity.
  assert (Hl4 : storage_ok bn_small) by reflexivity.
  assert (Hst3 : is_static bn_two_words = false) by reflexivity.
  destruct (BN_swap_given_up bn_ext_five (bn_of_word 5) cfg8_ok
              Hs1 Hs2 Hl2 Hst1) as [Hbig _].
  destruct (BN_swap_given_up bn_two_words bn_small cfg8_ok
              Hs3 Hs4 Hl4 Hst3) as [_ Hhalf].
  split.
  - apply Hbig. left. reflexivity.
  - assert (Ht1 : top bn_two_words <= BIGNUM_ALLOC_WORDS)
      by (vm_compute; discriminate).
    assert (Ht2 : top bn_small <= dmax bn_two_words)
      by (vm_compute; discriminate).
    assert (Ht3 : dmax bn_small < top bn_two_words) by reflexivity.
    destruct (Hhalf Ht1 Ht2 Ht3) as (Hsecond & Hv & _).
    split; [exact Hsecond | exact Hv].
Defined.

Lemma BN_clear_zero_witness :
  bn_value (BN_clear bn_two_words) = 0 /\
  BN_get_word (BN_clear bn_two_words) = 0 /\
  BN_num_bits (BN_clear bn_two_words) = 0 /\
  BN_clear (BN_clear bn_two_words) = BN_clear bn_two_words.
Proof.
  assert (Hb : 0 < BN_BITS2) by reflexivity.
  assert (Hs : sanityCheckBignum bn_two_words = true) by reflexivity.
  assert (Hst : is_static bn_two_words = false) by reflexivity.
  assert (Hl : storage_ok bn_two_words) by reflexivity.
  destruct (BN_clear_zero bn_two_words Hb Hs Hst Hl)
    as ((_ & _ & _ & _ & Hv) & _ & (Hw & Hn & _) & Hagain).
  split; [exact Hv|]. split; [exact Hw|]. split; [exact Hn | exact Hagain].
Defined.

Lemma BN_dup_value_witness :
  (exists newBignum,
     BN_dup true BN_value_one = Some newBignum /\
     bn_value newBignum = bn_value BN_value_one /\
     is_static newBignum = false) /\
  BN_dup true bn_ext_five = None.
Proof.
  assert (Hl1 : storage_ok BN_value_one) by reflexivity.
  assert (Hl2 : storage_ok bn_ext_five) by reflexivity.
  destruct (BN_dup_value true BN_value_one cfg8_ok cfg8_more_ok Hl1)
    as (Hdup & _).
  destruct (BN_dup_value true bn_ext_five cfg8_ok cfg8_more_ok Hl2)
    as (_ & Hnone & _).
  split.
  - assert (Hs : sanityCheckBignum BN_value_one = true) by reflexivity.
    assert (Ht : top BN_value_one <= BIGNUM_ALLOC_WORDS)
      by (vm_compute; discriminate).
    destruct (Hdup Hs Ht) as (nb & Hd & Hv & _ & _ & _ & _ & Hst & _).
    exists nb. split; [exact Hd|]. split; [exact Hv | exact Hst].
  - apply Hnone. right. reflexivity.
Defined.

Lemma BN_RECP_CTX_set_value_witness :
  (BN_RECP_CTX_set recp_in_use bn_two_words).1 = true /\
  bn_value (recp_N (BN_RECP_CTX_set recp_in_use bn_two_words).2) =
  bn_value bn_two_words /\
  recp_Nr (BN_RECP_CTX_set recp_in_use bn_two_words).2 = BN_init /\
  BN_RECP_CTX_set recp_in_use bn_ext_five = (false, BN_RECP_CTX_init).
Proof.
  assert (Hl1 : storage_ok bn_two_words) by reflexivity.
  assert (Hl2 : storage_ok bn_ext_five) by reflexivity.
  destruct (BN_RECP_CTX_set_value recp_in_use bn_two_words cfg8_ok Hl1)
    as (Hset & _).
  destruct (BN_RECP_CTX_set_value recp_in_use bn_ext_five cfg8_ok Hl2)
    as (_ & Hfail).
  assert (Hs : sanityCheckBignum bn_two_words = true) by reflexivity.
  assert (Ht : top bn_two_words <= BIGNUM_ALLOC_WORDS)
    by (vm_compute; discriminate).
  destruct (Hset Hs Ht) as (Hr & Hv & _ & _ & _ & Hnr & _).
  split; [exact Hr|]. split; [exact Hv|]. split; [exact Hnr|].
  apply Hfail. right. reflexivity.
Defined.

Lemma BN_RECP_CTX_free_after_set_witness :
  top (recp_N (BN_RECP_CTX_free (BN_RECP_CTX_set recp_in_use bn_two_words).2))
    = 0 /\
  recp_num_bits (BN_RECP_CTX_free (BN_RECP_CTX_set recp_in_use bn_two_words).2)
    = BN_num_bits bn_two_words.
Proof.
  assert (Hl : storage_ok bn_two_words) by reflexivity.
  assert (Hs : sanityCheckBignum bn_two_words = true) by reflexivity.
  assert (Ht : top bn_two_words <= BIGNUM_ALLOC_WORDS)
    by (vm_compute; discriminate).
  destruct (BN_RECP_CTX_free_after_set recp_in_use bn_two_words cfg8_ok
              Hl Hs Ht) as (_ & Htop & _ & _ & _ & Hbits).
  split; [exact Htop | exact Hbits].
Defined.

Lemma BN_MONT_CTX_free_sane_witness :
  sanityCheckBNMontCTX BN_MONT_CTX_init = true /\
  sanityCheckBNMontCTX (BN_MONT_CTX_free mont_in_use).1 = true /\
  top (mont_N (BN_MONT_CTX_free mont_in_use).1) = 0.
Proof.
  destruct (BN_MONT_CTX_free_sane mont_in_use cfg8_ok cfg8_more_ok)
    as (Hinit & Hfree).
  assert (Hs : sanityCheckBNMontCTX mont_in_use = true) by reflexivity.
  destruct (Hfree Hs) as (Hsane & _ & Hn & _).
  split; [exact Hinit|]. split; [exact Hsane|].
  apply Hn. reflexivity.
Defined.

Lemma BN_high_bit_value_witness :
  BN_num_bytes (bn_of_word 128) = (bit_length (bn_value (bn_of_word 128)) + 7) / 8 /\
  BN_high_bit (bn_of_word 128) =
    negb (bn_value (bn_of_word 128) =? 0)
    && (bit_length (bn_value (bn_of_word 128)) mod 8 =? 0).
Proof.
  assert (Hy : 0 < BN_BYTES) by reflexivity.
  assert (Hbits : BN_BITS2 = 8 * BN_BYTES) by reflexivity.
  assert (Hmax : BN_BITS2 <= 127) by (vm_compute; discriminate).
  assert (Hs : sanityCheckBignum (bn_of_word 128) = true) by reflexivity.
  assert (Hn : normalised (bn_of_word 128))
    by (right; vm_compute; discriminate).
  exact (BN_high_bit_value (bn_of_word 128) Hy Hbits Hmax Hs
           words_ok_of_word_128 Hn).
Defined.

Lemma BN_CTX_start_nesting_witness :
  (exists bnCTX',
     BN_CTX_start BN_CTX_init = Some bnCTX' /\ stackPos bnCTX' = 1) /\
  BN_CTX_start pool_deep = None.
Proof.
  destruct (BN_CTX_start_nesting BN_CTX_init cfg8_ok reachable_init)
    as (Hopen & _).
  destruct (BN_CTX_start_nesting pool_deep cfg8_ok pool_deep_reachable)
    as (_ & Hdeep).
  split.
  - assert (Hroom : stackPos BN_CTX_init + 1 < BN_CTX_ARRAY_SIZE)
      by reflexivity.
    destruct (Hopen Hroom) as (c & Hs & Hp & _).
    exists c. split; [exact Hs | exact Hp].
  - apply Hdeep. reflexivity.
Defined.

Lemma BN_CTX_start_end_round_trip_witness :
  BN_CTX_start ext_in_use ≫= BN_CTX_end = Some ext_in_use.
Proof.
  assert (Hroom : stackPos ext_in_use + 1 < BN_CTX_ARRAY_SIZE) by reflexivity.
  assert (Ht : stack_top ext_in_use = Some 0) by reflexivity.
  assert (Hfree : 0 < BN_CTX_ARRAY_SIZE) by reflexivity.
  exact (BN_CTX_start_end_round_trip ext_in_use 0 cfg8_ok
           ext_in_use_reachable Hroom Ht Hfree).
Defined.

Lemma BN_CTX_end_releases_witness :
  (exists c, BN_CTX_end ext_in_use = Some c /\
             bnArrayMax c = bnArrayMax ext_in_use) /\
  BN_CTX_end BN_CTX_init = None.
Proof.
  destruct (BN_CTX_end_releases ext_in_use cfg8_ok ext_in_use_reachable)
    as (Hin & _).
  destruct (BN_CTX_end_releases BN_CTX_init cfg8_ok reachable_init)
    as (_ & Hunder).
  split.
  - assert (Hpos : 0 < stackPos ext_in_use) by reflexivity.
    destruct (Hin Hpos) as (lo & hi & c & _ & _ & _ & He & _ & _ & _ & _ & Hm & _).
    exists c. split; [exact He | exact Hm].
  - apply Hunder. reflexivity.
Defined.

Lemma BN_CTX_exhaustion_is_final_witness :
  exists later,
    BN_CTX_end pool_full = Some later /\
    BN_CTX_get later = Some (None, later).
Proof.
  eexists. split; [reflexivity|].
  eapply (BN_CTX_exhaustion_is_final pool_full _ cfg8_ok pool_full_reachable).
  - eapply later_step; [apply later_here|]. apply step_end. reflexivity.
  - reflexivity.
Defined.

Lemma BN_CTX_init_bignums_witness :
  sanityCheckBignum (BN_init_ext true) = true /\
  getBNMaxSize (BN_init_ext true) = BIGNUM_ALLOC_WORDS_EXT2.
Proof.
  assert (Hd : deref BN_CTX_init (InExt2Array 1) = Some (BN_init_ext true))
    by reflexivity.
  destruct (BN_CTX_init_bignums (InExt2Array 1) (BN_init_ext true) cfg8_ok Hd)
    as (Hs & _ & _ & _ & _ & _ & _ & Hmax).
  split; [exact Hs | exact Hmax].
Defined.

Lemma BN_CTX_final_resets_witness :
  BN_CTX_final pool_full = BN_CTX_init /\
  exists bnCTX',
    BN_CTX_get (BN_CTX_final pool_full) = Some (Some (InArray 0), bnCTX').
Proof.
  destruct (BN_CTX_final_resets pool_full cfg8_ok pool_full_reachable)
    as (Hf & _ & _ & _ & c & Hg & _).
  split; [exact Hf|]. exists c. exact Hg.
Defined.

Lemma BN_CTX_get_no_alias_witness :
  exists ps c1 c2 qs c3,
    get_n 2 ext_in_use = Some (ps, c1) /\
    BN_CTX_start c1 = Some c2 /\
    get_n 3 c2 = Some (qs, c3) /\
    NoDup (ps ++ qs) /\ bnArray c3 = bnArray ext_in_use.
Proof.
  assert (Ht : stack_top ext_in_use = Some 0) by reflexivity.
  assert (Hdeep : stackPos ext_in_use + 1 < BN_CTX_ARRAY_SIZE) by reflexivity.
  assert (Hroom : 0 + Z.of_nat 2 + Z.of_nat 3 <= BN_CTX_ARRAY_SIZE)
    by (vm_compute; discriminate).
  destruct (BN_CTX_get_no_alias ext_in_use 0 2 3 cfg8_ok ext_in_use_reachable
              Ht Hdeep Hroom)
    as (ps & c1 & c2 & qs & c3 & Hg1 & Hs & Hg2 & _ & _ & Hnd & _ & Ha).
  exists ps, c1, c2, qs, c3.
  split; [exact Hg1|]. split; [exact Hs|]. split; [exact Hg2|].
  split; [exact Hnd | exact Ha].
Defined.

End MoreExamples.
